(** * Task tracking dashboard: the task routes and the hour totals

    A shallow embedding of
    - [app/api/tasks/route.ts]       (GET list, POST create),
    - [app/api/tasks/[id]/route.ts]  (PUT update, DELETE),
    - the [ProjectDetailTable] totals of the dashboard,
    together with the JavaScript built-ins these handlers call
    ([trim], [parseFloat], [toString], truthiness, number addition).
    Numbers are the primitive doubles of the prover; what is proved of their
    addition for all inputs rests on the specification of the primitive
    operations in the standard library ([FloatAxioms]). *)

From Stdlib Require Import ZArith Ascii String List Bool Lia.
From Stdlib Require Import PrimFloat SpecFloat FloatOps FloatAxioms.
From Stdlib Require Import DecimalString.
From stdpp Require Import gmap strings list sorting.

Set Warnings "-register-all".
Local Open Scope string_scope.
Local Open Scope Z_scope.

(** ** JavaScript values and built-ins *)

Module JS.

(** A JSON value as [JSON.parse] returns it; [JUndefined] is what reading a
    missing property gives.  Numbers are IEEE-754 doubles. *)
Inductive jsval : Type :=
| JUndefined
| JNull
| JBool (b : bool)
| JNum (f : float)
| JStr (s : string)
| JArr (l : list jsval)
| JObj (kv : list (string * jsval)).

(** Strings are sequences of code units below 256; the white space that
    [trim] and [parseFloat] skip is TAB, LF, VT, FF, CR, SP and NBSP. *)
Definition is_space (c : ascii) : bool :=
  let n := Z.of_nat (nat_of_ascii c) in
  ((9 <=? n) && (n <=? 13)) || (n =? 32) || (n =? 160).

Fixpoint trimStart (s : string) : string :=
  match s with
  | String c s' => if is_space c then trimStart s' else s
  | EmptyString => EmptyString
  end.

Fixpoint trimEnd (s : string) : string :=
  match s with
  | String c s' =>
      match trimEnd s' with
      | EmptyString => if is_space c then EmptyString else String c EmptyString
      | r => String c r
      end
  | EmptyString => EmptyString
  end.

Definition trim (s : string) : string := trimEnd (trimStart s).

(** *** Decimal text to double, correctly rounded *)

Definition neg_if (neg : bool) (f : float) : float :=
  if neg then (- f)%float else f.

(** The double nearest to [m * 10^e] (ties to even), [m >= 0].  The quotient
    is taken with at least 64 significant bits and a sticky bit, so the one
    rounding done by [binary_normalize] is the rounding of the exact value.
    Magnitudes beyond the double range are cut off before any power is
    computed. *)
Definition float_of_decimal (neg : bool) (m e : Z) : float :=
  if m <=? 0 then neg_if neg zero
  else
    let mag := (Z.log2 m * 30103) / 100000 + e in
    if 310 <? mag then neg_if neg infinity
    else if mag <? -330 then neg_if neg zero
    else
      let num := m * 10 ^ Z.max e 0 in
      let den := 10 ^ Z.max (- e) 0 in
      let k := Z.max 0 (66 + Z.log2 den - Z.log2 num) in
      let (q, r) := Z.div_eucl (Z.shiftl num k) den in
      let mz := 2 * q + (if r =? 0 then 0 else 1) in
      neg_if neg (SF2Prim (binary_normalize prec emax mz (- k - 1) false)).

Definition digit_of (c : ascii) : option Z :=
  let n := Z.of_nat (nat_of_ascii c) in
  if (48 <=? n) && (n <=? 57) then Some (n - 48) else None.

(** Reads the longest run of decimal digits: the accumulated value, the
    number of digits read and the rest of the text. *)
Fixpoint read_digits (s : string) (acc cnt : Z) : Z * Z * string :=
  match s with
  | String c s' =>
      match digit_of c with
      | Some d => read_digits s' (10 * acc + d) (cnt + 1)
      | None => (acc, cnt, s)
      end
  | EmptyString => (acc, cnt, s)
  end.

Definition read_sign (s : string) : bool * string :=
  match s with
  | String "-" s' => (true, s')
  | String "+" s' => (false, s')
  | _ => (false, s)
  end.

(** The exponent part [e[+-]digits]; it counts only when a digit follows. *)
Definition read_exponent (s : string) : Z :=
  match s with
  | String c s' =>
      if (Ascii.eqb c "e" || Ascii.eqb c "E")%bool then
        let (neg, s'') := read_sign s' in
        let '(v, cnt, _) := read_digits s'' 0 0 in
        if cnt =? 0 then 0 else if neg then - v else v
      else 0
  | EmptyString => 0
  end.

(** What [parseFloat] reads at the start of a text: nothing that is a
    number, [Infinity], or a decimal literal with the value [m * 10^e] and a
    sign. *)
Inductive literal : Type :=
| NotANumber
| Infinite (neg : bool)
| Decimal (neg : bool) (m e : Z).

(** Leading white space is skipped and the longest prefix that is a decimal
    literal is read; anything after it is ignored. *)
Definition read_literal (s : string) : literal :=
  let (neg, s1) := read_sign (trimStart s) in
  if String.prefix "Infinity" s1 then Infinite neg
  else
    let '(ip, ni, s2) := read_digits s1 0 0 in
    let '(m, nf, s3) :=
      match s2 with
      | String "." s2' => read_digits s2' ip 0
      | _ => (ip, 0, s2)
      end in
    if ni + nf =? 0 then NotANumber
    else Decimal neg m (read_exponent s3 - nf).

(** [parseFloat] on a string: the double nearest to the literal read; no
    literal gives NaN. *)
Definition parseFloat_string (s : string) : float :=
  match read_literal s with
  | NotANumber => nan
  | Infinite neg => neg_if neg infinity
  | Decimal neg m e => float_of_decimal neg m e
  end.

(** *** Double to decimal text ([Number::toString], radix 10) *)

(** The exact value [m * 2^e] of a finite double as a fraction. *)
Definition float_ratio (m : positive) (e : Z) : Z * Z :=
  (Zpos m * 2 ^ Z.max e 0, 2 ^ Z.max (- e) 0).

(** [v / 10^p] *)
Definition scale10 (v : Z * Z) (p : Z) : Z * Z :=
  (fst v * 10 ^ Z.max (- p) 0, snd v * 10 ^ Z.max p 0).

Definition below_pow10 (v : Z * Z) (n : Z) : bool :=
  let (a, b) := scale10 v n in a <? b.

(** The least [n] from a starting guess with [v < 10^n]. *)
Fixpoint decimal_exponent (fuel : nat) (v : Z * Z) (n : Z) : Z :=
  match fuel with
  | O => n
  | S fuel' =>
      if below_pow10 v n then n else decimal_exponent fuel' v (n + 1)
  end.

(** The shortest digit string [s] (of [k] digits) with [s * 10^(n-k)]
    reading back as [f]; of two candidates the one nearer to [f]. *)
Fixpoint shortest_digits (fuel : nat) (f : float) (v : Z * Z) (n k : Z) : Z * Z :=
  let (a, b) := scale10 v (n - k) in
  let lo := a / b in
  let r := a mod b in
  let lo_ok := (f =? float_of_decimal false lo (n - k))%float in
  let hi_ok := (f =? float_of_decimal false (lo + 1) (n - k))%float in
  let pick :=
    if r =? 0 then Some lo
    else
      match lo_ok, hi_ok with
      | true, true =>
          Some match 2 * r ?= b with
               | Lt => lo
               | Gt => lo + 1
               | Eq => if Z.even lo then lo else lo + 1
               end
      | true, false => Some lo
      | false, true => Some (lo + 1)
      | false, false => None
      end in
  match pick, fuel with
  | Some s, _ => (s, k)
  | None, S fuel' => shortest_digits fuel' f v n (k + 1)
  | None, O => (lo, k)
  end.

Definition digits_of_Z (z : Z) : string :=
  NilZero.string_of_uint (N.to_uint (Z.to_N z)).

Fixpoint zeros (n : nat) : string :=
  match n with
  | O => EmptyString
  | S n' => String "0" (zeros n')
  end.

Fixpoint strip_zeros (s : string) : string :=
  match s with
  | String c s' =>
      match strip_zeros s' with
      | EmptyString => if Ascii.eqb c "0" then EmptyString else String c EmptyString
      | r => String c r
      end
  | EmptyString => EmptyString
  end.

(** The digits [ds] with the decimal point after the first [n] of them. *)
Definition format_number (ds : string) (n : Z) : string :=
  let k := Z.of_nat (String.length ds) in
  if (k <=? n) && (n <=? 21) then ds ++ zeros (Z.to_nat (n - k))
  else if (0 <? n) && (n <=? 21) then
    substring 0 (Z.to_nat n) ds ++ "." ++ substring (Z.to_nat n) (Z.to_nat (k - n)) ds
  else if (-6 <? n) && (n <=? 0) then "0." ++ zeros (Z.to_nat (- n)) ++ ds
  else
    let e := n - 1 in
    let es := (if e <? 0 then "-" else "+") ++ digits_of_Z (Z.abs e) in
    if k =? 1 then ds ++ "e" ++ es
    else substring 0 1 ds ++ "." ++ substring 1 (Z.to_nat (k - 1)) ds ++ "e" ++ es.

Definition number_toString (f : float) : string :=
  if is_nan f then "NaN"
  else if is_zero f then "0"
  else if is_infinity f then (if (f <? 0)%float then "-Infinity" else "Infinity")
  else
    match Prim2SF f with
    | S754_finite neg m e =>
        let v := float_ratio m e in
        let n0 := ((Z.log2 (fst v) - Z.log2 (snd v)) * 30103) / 100000 - 1 in
        let n := decimal_exponent 6 v n0 in
        let (s, k) := shortest_digits 17 (abs f) v n 1 in
        let ds := digits_of_Z s in
        let n' := n + (Z.of_nat (String.length ds) - k) in
        (if neg then "-" else "") ++ format_number (strip_zeros ds) n'
    | _ => "NaN"
    end.

(** [Number.prototype.toFixed(1)]: the integer [n] with [n / 10] nearest to
    the value, the larger one on a tie. *)
Definition toFixed1 (f : float) : string :=
  if is_nan f then "NaN"
  else
    match Prim2SF f with
    | S754_finite neg m e =>
        let (a, b) := float_ratio m e in
        if 10 ^ 21 * b <=? a then number_toString f
        else
          let n := (20 * a + b) / (2 * b) in
          (if neg then "-" else "") ++ digits_of_Z (n / 10) ++ "." ++ digits_of_Z (n mod 10)
    | S754_zero _ => "0.0"
    | _ => number_toString f
    end.

(** *** Conversions and operators on values *)

Fixpoint join_comma (ss : list string) : string :=
  match ss with
  | [] => ""
  | [s] => s
  | s :: rest => s ++ "," ++ join_comma rest
  end.

(** Evaluating an expression either gives a value or throws. *)
Inductive completion (A : Type) : Type :=
| Normal (a : A)
| Throws.
Arguments Normal {A} a.
Arguments Throws {A}.

(** The object has a property [k] of its own. *)
Definition has_own (kv : list (string * jsval)) (k : string) : bool :=
  existsb (fun p => String.eqb (fst p) k) kv.

(** The conversion of a value to a string ([ToString]).  An array joins the
    conversions of its elements, null and undefined giving the empty
    string.  An object of [JSON.parse] inherits [Object.prototype.toString]
    and gives ["[object Object]"], unless it has a property [toString] of
    its own: that value is not a function, the inherited [valueOf] returns
    the object, and the conversion throws a TypeError. *)
Fixpoint js_toString (v : jsval) : completion string :=
  match v with
  | JUndefined => Normal "undefined"
  | JNull => Normal "null"
  | JBool true => Normal "true"
  | JBool false => Normal "false"
  | JNum f => Normal (number_toString f)
  | JStr s => Normal s
  | JArr l =>
      match
        (fix elements (l : list jsval) : completion (list string) :=
           match l with
           | [] => Normal []
           | x :: rest =>
               match match x with
                     | JUndefined | JNull => Normal ""
                     | _ => js_toString x
                     end, elements rest with
               | Normal s, Normal ss => Normal (s :: ss)
               | _, _ => Throws
               end
           end) l
      with
      | Normal ss => Normal (join_comma ss)
      | Throws => Throws
      end
  | JObj kv => if has_own kv "toString" then Throws else Normal "[object Object]"
  end.

(** [!!v] *)
Definition truthy (v : jsval) : bool :=
  match v with
  | JUndefined | JNull => false
  | JBool b => b
  | JNum f => negb (is_zero f || is_nan f)
  | JStr s => negb (String.eqb s "")
  | JArr _ | JObj _ => true
  end.

(** [parseFloat(v)]: the argument is converted to a string first. *)
Definition parseFloat (v : jsval) : completion float :=
  match js_toString v with
  | Normal s => Normal (parseFloat_string s)
  | Throws => Throws
  end.

(** [isNaN(x)] and [x < 0] on numbers. *)
Definition isNaN (x : float) : bool := is_nan x.
Definition lt0 (x : float) : bool := (x <? 0)%float.

(** [v?.trim()]: undefined on a nullish value, the trimmed string on a
    string, and a TypeError on anything else ([v.trim] is not a function). *)
Definition opt_trim (v : jsval) : completion jsval :=
  match v with
  | JUndefined | JNull => Normal JUndefined
  | JStr s => Normal (JStr (trim s))
  | _ => Throws
  end.

(** [v.toString()]: a TypeError on null and undefined; on any other value
    of [JSON.parse] the method found is the one [ToString] uses, or the
    object's own property [toString], which is not a function. *)
Definition call_toString (v : jsval) : completion string :=
  match v with
  | JUndefined | JNull => Throws
  | _ => js_toString v
  end.

(** [v?.toString()] *)
Definition opt_toString (v : jsval) : completion (option string) :=
  match v with
  | JUndefined | JNull => Normal None
  | _ => match js_toString v with
         | Normal s => Normal (Some s)
         | Throws => Throws
         end
  end.

(** The last binding of a key, as [JSON.parse] keeps it. *)
Fixpoint own_property (kv : list (string * jsval)) (k : string) : jsval :=
  match kv with
  | [] => JUndefined
  | (k', v) :: rest =>
      match own_property rest k with
      | JUndefined => if String.eqb k' k then v else JUndefined
      | found => found
      end
  end.

(** Reading property [k] while destructuring [const { k } = o]: a TypeError
    on null, undefined on the other primitives and on arrays. *)
Definition get_property (o : jsval) (k : string) : completion jsval :=
  match o with
  | JUndefined | JNull => Throws
  | JObj kv => Normal (own_property kv k)
  | _ => Normal JUndefined
  end.

(** [s.toLowerCase()] on code units below 256: the letters A-Z and the
    accented capitals U+00C0-U+00DE (but not the sign U+00D7) move up by 32. *)
Definition lower_char (c : ascii) : ascii :=
  let n := nat_of_ascii c in
  if ((65 <=? n) && (n <=? 90) || (192 <=? n) && (n <=? 222) && negb (n =? 215))%nat
  then ascii_of_nat (n + 32)
  else c.

Fixpoint toLowerCase (s : string) : string :=
  match s with
  | EmptyString => EmptyString
  | String c s' => String (lower_char c) (toLowerCase s')
  end.

(** [s.includes(sub)] *)
Fixpoint includes (s sub : string) : bool :=
  String.prefix sub s
  || match s with
     | String _ s' => includes s' sub
     | EmptyString => false
     end.

(** What [JSON.parse(JSON.stringify(x))] gives for a number [x]: a number
    that is not finite is written as [null], any other is written with
    [Number::toString] and read again. *)
Definition JSON_number (x : float) : jsval :=
  if is_nan x || is_infinity x then JNull
  else JNum (parseFloat_string (number_toString x)).

End JS.

Import JS.

(** ** The tables ([@/drizzle/schema]) *)

Module Tasks.

Inductive status_t : Type := pending | approved | rejected.

Definition status_text (s : status_t) : string :=
  match s with
  | pending => "pending"
  | approved => "approved"
  | rejected => "rejected"
  end.

Record row : Type := mk {
  id : string;
  projectId : string;
  employeeId : string;
  taskName : string;
  description : option string;
  expectedHours : string;
  actualHours : string;
  status : status_t;
  approvedBy : option string;
  approvedAt : option Z;
  rejectionReason : option string;
  createdAt : Z;
  updatedAt : Z
}.

End Tasks.

Module Projects.

Record row : Type := mk {
  id : string;
  projectName : string;
  description : option string;
  createdBy : string;
  isActive : bool;
  createdAt : Z;
  updatedAt : Z
}.

End Projects.

Module UserTable.

Record row : Type := mk {
  id : string;
  name : string;
  email : string
}.

End UserTable.

(** ** Sessions, responses and the handler monad *)

(** [session.user] of [auth()]. *)
Record SessionUser : Type := {
  user_id : string;
  user_role : string
}.

(** A task row of the list query, left-joined with its employee and its
    project. *)
Record TaskView : Type := {
  v_taskId : string;
  v_taskName : string;
  v_description : option string;
  v_expectedHours : string;
  v_actualHours : string;
  v_status : Tasks.status_t;
  v_approvedAt : option Z;
  v_rejectionReason : option string;
  v_createdAt : Z;
  v_updatedAt : Z;
  v_projectId : option string;
  v_projectName : option string;
  v_employeeId : option string;
  v_employeeName : option string;
  v_employeeEmail : option string
}.

Inductive payload : Type :=
| ErrorBody (error : string)
| MessageBody (message : string)
| TaskBody (task : option Tasks.row)
| TasksBody (tasks : list TaskView).

(** [NextResponse.json(body, { status })] *)
Record response : Type := NextResponse_json {
  body : payload;
  status : Z
}.

Record database : Type := {
  tasks : gmap string Tasks.row;
  projects : gmap string Projects.row;
  users : gmap string UserTable.row
}.

(** The statements a handler sends to the database, in order. *)
Inductive statement : Type :=
| SelectTask (id : string)
| SelectProject (id : string)
| SelectTasks
| InsertTask
| UpdateTask (id : string)
| DeleteTask (id : string).

Definition is_mutation (q : statement) : bool :=
  match q with
  | InsertTask | UpdateTask _ | DeleteTask _ => true
  | _ => false
  end.

Record world : Type := {
  db : database;
  sent : list statement
}.

(** A step of a handler: it goes on with a value, leaves the handler with a
    response ([return NextResponse.json(...)]) or throws. *)
Inductive outcome (A : Type) : Type :=
| Value (a : A)
| Return (r : response)
| Thrown.
Arguments Value {A} a.
Arguments Return {A} r.
Arguments Thrown {A}.

Definition handler (A : Type) : Type := world -> outcome A * world.

Definition ret {A} (a : A) : handler A := fun w => (Value a, w).

Definition bind {A B} (c : handler A) (k : A -> handler B) : handler B :=
  fun w =>
    match c w with
    | (Value a, w') => k a w'
    | (Return r, w') => (Return r, w')
    | (Thrown, w') => (Thrown, w')
    end.

Notation "'let!' x := c 'in' k" := (bind c (fun x => k))
  (at level 10, x name, c at level 100, k at level 200).
Notation "'do!' c 'in' k" := (bind c (fun _ => k))
  (at level 10, c at level 100, k at level 200).

Definition respond {A} (b : payload) (st : Z) : handler A :=
  fun w => (Return (NextResponse_json b st), w).

Definition throw {A} : handler A := fun w => (Thrown, w).

(** [if (c) return NextResponse.json(b, { status: st })] *)
Definition return_if (c : bool) (b : payload) (st : Z) : handler unit :=
  if c then respond b st else ret tt.

Definition eval {A} (c : completion A) : handler A :=
  match c with
  | Normal a => ret a
  | Throws => throw
  end.

(** [try { ... } catch (error) { return NextResponse.json({ error: msg },
    { status: 500 }) }] *)
Definition try_catch (c : handler response) (msg : string) (w : world) : response * world :=
  match c w with
  | (Value r, w') => (r, w')
  | (Return r, w') => (r, w')
  | (Thrown, w') => (NextResponse_json (ErrorBody msg) 500, w')
  end.

(** [if (!session?.user) return 401] *)
Definition require_user (session : option SessionUser) : handler SessionUser :=
  match session with
  | Some u => ret u
  | None => respond (ErrorBody "Unauthorized") 401
  end.

(** ** Database statements *)

Module Db.

Definition log (q : statement) : handler unit :=
  fun w => (Value tt, {| db := db w; sent := sent w ++ [q] |}).

Definition set_tasks (d : database) (ts : gmap string Tasks.row) : database :=
  {| tasks := ts; projects := projects d; users := users d |}.

(** [db.select().from(Tasks).where(eq(Tasks.id, id)).limit(1)] *)
Definition select_task (id : string) : handler (option Tasks.row) :=
  do! log (SelectTask id) in
  fun w => (Value (tasks (db w) !! id), w).

(** [db.select().from(Projects).where(eq(Projects.id, id)).limit(1)] *)
Definition select_project (id : string) : handler (option Projects.row) :=
  do! log (SelectProject id) in
  fun w => (Value (projects (db w) !! id), w).

(** [db.delete(Tasks).where(eq(Tasks.id, id))] *)
Definition delete_task (id : string) : handler unit :=
  do! log (DeleteTask id) in
  fun w => (Value tt, {| db := set_tasks (db w) (delete id (tasks (db w))); sent := sent w |}).

(** The object given to [.set(...)]; a column whose value is [undefined] is
    left as it is. *)
Record task_set : Type := {
  set_taskName : string;
  set_description : option string;
  set_expectedHours : option string;
  set_actualHours : option string;
  set_updatedAt : Z
}.

Definition apply_set (s : task_set) (t : Tasks.row) : Tasks.row :=
  {| Tasks.id := Tasks.id t;
     Tasks.projectId := Tasks.projectId t;
     Tasks.employeeId := Tasks.employeeId t;
     Tasks.taskName := set_taskName s;
     Tasks.description := set_description s;
     Tasks.expectedHours := default (Tasks.expectedHours t) (set_expectedHours s);
     Tasks.actualHours := default (Tasks.actualHours t) (set_actualHours s);
     Tasks.status := Tasks.status t;
     Tasks.approvedBy := Tasks.approvedBy t;
     Tasks.approvedAt := Tasks.approvedAt t;
     Tasks.rejectionReason := Tasks.rejectionReason t;
     Tasks.createdAt := Tasks.createdAt t;
     Tasks.updatedAt := set_updatedAt s |}.

(** The values given to [.values(...)]. *)
Record task_values : Type := {
  val_projectId : string;
  val_employeeId : string;
  val_taskName : string;
  val_description : option string;
  val_expectedHours : string;
  val_actualHours : string;
  val_status : Tasks.status_t
}.

(** The inserted row: the database fills in the key and the two time stamps
    and leaves the approval columns null. *)
Definition new_row (new_id : string) (now : Z) (v : task_values) : Tasks.row :=
  {| Tasks.id := new_id;
     Tasks.projectId := val_projectId v;
     Tasks.employeeId := val_employeeId v;
     Tasks.taskName := val_taskName v;
     Tasks.description := val_description v;
     Tasks.expectedHours := val_expectedHours v;
     Tasks.actualHours := val_actualHours v;
     Tasks.status := val_status v;
     Tasks.approvedBy := None;
     Tasks.approvedAt := None;
     Tasks.rejectionReason := None;
     Tasks.createdAt := now;
     Tasks.updatedAt := now |}.

Section Schema.

(** The column types and constraints are declared in [@/drizzle/schema],
    which is not among the sources.  [row_ok] tells whether the database
    accepts a task row on insert or update; [pg_other] is the text the driver
    binds for a value that is not a string ([None] when the statement is
    rejected). *)
Variable row_ok : Tasks.row -> bool.
Variable pg_other : jsval -> option string.

Definition bind_text (v : jsval) : handler string :=
  match v with
  | JStr s => ret s
  | _ => match pg_other v with
         | Some s => ret s
         | None => throw
         end
  end.

(** A nullable text column: [undefined] and [null] give NULL. *)
Definition bind_text_opt (v : jsval) : handler (option string) :=
  match v with
  | JUndefined | JNull => ret None
  | _ => let! s := bind_text v in ret (Some s)
  end.

(** [db.update(Tasks).set(s).where(eq(Tasks.id, id)).returning()] *)
Definition update_task (id : string) (s : task_set) : handler (list Tasks.row) :=
  do! log (UpdateTask id) in
  fun w =>
    match tasks (db w) !! id with
    | Some t =>
        let t' := apply_set s t in
        if row_ok t'
        then (Value [t'], {| db := set_tasks (db w) (<[id := t']> (tasks (db w))); sent := sent w |})
        else (Thrown, w)
    | None => (Value [], w)
    end.

(** [db.insert(Tasks).values(v).returning()]; [new_id] is the key the
    database generates. *)
Definition insert_task (new_id : string) (now : Z) (v : task_values) : handler (list Tasks.row) :=
  do! log InsertTask in
  fun w =>
    let t := new_row new_id now v in
    match tasks (db w) !! new_id with
    | Some _ => (Thrown, w)
    | None =>
        if row_ok t
        then (Value [t], {| db := set_tasks (db w) (<[new_id := t]> (tasks (db w))); sent := sent w |})
        else (Thrown, w)
    end.

End Schema.

(** [.orderBy(desc(Tasks.createdAt))] *)
Definition created_desc (a b : Tasks.row) : Prop :=
  Tasks.createdAt b <= Tasks.createdAt a.

#[global] Instance created_desc_dec a b : Decision (created_desc a b).
Proof. unfold created_desc. apply _. Defined.

(** [.leftJoin(UserTable, ...).leftJoin(Projects, ...)] with the selected
    columns. *)
Definition joined (d : database) (t : Tasks.row) : TaskView :=
  let u := users d !! Tasks.employeeId t in
  let p := projects d !! Tasks.projectId t in
  {| v_taskId := Tasks.id t;
     v_taskName := Tasks.taskName t;
     v_description := Tasks.description t;
     v_expectedHours := Tasks.expectedHours t;
     v_actualHours := Tasks.actualHours t;
     v_status := Tasks.status t;
     v_approvedAt := Tasks.approvedAt t;
     v_rejectionReason := Tasks.rejectionReason t;
     v_createdAt := Tasks.createdAt t;
     v_updatedAt := Tasks.updatedAt t;
     v_projectId := Projects.id <$> p;
     v_projectName := Projects.projectName <$> p;
     v_employeeId := UserTable.id <$> u;
     v_employeeName := UserTable.name <$> u;
     v_employeeEmail := UserTable.email <$> u |}.

(** The list query: the rows that satisfy every condition ([and(...)]; no
    [where] when there is none), newest first. *)
Definition select_tasks (conditions : list (Tasks.row -> bool)) : handler (list TaskView) :=
  do! log SelectTasks in
  fun w =>
    let rows := (map_to_list (tasks (db w))).*2 in
    let kept :=
      if (0 <? length conditions)%nat
      then List.filter (fun t => forallb (fun c => c t) conditions) rows
      else rows in
    (Value (joined (db w) <$> merge_sort created_desc kept), w).

(** The single-task query: the same selection and joins as the list query,
    [.where(eq(Tasks.id, id)).limit(1)]. *)
Definition select_task_view (id : string) : handler (list TaskView) :=
  do! log (SelectTask id) in
  fun w => (Value (option_list (joined (db w) <$> tasks (db w) !! id)), w).

End Db.

Definition is_admin (u : SessionUser) : bool :=
  String.eqb (user_role u) "platform_admin".

(** ** [app/api/tasks/route.ts] *)

Module api_tasks.

(** [searchParams.get(k)] is null or a string; [if (x)] holds for a string
    that is not empty. *)
Definition supplied (p : option string) : option string :=
  match p with
  | Some s => if String.eqb s "" then None else Some s
  | None => None
  end.

Definition conditions (projectId status employeeId : option string) : list (Tasks.row -> bool) :=
  match supplied projectId with
  | Some p => [fun t => String.eqb (Tasks.projectId t) p]
  | None => []
  end ++
  match supplied status with
  | Some s => [fun t => String.eqb (Tasks.status_text (Tasks.status t)) s]
  | None => []
  end ++
  match supplied employeeId with
  | Some e => [fun t => String.eqb (Tasks.employeeId t) e]
  | None => []
  end.

(** GET all tasks (with filters) *)
Definition GET (session : option SessionUser) (projectId status employeeId : option string)
  : world -> response * world :=
  try_catch
    (let! _ := require_user session in
     let! tasks := Db.select_tasks (conditions projectId status employeeId) in
     ret (NextResponse_json (TasksBody tasks) 200))
    "Failed to fetch tasks".

Section Schema.

Variable row_ok : Tasks.row -> bool.
Variable pg_other : jsval -> option string.

(** POST - Create new task (Employee).  [new_id] and [now] are the key and
    the time stamp the database gives the new row. *)
Definition POST (session : option SessionUser) (req_json : completion jsval)
  (new_id : string) (now : Z) : world -> response * world :=
  try_catch
    (let! user := require_user session in
     let! body := eval req_json in
     let! projectId := eval (get_property body "projectId") in
     let! taskName := eval (get_property body "taskName") in
     let! description := eval (get_property body "description") in
     let! expectedHours := eval (get_property body "expectedHours") in
     let! actualHours := eval (get_property body "actualHours") in
     (* Validation *)
     do! return_if (negb (truthy projectId) || negb (truthy taskName)
                    || negb (truthy expectedHours) || negb (truthy actualHours))
           (ErrorBody "All required fields must be provided") 400 in
     (* Check if project exists *)
     let! pid := Db.bind_text pg_other projectId in
     let! project := Db.select_project pid in
     do! return_if (bool_decide (project = None))
           (ErrorBody "Project not found") 404 in
     let! expected := eval (call_toString expectedHours) in
     let! actual := eval (call_toString actualHours) in
     let! name := Db.bind_text pg_other taskName in
     let! desc := Db.bind_text_opt pg_other description in
     let! rows := Db.insert_task row_ok new_id now
                    {| Db.val_projectId := pid;
                       Db.val_employeeId := user_id user;
                       Db.val_taskName := name;
                       Db.val_description := desc;
                       Db.val_expectedHours := expected;
                       Db.val_actualHours := actual;
                       Db.val_status := Tasks.pending |} in
     ret (NextResponse_json (TaskBody (head rows)) 201))
    "Failed to create task".

End Schema.

End api_tasks.

(** ** [app/api/tasks/[id]/route.ts] *)

Module api_tasks_id.

(** The answer of the single-task GET: [{ task }] with its status, or an
    error answer. *)
Inductive task_response : Type :=
| TaskFound (task : TaskView) (st : Z)
| TaskError (r : response).

Definition task_status (r : task_response) : Z :=
  match r with
  | TaskFound _ st => st
  | TaskError r => status r
  end.

(** GET single task *)
Definition GET (session : option SessionUser) (params_id : string)
  : world -> task_response * world :=
  fun w =>
    match (let! _ := require_user session in
           let! task := Db.select_task_view params_id in
           match task with
           | [] => respond (ErrorBody "Task not found") 404
           | first :: _ => ret (TaskFound first 200)
           end) w with
    | (Value r, w') => (r, w')
    | (Return r, w') => (TaskError r, w')
    | (Thrown, w') => (TaskError (NextResponse_json (ErrorBody "Failed to fetch task") 500), w')
    end.

(** [actualHours !== undefined &&
     (isNaN(parseFloat(actualHours)) || parseFloat(actualHours) < 0)] *)
Definition actualHours_invalid (actualHours : jsval) : completion bool :=
  match actualHours with
  | JUndefined => Normal false
  | _ => match parseFloat actualHours with
         | Normal x => Normal (isNaN x || lt0 x)
         | Throws => Throws
         end
  end.

(** [existingTask.employeeId !== session.user.id &&
     session.user.role !== 'platform_admin'] *)
Definition not_owner_nor_admin (existingTask : Tasks.row) (user : SessionUser) : bool :=
  negb (String.eqb (Tasks.employeeId existingTask) (user_id user)) && negb (is_admin user).

(** [existingTask.status !== 'pending' &&
     session.user.role !== 'platform_admin'] *)
Definition decided_and_not_admin (existingTask : Tasks.row) (user : SessionUser) : bool :=
  negb (String.eqb (Tasks.status_text (Tasks.status existingTask)) "pending")
  && negb (is_admin user).

(** [taskName.trim()] *)
Definition call_trim (v : jsval) : completion string :=
  match v with
  | JStr s => Normal (trim s)
  | _ => Throws
  end.

(** [description?.trim() || null] as the value of a nullable text column. *)
Definition trimmed_or_null (description : jsval) : completion (option string) :=
  match opt_trim description with
  | Normal (JStr s) => Normal (if truthy (JStr s) then Some s else None)
  | Normal _ => Normal None
  | Throws => Throws
  end.

Section Schema.

Variable row_ok : Tasks.row -> bool.

(** PUT - Update task; [now] is [new Date()]. *)
Definition PUT (session : option SessionUser) (params_id : string)
  (req_json : completion jsval) (now : Z) : world -> response * world :=
  try_catch
    (let! user := require_user session in
     let! body := eval req_json in
     let! taskName := eval (get_property body "taskName") in
     let! description := eval (get_property body "description") in
     let! expectedHours := eval (get_property body "expectedHours") in
     let! actualHours := eval (get_property body "actualHours") in
     (* Validate required fields *)
     let! trimmed := eval (opt_trim taskName) in
     do! return_if (negb (truthy trimmed))
           (ErrorBody "Task name is required") 400 in
     let! invalid := eval (actualHours_invalid actualHours) in
     do! return_if invalid
           (ErrorBody "Actual hours must be a positive number") 400 in
     (* Check if task exists and belongs to user *)
     let! found := Db.select_task params_id in
     match found with
     | None => respond (ErrorBody "Task not found") 404
     | Some existingTask =>
         (* Only employee who created task can edit (if not approved yet) *)
         do! return_if (not_owner_nor_admin existingTask user)
               (ErrorBody "Forbidden") 403 in
         (* Cannot edit approved tasks (unless admin) *)
         do! return_if (decided_and_not_admin existingTask user)
               (ErrorBody "Cannot edit approved/rejected tasks") 403 in
         let! name := eval (call_trim taskName) in
         let! desc := eval (trimmed_or_null description) in
         let! expected := eval (opt_toString expectedHours) in
         let! actual := eval (opt_toString actualHours) in
         let! rows := Db.update_task row_ok params_id
                        {| Db.set_taskName := name;
                           Db.set_description := desc;
                           Db.set_expectedHours := expected;
                           Db.set_actualHours := actual;
                           Db.set_updatedAt := now |} in
         ret (NextResponse_json (TaskBody (head rows)) 200)
     end)
    "Failed to update task".

End Schema.

(** DELETE task *)
Definition DELETE (session : option SessionUser) (params_id : string)
  : world -> response * world :=
  try_catch
    (let! user := require_user session in
     (* Check if task exists *)
     let! found := Db.select_task params_id in
     match found with
     | None => respond (ErrorBody "Task not found") 404
     | Some existingTask =>
         (* Only employee who created task or admin can delete *)
         do! return_if (not_owner_nor_admin existingTask user)
               (ErrorBody "Forbidden") 403 in
         do! Db.delete_task params_id in
         ret (NextResponse_json (MessageBody "Task deleted successfully") 200)
     end)
    "Failed to delete task".

End api_tasks_id.

(** ** [ProjectDetailTable]: the totals of the project detail view *)

Module ProjectDetailTable.

(** The [Task] interface of the dashboard; the hours and the dates arrive as
    text. *)
Record Employee : Type := {
  name : string;
  email : string
}.

Record Task : Type := {
  id : string;
  projectId : string;
  employeeId : string;
  taskName : string;
  description : option string;
  expectedHours : string;
  actualHours : string;
  status : Tasks.status_t;
  approvedBy : option string;
  approvedAt : option string;
  rejectionReason : option string;
  createdAt : string;
  updatedAt : string;
  employee : option Employee
}.

(** [tasks.reduce((sum, t) => sum + parseFloat(t.expectedHours), 0)] *)
Definition totalExpectedHours (tasks : list Task) : float :=
  fold_left (fun sum t => (sum + parseFloat_string (expectedHours t))%float) tasks 0%float.

(** [tasks.reduce((sum, t) => sum + parseFloat(t.actualHours), 0)] *)
Definition totalActualHours (tasks : list Task) : float :=
  fold_left (fun sum t => (sum + parseFloat_string (actualHours t))%float) tasks 0%float.

(** What the header shows: [total.toFixed(1)]. *)
Definition shownExpected (tasks : list Task) : string := toFixed1 (totalExpectedHours tasks).
Definition shownActual (tasks : list Task) : string := toFixed1 (totalActualHours tasks).

End ProjectDetailTable.

(** ** [AddProjectModal]: the form for a new project *)

Module AddProjectModal.

Record FormData : Type := {
  projectName : string;
  description : string
}.

Record FormErrors : Type := {
  err_projectName : option string;
  err_description : option string;
  err_submit : option string
}.

Definition key (e : option string) : nat :=
  match e with
  | Some _ => 1
  | None => 0
  end.

(** [Object.keys(errors).length] *)
Definition keys (errors : FormErrors) : nat :=
  key (err_projectName errors) + key (err_description errors) + key (err_submit errors).

(** [validateForm]: the errors it sets and what it returns. *)
Definition validateForm (formData : FormData) : FormErrors * bool :=
  let name := trim (projectName formData) in
  let newErrors :=
    {| err_projectName :=
         if negb (truthy (JStr name)) then Some "Project name is required"
         else if (String.length name <? 3)%nat
              then Some "Project name must be at least 3 characters"
         else if (255 <? String.length name)%nat
              then Some "Project name must be less than 255 characters"
         else None;
       err_description :=
         if truthy (JStr (description formData))
            && (1000 <? String.length (description formData))%nat
         then Some "Description must be less than 1000 characters"
         else None;
       err_submit := None |} in
  (newErrors, (keys newErrors =? 0)%nat).

End AddProjectModal.

(** ** [ProjectDetailView]: the administrator's view of a project *)

Module ProjectDetailView.

(** [response.ok] *)
Definition ok (r : response) : bool := (200 <=? status r) && (status r <=? 299).

(** [data.error || fallback] for the body of an answer. *)
Definition error_or (r : response) (fallback : string) : string :=
  match body r with
  | ErrorBody e => if truthy (JStr e) then e else fallback
  | _ => fallback
  end.

(** The [Task] interface of this view; [updatedAt] is the property a saved
    edit adds to the object. *)
Record Task : Type := {
  taskId : string;
  taskName : string;
  description : option string;
  expectedHours : string;
  actualHours : string;
  status : Tasks.status_t;
  approvedAt : string;
  createdAt : string;
  employeeId : string;
  employeeName : string;
  employeeEmail : string;
  updatedAt : option string
}.

(** The state of the component that the handlers below read and set, and
    the messages shown with [alert], in order. *)
Record State : Type := {
  allTasks : list Task;
  filteredTasks : list Task;
  taskSearchTerm : string;
  editingTaskId : option string;
  editedTaskName : string;
  editedExpectedHours : string;
  editedStatus : Tasks.status_t;
  editedDate : string;
  isSaving : bool;
  deletingTaskId : option string;
  selectedTasks : gset string;
  alerts : list string
}.

(** The test of the task search for one task. *)
Definition matches_search (term : string) (task : Task) : bool :=
  includes (toLowerCase (taskName task)) (toLowerCase term)
  || includes (toLowerCase (employeeName task)) (toLowerCase term)
  || includes (toLowerCase (employeeEmail task)) (toLowerCase term)
  || match description task with
     | Some d => truthy (JStr d) && includes (toLowerCase d) (toLowerCase term)
     | None => false
     end
  || includes (toLowerCase (Tasks.status_text (status task))) (toLowerCase term).

(** Filter tasks based on search: what the effect puts in [filteredTasks]. *)
Definition search_tasks (term : string) (tasks : list Task) : list Task :=
  if truthy (JStr term) then List.filter (matches_search term) tasks else tasks.

Definition search_effect (st : State) : State :=
  {| allTasks := allTasks st;
     filteredTasks := search_tasks (taskSearchTerm st) (allTasks st);
     taskSearchTerm := taskSearchTerm st;
     editingTaskId := editingTaskId st;
     editedTaskName := editedTaskName st;
     editedExpectedHours := editedExpectedHours st;
     editedStatus := editedStatus st;
     editedDate := editedDate st;
     isSaving := isSaving st;
     deletingTaskId := deletingTaskId st;
     selectedTasks := selectedTasks st;
     alerts := alerts st |}.

(** *** Selection handlers *)

Definition handleToggleSelect (id : string) (prev : gset string) : gset string :=
  if bool_decide (id ∈ prev) then prev ∖ {[id]} else prev ∪ {[id]}.

Definition handleSelectAll (filtered : list Task) : gset string :=
  list_to_set (taskId <$> filtered).

Definition handleDeselectAll : gset string := ∅.

Definition isTaskSelected (id : string) (selected : gset string) : bool :=
  bool_decide (id ∈ selected).

(** *** Task handlers *)

Definition alert (msg : string) (st : State) : State :=
  {| allTasks := allTasks st;
     filteredTasks := filteredTasks st;
     taskSearchTerm := taskSearchTerm st;
     editingTaskId := editingTaskId st;
     editedTaskName := editedTaskName st;
     editedExpectedHours := editedExpectedHours st;
     editedStatus := editedStatus st;
     editedDate := editedDate st;
     isSaving := isSaving st;
     deletingTaskId := deletingTaskId st;
     selectedTasks := selectedTasks st;
     alerts := alerts st ++ [msg] |}.

(** The object a saved edit puts in place of the task. *)
Definition edited (st : State) (now_iso : string) (t : Task) : Task :=
  {| taskId := taskId t;
     taskName := editedTaskName st;
     description := description t;
     expectedHours := editedExpectedHours st;
     actualHours := actualHours t;
     status := editedStatus st;
     approvedAt := approvedAt t;
     createdAt := editedDate st;
     employeeId := employeeId t;
     employeeName := employeeName t;
     employeeEmail := employeeEmail t;
     updatedAt := Some now_iso |}.

(** The body of the PUT request of a saved edit, as the route receives it. *)
Definition save_body (st : State) : jsval :=
  JObj [("taskName", JStr (trim (editedTaskName st)));
        ("expectedHours", JSON_number (parseFloat_string (editedExpectedHours st)));
        ("status", JStr (Tasks.status_text (editedStatus st)));
        ("createdAt", JStr (editedDate st))].

Section Browser.

(** The route runs with the schema [row_ok], the session of the browser
    and its own clock [now]; [now_iso] is [new Date().toISOString()] in the
    browser.  The dates are left to the platform: [iso_day s] is
    [new Date(s).toISOString().split('T')[0]], which throws on a date that
    is not valid, and [in_future s] is [new Date(s) > today] with [today]
    the end of the current day.  A task id reaches the route as it is. *)
Variable row_ok : Tasks.row -> bool.
Variable session : option SessionUser.
Variable now : Z.
Variable now_iso : string.
Variable iso_day : string -> completion string.
Variable in_future : string -> bool.

Definition handleEditClick (task : Task) (st : State) : completion State :=
  match iso_day (createdAt task) with
  | Throws => Throws
  | Normal day =>
      Normal
        {| allTasks := allTasks st;
           filteredTasks := filteredTasks st;
           taskSearchTerm := taskSearchTerm st;
           editingTaskId := Some (taskId task);
           editedTaskName := taskName task;
           editedExpectedHours := expectedHours task;
           (* Auto-approve if status is pending *)
           editedStatus :=
             if String.eqb (Tasks.status_text (status task)) "pending"
             then Tasks.approved else status task;
           editedDate := day;
           isSaving := isSaving st;
           deletingTaskId := deletingTaskId st;
           selectedTasks := selectedTasks st;
           alerts := alerts st |}
  end.

Definition handleCancelEdit (st : State) : State :=
  {| allTasks := allTasks st;
     filteredTasks := filteredTasks st;
     taskSearchTerm := taskSearchTerm st;
     editingTaskId := None;
     editedTaskName := "";
     editedExpectedHours := "";
     editedStatus := editedStatus st;
     editedDate := "";
     isSaving := isSaving st;
     deletingTaskId := deletingTaskId st;
     selectedTasks := selectedTasks st;
     alerts := alerts st |}.

(** The state after a save that the route has accepted. *)
Definition saved (id : string) (st : State) : State :=
  let put := fun t => if String.eqb (taskId t) id then edited st now_iso t else t in
  {| allTasks := put <$> allTasks st;
     filteredTasks := put <$> filteredTasks st;
     taskSearchTerm := taskSearchTerm st;
     editingTaskId := None;
     editedTaskName := "";
     editedExpectedHours := "";
     editedStatus := Tasks.pending;
     editedDate := "";
     isSaving := false;
     deletingTaskId := deletingTaskId st;
     selectedTasks := selectedTasks st;
     alerts := alerts st |}.

Definition set_isSaving (b : bool) (st : State) : State :=
  {| allTasks := allTasks st;
     filteredTasks := filteredTasks st;
     taskSearchTerm := taskSearchTerm st;
     editingTaskId := editingTaskId st;
     editedTaskName := editedTaskName st;
     editedExpectedHours := editedExpectedHours st;
     editedStatus := editedStatus st;
     editedDate := editedDate st;
     isSaving := b;
     deletingTaskId := deletingTaskId st;
     selectedTasks := selectedTasks st;
     alerts := alerts st |}.

Definition handleSaveEdit (id : string) (st : State) (w : world) : State * world :=
  if negb (truthy (JStr (trim (editedTaskName st))))
  then (alert "Task name cannot be empty" st, w)
  else
    let expectedHoursNum := parseFloat_string (editedExpectedHours st) in
    if isNaN expectedHoursNum || lt0 expectedHoursNum
    then (alert "Expected hours must be a valid positive number" st, w)
    else if negb (truthy (JStr (editedDate st)))
    then (alert "Please select a date" st, w)
    (* Validate date is not in future *)
    else if in_future (editedDate st)
    then (alert "Cannot select a future date" st, w)
    else
      let (response, w') := api_tasks_id.PUT row_ok session id (Normal (save_body st)) now w in
      if ok response
      then (saved id st, w')
      else (set_isSaving false (alert (error_or response "Failed to update task") st), w').

(** The state after a delete that the route has accepted. *)
Definition deleted (id : string) (st : State) : State :=
  {| allTasks := List.filter (fun t => negb (String.eqb (taskId t) id)) (allTasks st);
     filteredTasks := List.filter (fun t => negb (String.eqb (taskId t) id)) (filteredTasks st);
     taskSearchTerm := taskSearchTerm st;
     editingTaskId := editingTaskId st;
     editedTaskName := editedTaskName st;
     editedExpectedHours := editedExpectedHours st;
     editedStatus := editedStatus st;
     editedDate := editedDate st;
     isSaving := isSaving st;
     deletingTaskId := None;
     selectedTasks := selectedTasks st ∖ {[id]};
     alerts := alerts st ++ ["Task deleted successfully"] |}.

Definition set_deletingTaskId (d : option string) (st : State) : State :=
  {| allTasks := allTasks st;
     filteredTasks := filteredTasks st;
     taskSearchTerm := taskSearchTerm st;
     editingTaskId := editingTaskId st;
     editedTaskName := editedTaskName st;
     editedExpectedHours := editedExpectedHours st;
     editedStatus := editedStatus st;
     editedDate := editedDate st;
     isSaving := isSaving st;
     deletingTaskId := d;
     selectedTasks := selectedTasks st;
     alerts := alerts st |}.

(** [confirmed] is the answer to [confirm(...)]. *)
Definition handleDeleteTask (confirmed : bool) (id : string) (st : State) (w : world)
  : State * world :=
  if negb confirmed then (st, w)
  else
    let (response, w') := api_tasks_id.DELETE session id w in
    if ok response
    then (deleted id st, w')
    else (set_deletingTaskId None (alert (error_or response "Failed to delete task") st), w').

End Browser.

End ProjectDetailView.

(** ** Vocabulary for the statements about the handlers *)

Section Vocabulary.

Import api_tasks_id.

Definition logged (w : world) (qs : list statement) : world :=
  {| db := db w; sent := sent w ++ qs |}.

Definition error (msg : string) (st : Z) : response :=
  NextResponse_json (ErrorBody msg) st.

(** What destructuring [const { k } = body] binds when it does not throw. *)
Definition field (body : jsval) (k : string) : jsval :=
  match body with
  | JObj kv => own_property kv k
  | _ => JUndefined
  end.

Definition nullish (v : jsval) : bool :=
  match v with
  | JUndefined | JNull => true
  | _ => false
  end.

(** The checks of PUT that come before the task is looked up. *)
Definition PUT_validation (body : jsval) : outcome unit :=
  match opt_trim (field body "taskName") with
  | Throws => Thrown
  | Normal trimmed =>
      if negb (truthy trimmed) then Return (error "Task name is required" 400)
      else match actualHours_invalid (field body "actualHours") with
           | Throws => Thrown
           | Normal true => Return (error "Actual hours must be a positive number" 400)
           | Normal false => Value tt
           end
  end.

(** The object PUT gives to [.set(...)]. *)
Definition PUT_set (body : jsval) (now : Z) : completion Db.task_set :=
  match call_trim (field body "taskName"), trimmed_or_null (field body "description"),
        opt_toString (field body "expectedHours"), opt_toString (field body "actualHours") with
  | Normal name, Normal desc, Normal expected, Normal actual =>
      Normal {| Db.set_taskName := name;
                Db.set_description := desc;
                Db.set_expectedHours := expected;
                Db.set_actualHours := actual;
                Db.set_updatedAt := now |}
  | _, _, _, _ => Throws
  end.

(** The value of an evaluation that does not throw. *)
Definition returned {A} (c : completion A) : option A :=
  match c with
  | Normal a => Some a
  | Throws => None
  end.

(** The text bound for a text column, and for a nullable one. *)
Definition text_of (pg_other : jsval -> option string) (v : jsval) : option string :=
  match v with
  | JStr s => Some s
  | _ => pg_other v
  end.

Definition text_opt_of (pg_other : jsval -> option string) (v : jsval) : option (option string) :=
  match v with
  | JUndefined | JNull => Some None
  | _ => Some <$> text_of pg_other v
  end.

(** The check of POST: [!projectId || !taskName || !expectedHours ||
    !actualHours]. *)
Definition POST_incomplete (body : jsval) : bool :=
  negb (truthy (field body "projectId")) || negb (truthy (field body "taskName"))
  || negb (truthy (field body "expectedHours")) || negb (truthy (field body "actualHours")).

(** The object POST gives to [.values(...)]. *)
Definition POST_values (pg_other : jsval -> option string) (user : SessionUser)
  (body : jsval) : option Db.task_values :=
  pid ← text_of pg_other (field body "projectId");
  expected ← returned (call_toString (field body "expectedHours"));
  actual ← returned (call_toString (field body "actualHours"));
  name ← text_of pg_other (field body "taskName");
  desc ← text_opt_of pg_other (field body "description");
  Some {| Db.val_projectId := pid;
          Db.val_employeeId := user_id user;
          Db.val_taskName := name;
          Db.val_description := desc;
          Db.val_expectedHours := expected;
          Db.val_actualHours := actual;
          Db.val_status := Tasks.pending |}.



(** A filter of the list request holds of a value when it is not supplied
    or equals it. *)
Definition filter_holds (f : option string) (x : string) : bool :=
  match api_tasks.supplied f with
  | Some v => String.eqb x v
  | None => true
  end.

(** The conjunction of the supplied filters. *)
Definition matches_filters (projectId status employeeId : option string) (t : Tasks.row) : bool :=
  filter_holds projectId (Tasks.projectId t)
  && filter_holds status (Tasks.status_text (Tasks.status t))
  && filter_holds employeeId (Tasks.employeeId t).

(** Newest first, on the rows returned. *)
Definition newest_first (a b : TaskView) : Prop := v_createdAt b <= v_createdAt a.

(** [w'] comes from [w] by statements that only read. *)
Definition reads_only (w w' : world) : Prop :=
  exists qs, sent w' = (sent w ++ qs)%list /\ existsb is_mutation qs = false.

End Vocabulary.

(** ** Exact values of doubles *)

Section Exact.

Import ProjectDetailTable.

(** The value of a finite double in units of [2^-1074], the smallest
    positive double; every finite double is a whole number of them. *)
Definition units (f : float) : option Z :=
  match Prim2SF f with
  | S754_zero _ => Some 0
  | S754_finite neg m e => Some (cond_Zopp neg (Zpos m * 2 ^ (e + 1074)))
  | _ => None
  end.

(** [p * 2^n] *)
Definition scaled (p : positive) (n : nat) : positive := Nat.iter n xO p.

(** The double with the value [p * 2^e], for [p] below [2^53]: the
    mantissa is moved up to 53 bits. *)
Definition canon (e : Z) (p : positive) : spec_float :=
  let d := Zpos (digits2_pos p) in
  S754_finite false (scaled p (Z.to_nat (53 - d))) (e + d - 53).

(** The double that is [n] quarters. *)
Definition quarters (n : Z) : spec_float :=
  match n with
  | Zpos p => canon (-2) p
  | _ => S754_zero false
  end.

(** The hours that a text gives, counted in quarters of an hour: the text
    is read by [parseFloat] as a decimal without a minus sign, with at most
    20 digits after the point, whose value [m * 10^e] is a whole number of
    quarters. *)
Definition quarter_hours (s : string) : option Z :=
  match read_literal s with
  | Decimal false m e =>
      let num := m * 10 ^ Z.max e 0 in
      let den := 10 ^ Z.max (- e) 0 in
      if (-20 <=? e) && ((4 * num) mod den =? 0) then Some (4 * num / den) else None
  | _ => None
  end.

(** The sum of the hours of the texts, in quarters. *)
Fixpoint total_quarters (hours : list string) : option Z :=
  match hours with
  | [] => Some 0
  | h :: rest => n ← quarter_hours h; s ← total_quarters rest; Some (n + s)
  end.

(** [n] quarters as a decimal with one digit after the point, the nearest
    one and of two the larger. *)
Definition tenth_of_quarters (n : Z) : string :=
  let t := (5 * n + 1) / 2 in
  digits_of_Z (t / 10) ++ "." ++ digits_of_Z (t mod 10).

End Exact.

(** ** Vocabulary for the properties of the routes together *)

Section Together.

(** Every task row is stored under its own id and belongs to a project
    that exists. *)
Definition consistent (d : database) : Prop :=
  forall id t, tasks d !! id = Some t ->
    Tasks.id t = id /\ is_Some (projects d !! Tasks.projectId t).

(** From [d] to [d'] no task has changed its status, owner, project or
    creation time, and a task that is new is pending and belongs to the
    caller. *)
Definition keeps_decisions (session : option SessionUser) (d d' : database) : Prop :=
  forall id t', tasks d' !! id = Some t' ->
    (exists t, tasks d !! id = Some t
               /\ Tasks.status t' = Tasks.status t
               /\ Tasks.employeeId t' = Tasks.employeeId t
               /\ Tasks.projectId t' = Tasks.projectId t
               /\ Tasks.createdAt t' = Tasks.createdAt t
               /\ Tasks.approvedBy t' = Tasks.approvedBy t
               /\ Tasks.approvedAt t' = Tasks.approvedAt t
               /\ Tasks.rejectionReason t' = Tasks.rejectionReason t)
    \/ (tasks d !! id = None
        /\ Tasks.status t' = Tasks.pending
        /\ Some (Tasks.employeeId t') = user_id <$> session).

(** All characters are white space. *)
Fixpoint all_space (s : string) : bool :=
  match s with
  | EmptyString => true
  | String c s' => is_space c && all_space s'
  end.

End Together.

(** ** Sample data *)

Module Sample.

Definition alice : SessionUser := {| user_id := "u-alice"; user_role := "employee" |}.
Definition bob : SessionUser := {| user_id := "u-bob"; user_role := "employee" |}.
Definition carol : SessionUser := {| user_id := "u-carol"; user_role := "platform_admin" |}.

Definition p1 : Projects.row :=
  Projects.mk "p1" "Website Redesign" None "u-carol" true 100 100.

Definition task (id owner : string) (st : Tasks.status_t) (e a : string) (created : Z) : Tasks.row :=
  Tasks.mk id "p1" owner "Design" (Some "first draft") e a st None None None created created.

Definition t1 : Tasks.row := task "t1" "u-alice" Tasks.pending "10" "12" 200.
Definition t2 : Tasks.row := task "t2" "u-alice" Tasks.approved "5" "3" 300.
Definition t3 : Tasks.row := task "t3" "u-bob" Tasks.rejected "1.5" "2" 250.

Definition db0 : database :=
  {| tasks := <["t1" := t1]> (<["t2" := t2]> (<["t3" := t3]> ∅));
     projects := {["p1" := p1]};
     users := <["u-alice" := UserTable.mk "u-alice" "Alice" "alice@example.com"]>
                (<["u-bob" := UserTable.mk "u-bob" "Bob" "bob@example.com"]> ∅) |}.

Definition w0 : world := {| db := db0; sent := [] |}.

(** What the admin dashboard sends: a name, the expected hours, and a status
    and a creation date that the handler does not read. *)
Definition dashboard_body : jsval :=
  JObj [("taskName", JStr " Design v2 "); ("expectedHours", JNum 6);
        ("status", JStr "pending"); ("createdAt", JStr "2020-01-01")].

(** Tasks as the dashboard holds them, with given hours. *)
Definition logged_hours (id expected actual : string) : ProjectDetailTable.Task :=
  {| ProjectDetailTable.id := id;
     ProjectDetailTable.projectId := "p1";
     ProjectDetailTable.employeeId := "u-alice";
     ProjectDetailTable.taskName := "Design";
     ProjectDetailTable.description := None;
     ProjectDetailTable.expectedHours := expected;
     ProjectDetailTable.actualHours := actual;
     ProjectDetailTable.status := Tasks.approved;
     ProjectDetailTable.approvedBy := Some "u-carol";
     ProjectDetailTable.approvedAt := Some "2024-01-02T00:00:00.000Z";
     ProjectDetailTable.rejectionReason := None;
     ProjectDetailTable.createdAt := "2024-01-01T00:00:00.000Z";
     ProjectDetailTable.updatedAt := "2024-01-02T00:00:00.000Z";
     ProjectDetailTable.employee :=
       Some {| ProjectDetailTable.name := "Alice";
               ProjectDetailTable.email := "alice@example.com" |} |}.

Definition ha : ProjectDetailTable.Task := logged_hours "a" "0.10" "0.10".
Definition hb : ProjectDetailTable.Task := logged_hours "b" "0.20" "0.20".
Definition hc : ProjectDetailTable.Task := logged_hours "c" "0.05" "0.05".

(** The "Website Redesign" scenario. *)
Definition redesign : list ProjectDetailTable.Task :=
  [logged_hours "r1" "10" "12"; logged_hours "r2" "5" "3"].

(** The tasks of the sample database as the administrator's view holds
    them, and a view that has just been opened. *)
Definition shown (id owner : string) (st : Tasks.status_t) (e a : string)
  : ProjectDetailView.Task :=
  {| ProjectDetailView.taskId := id;
     ProjectDetailView.taskName := "Design";
     ProjectDetailView.description := Some "first draft";
     ProjectDetailView.expectedHours := e;
     ProjectDetailView.actualHours := a;
     ProjectDetailView.status := st;
     ProjectDetailView.approvedAt := "";
     ProjectDetailView.createdAt := "2024-01-01T00:00:00.000Z";
     ProjectDetailView.employeeId := owner;
     ProjectDetailView.employeeName := "Alice";
     ProjectDetailView.employeeEmail := "alice@example.com";
     ProjectDetailView.updatedAt := None |}.

Definition c1 : ProjectDetailView.Task := shown "t1" "u-alice" Tasks.pending "10" "12".
Definition c2 : ProjectDetailView.Task := shown "t2" "u-alice" Tasks.approved "5" "3".

Definition view0 : ProjectDetailView.State :=
  {| ProjectDetailView.allTasks := [c1; c2];
     ProjectDetailView.filteredTasks := [c1; c2];
     ProjectDetailView.taskSearchTerm := "";
     ProjectDetailView.editingTaskId := None;
     ProjectDetailView.editedTaskName := "";
     ProjectDetailView.editedExpectedHours := "";
     ProjectDetailView.editedStatus := Tasks.pending;
     ProjectDetailView.editedDate := "";
     ProjectDetailView.isSaving := false;
     ProjectDetailView.deletingTaskId := None;
     ProjectDetailView.selectedTasks := {["t2"]};
     ProjectDetailView.alerts := [] |}.

(** The day of an ISO time stamp, and a clock for which no date is in the
    future. *)
Definition first_ten (s : string) : completion string := Normal (substring 0 10 s).
Definition never_future (_ : string) : bool := false.

(** The body of a create request. *)
Definition create_body (project name : string) (expected actual : jsval) : jsval :=
  JObj [("projectId", JStr project); ("taskName", JStr name);
        ("expectedHours", expected); ("actualHours", actual)].

(** A schema without constraints, and a driver that takes strings only. *)
Definition accept_all (_ : Tasks.row) : bool := true.
Definition strings_only (_ : jsval) : option string := None.

End Sample.

(** * Properties *)

(** ** Running the handler monad *)

Ltac run_handler :=
  cbv beta iota zeta delta
    [try_catch bind require_user return_if respond ret eval throw
     Db.select_task Db.select_project Db.delete_task Db.update_task
     Db.insert_task Db.select_tasks Db.log];
  cbn [db sent fst snd].

(** ** The handlers of [tasks/[id]] in direct style *)

Section Direct.

Import api_tasks_id.

Lemma DELETE_unauthenticated id w :
  DELETE None id w = (error "Unauthorized" 401, w).
Proof. reflexivity. Qed.

Lemma DELETE_eq user id w :
  DELETE (Some user) id w =
  match tasks (db w) !! id with
  | None => (error "Task not found" 404, logged w [SelectTask id])
  | Some existingTask =>
      if not_owner_nor_admin existingTask user
      then (error "Forbidden" 403, logged w [SelectTask id])
      else (NextResponse_json (MessageBody "Task deleted successfully") 200,
            {| db := Db.set_tasks (db w) (delete id (tasks (db w)));
               sent := sent w ++ [SelectTask id; DeleteTask id] |})
  end.
Proof.
  unfold DELETE. run_handler.
  destruct (tasks (db w) !! id) as [t|]; [|reflexivity].
  destruct (not_owner_nor_admin t user); [reflexivity|].
  cbn [db sent]. rewrite <- app_assoc. reflexivity.
Qed.

Lemma PUT_unauthenticated row_ok id req now w :
  PUT row_ok None id req now w = (error "Unauthorized" 401, w).
Proof. reflexivity. Qed.

Lemma get_property_field body k :
  get_property body k = if nullish body then Throws else Normal (field body k).
Proof. destruct body; reflexivity. Qed.

Lemma PUT_no_body row_ok user id now w :
  PUT row_ok (Some user) id Throws now w = (error "Failed to update task" 500, w).
Proof. reflexivity. Qed.

Lemma PUT_eq row_ok user id body now w :
  PUT row_ok (Some user) id (Normal body) now w =
  if nullish body then (error "Failed to update task" 500, w)
  else
    match PUT_validation body with
    | Thrown => (error "Failed to update task" 500, w)
    | Return r => (r, w)
    | Value _ =>
        match tasks (db w) !! id with
        | None => (error "Task not found" 404, logged w [SelectTask id])
        | Some existingTask =>
            if not_owner_nor_admin existingTask user
            then (error "Forbidden" 403, logged w [SelectTask id])
            else if decided_and_not_admin existingTask user
            then (error "Cannot edit approved/rejected tasks" 403, logged w [SelectTask id])
            else
              match PUT_set body now with
              | Normal s =>
                  if row_ok (Db.apply_set s existingTask)
                  then (NextResponse_json (TaskBody (Some (Db.apply_set s existingTask))) 200,
                        {| db := Db.set_tasks (db w)
                                   (<[id := Db.apply_set s existingTask]> (tasks (db w)));
                           sent := sent w ++ [SelectTask id; UpdateTask id] |})
                  else (error "Failed to update task" 500,
                        logged w [SelectTask id; UpdateTask id])
              | Throws => (error "Failed to update task" 500, logged w [SelectTask id])
              end
        end
    end.
Proof.
  unfold PUT, PUT_validation, PUT_set. run_handler.
  rewrite !get_property_field.
  destruct (nullish body); [reflexivity|].
  destruct (opt_trim (field body "taskName")) as [trimmed|]; [|reflexivity].
  destruct (negb (truthy trimmed)); [reflexivity|].
  destruct (actualHours_invalid (field body "actualHours")) as [[|]|]; [reflexivity| |reflexivity].
  destruct (tasks (db w) !! id) as [t|] eqn:Hfound; [|reflexivity].
  destruct (not_owner_nor_admin t user); [reflexivity|].
  destruct (decided_and_not_admin t user); [reflexivity|].
  destruct (call_trim (field body "taskName")) as [name|]; [|reflexivity].
  destruct (trimmed_or_null (field body "description")) as [desc|]; [|reflexivity].
  destruct (opt_toString (field body "expectedHours")) as [expected|]; [|reflexivity].
  destruct (opt_toString (field body "actualHours")) as [actual|]; [|reflexivity].
  cbn [db sent]. rewrite Hfound, <- app_assoc.
  destruct (row_ok _); reflexivity.
Qed.

(** Validation passes exactly on a name that is a string with something
    left after trimming, with [actualHours] absent or parsing to a number
    that is not negative. *)
Lemma PUT_validation_passes body :
  PUT_validation body = Value tt <->
  (exists name, field body "taskName" = JStr name /\ trim name <> "")
  /\ actualHours_invalid (field body "actualHours") = Normal false.
Proof.
  unfold PUT_validation. split.
  - destruct (field body "taskName") as [| |b|f|name|l|kv]; cbn; try discriminate.
    destruct (String.eqb (trim name) "") eqn:Hname; cbn; [discriminate|].
    destruct (actualHours_invalid _) as [[|]|]; [discriminate| |discriminate].
    intros _. split; [|reflexivity].
    exists name. split; [reflexivity|]. by apply String.eqb_neq.
  - intros [(name & -> & Hname) ->]. cbn.
    apply String.eqb_neq in Hname. rewrite Hname. reflexivity.
Qed.

End Direct.

(** ** Delete *)

Section Delete.

Import api_tasks_id.

(** C3. DELETE checks ownership or role and nothing else: on an existing
    task, whatever its status, the owning employee and an administrator get
    200 and the row is gone, every other signed-in caller gets 403 and the
    database is as before. *)
Theorem DELETE_checks_owner_or_admin_only (w : world) (user : SessionUser)
  (id : string) (t : Tasks.row) :
  tasks (db w) !! id = Some t ->
  (Tasks.employeeId t = user_id user \/ is_admin user = true ->
     status (DELETE (Some user) id w).1 = 200
     /\ tasks (db (DELETE (Some user) id w).2) = delete id (tasks (db w)))
  /\ (Tasks.employeeId t <> user_id user /\ is_admin user = false ->
     status (DELETE (Some user) id w).1 = 403
     /\ db (DELETE (Some user) id w).2 = db w).
Proof.
  intros Hfound. rewrite DELETE_eq, Hfound.
  unfold not_owner_nor_admin. split.
  - intros Hallowed.
    assert (Hgate : negb (String.eqb (Tasks.employeeId t) (user_id user))
                    && negb (is_admin user) = false).
    { destruct Hallowed as [Hown | Hadm].
      - rewrite Hown, String.eqb_refl. reflexivity.
      - rewrite Hadm. apply andb_false_r. }
    rewrite Hgate. split; reflexivity.
  - intros [Hother Hrole].
    apply String.eqb_neq in Hother. rewrite Hother, Hrole.
    split; reflexivity.
Qed.

(** An approved task is deleted by its owner. *)
Lemma DELETE_checks_owner_or_admin_only_witness :
  status (DELETE (Some Sample.alice) "t2" Sample.w0).1 = 200.
Proof.
  refine (proj1 (proj1 (DELETE_checks_owner_or_admin_only
            Sample.w0 Sample.alice "t2" Sample.t2 _) _)).
  - vm_compute. reflexivity.
  - left. reflexivity.
Defined.

End Delete.

(** ** Update *)

Section Update.

Import api_tasks_id.

Variable row_ok : Tasks.row -> bool.

Lemma status_text_pending st :
  String.eqb (Tasks.status_text st) "pending" = true <-> st = Tasks.pending.
Proof. destruct st; cbn; split; congruence. Qed.

Lemma decided_ne_pending t user :
  Tasks.status t <> Tasks.pending -> is_admin user = false ->
  decided_and_not_admin t user = true.
Proof.
  intros Hst Hrole. unfold decided_and_not_admin. rewrite Hrole.
  destruct (String.eqb _ "pending") eqn:E; [|reflexivity].
  apply status_text_pending in E. contradiction.
Qed.

Lemma admin_passes_gates t user :
  is_admin user = true ->
  not_owner_nor_admin t user = false /\ decided_and_not_admin t user = false.
Proof.
  intros Hrole. unfold not_owner_nor_admin, decided_and_not_admin.
  rewrite Hrole. split; apply andb_false_r.
Qed.

Lemma stranger_stops_at_gate t user :
  Tasks.employeeId t <> user_id user -> is_admin user = false ->
  not_owner_nor_admin t user = true.
Proof.
  intros Hother Hrole. unfold not_owner_nor_admin.
  apply String.eqb_neq in Hother. rewrite Hother, Hrole. reflexivity.
Qed.

Lemma PUT_validation_not_nullish body :
  PUT_validation body = Value tt -> nullish body = false.
Proof. destruct body; cbn; congruence. Qed.

(** C1, as the code has it.  On a task that is no longer pending, an update
    whose body passes the input validation is refused with 403 for every
    caller who is not an administrator, and the database stays as it was.
    For an administrator the same update is answered 200 when the
    conversions made for [.set(...)] do not throw and the database takes the
    row; the row stored and returned then has the trimmed name, the
    description, the hours and the time of the request as [.set(...)] gives
    them, and the status it had.  The conversions do not throw when the
    description is a string or is not there and neither of the hours is an
    object or an array. *)
Theorem PUT_decided_task_admin_only (w : world) (id : string) (t : Tasks.row)
  (body : jsval) (now : Z) :
  tasks (db w) !! id = Some t ->
  Tasks.status t <> Tasks.pending ->
  PUT_validation body = Value tt ->
  (forall user, is_admin user = false ->
     status (PUT row_ok (Some user) id (Normal body) now w).1 = 403
     /\ db (PUT row_ok (Some user) id (Normal body) now w).2 = db w)
  /\ (forall user s, is_admin user = true ->
        PUT_set body now = Normal s ->
        row_ok (Db.apply_set s t) = true ->
        exists t' name,
          (PUT row_ok (Some user) id (Normal body) now w).1
            = NextResponse_json (TaskBody (Some t')) 200
          /\ tasks (db (PUT row_ok (Some user) id (Normal body) now w).2)
             = <[id := t']> (tasks (db w))
          /\ field body "taskName" = JStr name
          /\ Tasks.taskName t' = trim name
          /\ Some (Tasks.description t') = returned (trimmed_or_null (field body "description"))
          /\ Some (Tasks.expectedHours t')
             = default (Tasks.expectedHours t)
                 <$> returned (opt_toString (field body "expectedHours"))
          /\ Some (Tasks.actualHours t')
             = default (Tasks.actualHours t)
                 <$> returned (opt_toString (field body "actualHours"))
          /\ Tasks.updatedAt t' = now
          /\ Tasks.status t' = Tasks.status t)
  /\ ((nullish (field body "description") = true
       \/ exists d, field body "description" = JStr d) ->
      (forall kv, field body "expectedHours" <> JObj kv) ->
      (forall l, field body "expectedHours" <> JArr l) ->
      (forall kv, field body "actualHours" <> JObj kv) ->
      (forall l, field body "actualHours" <> JArr l) ->
      exists s, PUT_set body now = Normal s).
Proof.
  intros Hfound Hdecided Hvalid. split; [|split].
  3:{ intros Hdesc He1 He2 Ha1 Ha2.
      pose proof Hvalid as Hname. apply PUT_validation_passes in Hname as [(name & Hname & _) _].
      unfold PUT_set. rewrite Hname. cbn [call_trim].
      assert (Hdesc' : exists desc, trimmed_or_null (field body "description") = Normal desc).
      { destruct Hdesc as [Hnull | [d ->]]; [|eexists; reflexivity].
        destruct (field body "description"); try discriminate; eexists; reflexivity. }
      destruct Hdesc' as [desc ->].
      assert (He : exists e, opt_toString (field body "expectedHours") = Normal e).
      { destruct (field body "expectedHours") as [| |[|]|f|str|l|kv];
          try (eexists; reflexivity); [destruct (He2 l eq_refl) | destruct (He1 kv eq_refl)]. }
      assert (Ha : exists a, opt_toString (field body "actualHours") = Normal a).
      { destruct (field body "actualHours") as [| |[|]|f|str|l|kv];
          try (eexists; reflexivity); [destruct (Ha2 l eq_refl) | destruct (Ha1 kv eq_refl)]. }
      destruct He as [e ->], Ha as [a ->]. eexists. reflexivity. }
  - intros user Hrole.
    rewrite PUT_eq, (PUT_validation_not_nullish _ Hvalid), Hvalid, Hfound.
    destruct (not_owner_nor_admin t user); [split; reflexivity|].
    rewrite (decided_ne_pending _ _ Hdecided Hrole). split; reflexivity.
  - intros user s Hrole Hset Hrow.
    destruct (admin_passes_gates t user Hrole) as [Hgate1 Hgate2].
    rewrite PUT_eq, (PUT_validation_not_nullish _ Hvalid), Hvalid, Hfound,
      Hgate1, Hgate2, Hset, Hrow.
    apply PUT_validation_passes in Hvalid as [(name & Hname & _) _].
    exists (Db.apply_set s t), name.
    split; [reflexivity|]. split; [reflexivity|]. split; [exact Hname|].
    unfold PUT_set in Hset. rewrite Hname in Hset. cbn [call_trim] in Hset.
    destruct (trimmed_or_null _) as [desc|]; [|discriminate].
    destruct (opt_toString (field body "expectedHours")) as [expected|]; [|discriminate].
    destruct (opt_toString (field body "actualHours")) as [actual|]; [|discriminate].
    injection Hset as <-. repeat split; reflexivity.
Qed.

(** C2, as the code has it.  A signed-in caller who is neither the owner
    nor an administrator never changes an existing task: whatever the task's
    status, a body that passes the input validation is answered 403
    "Forbidden", and any request at all is answered 400, 403 or 500 with the
    database as it was. *)
Theorem PUT_stranger_forbidden_after_validation (w : world) (user : SessionUser)
  (id : string) (t : Tasks.row) (now : Z) :
  tasks (db w) !! id = Some t ->
  Tasks.employeeId t <> user_id user ->
  is_admin user = false ->
  (forall body, PUT_validation body = Value tt ->
     (PUT row_ok (Some user) id (Normal body) now w).1 = error "Forbidden" 403)
  /\ (forall req,
        db (PUT row_ok (Some user) id req now w).2 = db w
        /\ (status (PUT row_ok (Some user) id req now w).1 = 400
            \/ status (PUT row_ok (Some user) id req now w).1 = 403
            \/ status (PUT row_ok (Some user) id req now w).1 = 500)).
Proof.
  intros Hfound Hother Hrole.
  pose proof (stranger_stops_at_gate _ _ Hother Hrole) as Hgate. split.
  - intros body Hvalid.
    rewrite PUT_eq, (PUT_validation_not_nullish _ Hvalid), Hvalid, Hfound, Hgate.
    reflexivity.
  - intros [body|]; [|rewrite PUT_no_body; cbn; auto].
    rewrite PUT_eq. destruct (nullish body); [cbn; auto|].
    unfold PUT_validation.
    destruct (opt_trim _); [|cbn; auto].
    destruct (negb _); [cbn; auto|].
    destruct (actualHours_invalid _) as [[|]|]; [cbn; auto| |cbn; auto].
    rewrite Hfound, Hgate. cbn. auto.
Qed.

(** C4. A PUT that answers 200 has replaced the row under [id] by one that
    differs from it in [taskName], [description], [expectedHours],
    [actualHours] and [updatedAt] at most; the key, the project, the owner,
    the status, the approval columns and [createdAt] are those of the old
    row, whatever the body carries, and no other table is touched. *)
Theorem PUT_writes_five_columns (session : option SessionUser) (id : string)
  (req : completion jsval) (now : Z) (w : world) :
  status (PUT row_ok session id req now w).1 = 200 ->
  exists t t',
    tasks (db w) !! id = Some t
    /\ body (PUT row_ok session id req now w).1 = TaskBody (Some t')
    /\ tasks (db (PUT row_ok session id req now w).2) = <[id := t']> (tasks (db w))
    /\ projects (db (PUT row_ok session id req now w).2) = projects (db w)
    /\ users (db (PUT row_ok session id req now w).2) = users (db w)
    /\ Tasks.id t' = Tasks.id t
    /\ Tasks.projectId t' = Tasks.projectId t
    /\ Tasks.employeeId t' = Tasks.employeeId t
    /\ Tasks.status t' = Tasks.status t
    /\ Tasks.approvedBy t' = Tasks.approvedBy t
    /\ Tasks.approvedAt t' = Tasks.approvedAt t
    /\ Tasks.rejectionReason t' = Tasks.rejectionReason t
    /\ Tasks.createdAt t' = Tasks.createdAt t
    /\ Tasks.updatedAt t' = now.
Proof.
  destruct session as [user|]; [|rewrite PUT_unauthenticated; discriminate].
  destruct req as [body|]; [|rewrite PUT_no_body; discriminate].
  rewrite PUT_eq. destruct (nullish body); [discriminate|].
  unfold PUT_validation.
  destruct (opt_trim _); [|discriminate].
  destruct (negb _); [discriminate|].
  destruct (actualHours_invalid _) as [[|]|]; [discriminate| |discriminate].
  destruct (tasks (db w) !! id) as [t|]; [|discriminate].
  destruct (not_owner_nor_admin t user); [discriminate|].
  destruct (decided_and_not_admin t user); [discriminate|].
  destruct (PUT_set body now) as [s|] eqn:Hset; [|discriminate].
  destruct (row_ok _); [|discriminate].
  intros _. exists t, (Db.apply_set s t). unfold PUT_set in Hset.
  destruct (call_trim _); [|discriminate].
  destruct (trimmed_or_null _); [|discriminate].
  destruct (opt_toString (field body "expectedHours")); [|discriminate].
  destruct (opt_toString (field body "actualHours")); [|discriminate].
  injection Hset as <-. repeat split; reflexivity.
Qed.

(** PUT reads four properties of the body and no other. *)
Lemma PUT_reads_four_fields session id body body' now w :
  nullish body = nullish body' ->
  field body "taskName" = field body' "taskName" ->
  field body "description" = field body' "description" ->
  field body "expectedHours" = field body' "expectedHours" ->
  field body "actualHours" = field body' "actualHours" ->
  PUT row_ok session id (Normal body) now w = PUT row_ok session id (Normal body') now w.
Proof.
  intros Hn H1 H2 H3 H4. destruct session as [user|]; [|reflexivity].
  rewrite !PUT_eq. unfold PUT_validation, PUT_set.
  rewrite Hn, H1, H2, H3, H4. reflexivity.
Qed.

(** C9. A PUT or DELETE answered 400, 403 or 404 has sent no insert, update
    or delete to the database, and the database is what it was. *)
Theorem rejected_requests_do_not_write (session : option SessionUser) (id : string)
  (req : completion jsval) (now : Z) (w : world) :
  (status (PUT row_ok session id req now w).1 = 400
   \/ status (PUT row_ok session id req now w).1 = 403
   \/ status (PUT row_ok session id req now w).1 = 404 ->
   db (PUT row_ok session id req now w).2 = db w
   /\ reads_only w (PUT row_ok session id req now w).2)
  /\ (status (DELETE session id w).1 = 400
      \/ status (DELETE session id w).1 = 403
      \/ status (DELETE session id w).1 = 404 ->
      db (DELETE session id w).2 = db w
      /\ reads_only w (DELETE session id w).2).
Proof.
  assert (Hnone : reads_only w w).
  { exists []. split; [by rewrite app_nil_r | reflexivity]. }
  assert (Hselect : reads_only w (logged w [SelectTask id])).
  { exists [SelectTask id]. split; reflexivity. }
  split.
  - destruct session as [user|];
      [|rewrite PUT_unauthenticated; cbn; intros [|[|]]; discriminate].
    destruct req as [body|];
      [|rewrite PUT_no_body; cbn; intros [|[|]]; discriminate].
    rewrite PUT_eq. destruct (nullish body); [cbn; intros [|[|]]; discriminate|].
    unfold PUT_validation.
    destruct (opt_trim _); [|cbn; intros [|[|]]; discriminate].
    destruct (negb _); [intros _; split; [reflexivity | exact Hnone]|].
    destruct (actualHours_invalid _) as [[|]|];
      [intros _; split; [reflexivity | exact Hnone]| |cbn; intros [|[|]]; discriminate].
    destruct (tasks (db w) !! id) as [t|];
      [|intros _; split; [reflexivity | exact Hselect]].
    destruct (not_owner_nor_admin t user);
      [intros _; split; [reflexivity | exact Hselect]|].
    destruct (decided_and_not_admin t user);
      [intros _; split; [reflexivity | exact Hselect]|].
    destruct (PUT_set body now); [|cbn; intros [|[|]]; discriminate].
    destruct (row_ok _); cbn; intros [|[|]]; discriminate.
  - destruct session as [user|];
      [|rewrite DELETE_unauthenticated; cbn; intros [|[|]]; discriminate].
    rewrite DELETE_eq.
    destruct (tasks (db w) !! id) as [t|];
      [|intros _; split; [reflexivity | exact Hselect]].
    destruct (not_owner_nor_admin t user);
      [intros _; split; [reflexivity | exact Hselect]|].
    cbn; intros [|[|]]; discriminate.
Qed.

End Update.

Section UpdateExamples.

Import api_tasks_id Sample.

(** C1 as stated fails: on the approved task [t2] an empty name is answered
    400 "Task name is required" both for Alice, who is no administrator and
    should get 403, and for the administrator, who should succeed; the name
    is checked before the task is read. *)
Lemma PUT_decided_empty_name_is_400 :
  tasks (db w0) !! "t2" = Some t2
  /\ Tasks.status t2 <> Tasks.pending
  /\ is_admin alice = false
  /\ is_admin carol = true
  /\ PUT accept_all (Some alice) "t2" (Normal (JObj [("taskName", JStr "")])) 999 w0
     = (error "Task name is required" 400, w0)
  /\ PUT accept_all (Some carol) "t2" (Normal (JObj [("taskName", JStr "")])) 999 w0
     = (error "Task name is required" 400, w0).
Proof. vm_compute. repeat split; discriminate. Qed.

(** The approved task [t2]: its owner gets 403, the administrator 200 and
    the trimmed name is stored. *)
Lemma PUT_decided_task_admin_only_witness :
  status (PUT accept_all (Some alice) "t2" (Normal dashboard_body) 999 w0).1 = 403
  /\ exists t',
       tasks (db (PUT accept_all (Some carol) "t2" (Normal dashboard_body) 999 w0).2) !! "t2"
         = Some t'
       /\ Tasks.taskName t' = "Design v2"
       /\ Tasks.status t' = Tasks.approved.
Proof.
  destruct (PUT_decided_task_admin_only accept_all w0 "t2" t2 dashboard_body 999)
    as (Hothers & Hadmin & _).
  - vm_compute. reflexivity.
  - discriminate.
  - vm_compute. reflexivity.
  - split.
    + apply (Hothers alice). reflexivity.
    + destruct (Hadmin carol _ eq_refl eq_refl eq_refl)
        as (t' & name & _ & Hdb & Hname & Htrim & _ & _ & _ & _ & Hst).
      exists t'. rewrite Hdb, lookup_insert_eq. split; [reflexivity|].
      rewrite Htrim, Hst. vm_compute in Hname. injection Hname as <-.
      split; reflexivity.
Defined.

(** C2 as stated fails: Bob, who neither owns [t1] nor is an administrator,
    sends an empty name and is answered 400, not 403. *)
Lemma PUT_stranger_empty_name_is_400 :
  tasks (db w0) !! "t1" = Some t1
  /\ Tasks.employeeId t1 <> user_id bob
  /\ is_admin bob = false
  /\ status (PUT accept_all (Some bob) "t1"
               (Normal (JObj [("taskName", JStr "")])) 999 w0).1 = 400
  /\ status (PUT accept_all (Some bob) "t1"
               (Normal (JObj [("taskName", JStr "")])) 999 w0).1 <> 403.
Proof. vm_compute. repeat split; discriminate. Qed.

Lemma PUT_stranger_forbidden_after_validation_witness :
  (PUT accept_all (Some bob) "t1" (Normal dashboard_body) 999 w0).1
    = error "Forbidden" 403
  /\ db (PUT accept_all (Some bob) "t1" (Normal (JObj [("taskName", JStr "")])) 999 w0).2
     = db w0.
Proof.
  destruct (PUT_stranger_forbidden_after_validation accept_all w0 bob "t1" t1 999)
    as [Hvalid Hany].
  - vm_compute. reflexivity.
  - discriminate.
  - reflexivity.
  - split.
    + apply Hvalid. vm_compute. reflexivity.
    + apply Hany.
Defined.

(** The administrator saves [dashboard_body] on the approved task: the task
    keeps its status and its creation date. *)
Lemma PUT_writes_five_columns_witness :
  exists t',
    tasks (db (PUT accept_all (Some carol) "t2" (Normal dashboard_body) 999 w0).2) !! "t2"
      = Some t'
    /\ Tasks.status t' = Tasks.approved
    /\ Tasks.createdAt t' = 300
    /\ Tasks.taskName t' = "Design v2".
Proof.
  destruct (PUT_writes_five_columns accept_all (Some carol) "t2"
              (Normal dashboard_body) 999 w0)
    as (t & t' & Hold & Hbody & Htasks & _ & _ & _ & _ & _ & Hst & _ & _ & _ & Hcreated & _).
  - vm_compute. reflexivity.
  - exists t'. rewrite Htasks, lookup_insert_eq.
    assert (Hl : tasks (db w0) !! "t2" = Some t2) by (vm_compute; reflexivity).
    rewrite Hl in Hold. injection Hold as <-.
    rewrite Hst, Hcreated. repeat split.
    assert (Hb : body (PUT accept_all (Some carol) "t2" (Normal dashboard_body) 999 w0).1
                 = TaskBody (Some (Db.apply_set
                      {| Db.set_taskName := "Design v2"; Db.set_description := None;
                         Db.set_expectedHours := Some "6"; Db.set_actualHours := None;
                         Db.set_updatedAt := 999 |} t2)))
      by (vm_compute; reflexivity).
    rewrite Hb in Hbody. injection Hbody as <-. reflexivity.
Defined.

(** Bob's DELETE of Alice's task is answered 403 and nothing is written. *)
Lemma rejected_requests_do_not_write_witness :
  db (DELETE (Some bob) "t2" w0).2 = db w0
  /\ reads_only w0 (DELETE (Some bob) "t2" w0).2
  /\ db (PUT accept_all (Some alice) "t2" (Normal dashboard_body) 999 w0).2 = db w0.
Proof.
  destruct (rejected_requests_do_not_write accept_all (Some bob) "t2"
              (Normal dashboard_body) 999 w0) as [_ Hdelete].
  destruct (rejected_requests_do_not_write accept_all (Some alice) "t2"
              (Normal dashboard_body) 999 w0) as [Hput _].
  destruct Hdelete as [Hdb Hsent]; [right; left; reflexivity|].
  destruct Hput as [Hdb' _]; [right; left; reflexivity|].
  repeat split; assumption.
Defined.

(** C6 fails on [expectedHours]: the owner of the pending task [t1] sends
    [expectedHours: -5]; the handler answers 200 and the row now holds
    ["-5"], and [actualHours: -5] in the same place is answered 400.  No
    schema turns the first answer into a 400. *)
Theorem PUT_stores_negative_expectedHours :
  let req := Normal (JObj [("taskName", JStr "Design"); ("expectedHours", JNum (-5))]) in
  let req' := Normal (JObj [("taskName", JStr "Design"); ("actualHours", JNum (-5))]) in
  status (PUT accept_all (Some alice) "t1" req 999 w0).1 = 200
  /\ Tasks.expectedHours <$> tasks (db (PUT accept_all (Some alice) "t1" req 999 w0).2) !! "t1"
     = Some "-5"
  /\ status (PUT accept_all (Some alice) "t1" req' 999 w0).1 = 400
  /\ forall row_ok, status (PUT row_ok (Some alice) "t1" req 999 w0).1 <> 400.
Proof.
  cbv zeta. split; [vm_compute; reflexivity|].
  split; [vm_compute; reflexivity|].
  split; [vm_compute; reflexivity|].
  intros row_ok. rewrite PUT_eq.
  change (nullish _) with false. cbv iota.
  replace (PUT_validation _) with (@Value unit tt) by (vm_compute; reflexivity).
  replace (tasks (db w0) !! "t1") with (Some t1) by (vm_compute; reflexivity).
  change (not_owner_nor_admin t1 alice) with false.
  change (decided_and_not_admin t1 alice) with false. cbv iota.
  destruct (PUT_set _ _); [destruct (row_ok _)|]; discriminate.
Qed.

End UpdateExamples.

(** ** Create *)

Section Create.

Import api_tasks.

Variable row_ok : Tasks.row -> bool.
Variable pg_other : jsval -> option string.

Lemma POST_unauthenticated req new_id now w :
  POST row_ok pg_other None req new_id now w = (error "Unauthorized" 401, w).
Proof. reflexivity. Qed.

Lemma POST_no_body user new_id now w :
  POST row_ok pg_other (Some user) Throws new_id now w
  = (error "Failed to create task" 500, w).
Proof. reflexivity. Qed.

Lemma bind_text_eq v :
  Db.bind_text pg_other v =
  fun w => match text_of pg_other v with
           | Some s => (Value s, w)
           | None => (Thrown, w)
           end.
Proof.
  unfold Db.bind_text, text_of.
  destruct v; try reflexivity; destruct (pg_other _); reflexivity.
Qed.

Lemma bind_text_opt_eq v :
  Db.bind_text_opt pg_other v =
  fun w => match text_opt_of pg_other v with
           | Some s => (Value s, w)
           | None => (Thrown, w)
           end.
Proof.
  unfold Db.bind_text_opt, text_opt_of. rewrite bind_text_eq.
  destruct v; try reflexivity; unfold bind;
    destruct (text_of pg_other _); reflexivity.
Qed.

Lemma POST_eq user body new_id now w :
  POST row_ok pg_other (Some user) (Normal body) new_id now w =
  if nullish body then (error "Failed to create task" 500, w)
  else if POST_incomplete body
  then (error "All required fields must be provided" 400, w)
  else
    match text_of pg_other (field body "projectId") with
    | None => (error "Failed to create task" 500, w)
    | Some pid =>
        match projects (db w) !! pid with
        | None => (error "Project not found" 404, logged w [SelectProject pid])
        | Some _ =>
            match POST_values pg_other user body with
            | None => (error "Failed to create task" 500, logged w [SelectProject pid])
            | Some v =>
                if bool_decide (tasks (db w) !! new_id = None) && row_ok (Db.new_row new_id now v)
                then (NextResponse_json (TaskBody (Some (Db.new_row new_id now v))) 201,
                      {| db := Db.set_tasks (db w)
                                 (<[new_id := Db.new_row new_id now v]> (tasks (db w)));
                         sent := sent w ++ [SelectProject pid; InsertTask] |})
                else (error "Failed to create task" 500,
                      logged w [SelectProject pid; InsertTask])
            end
        end
    end.
Proof.
  unfold POST, POST_incomplete, POST_values. run_handler.
  rewrite !get_property_field.
  destruct (nullish body); [reflexivity|]. cbv beta iota.
  destruct (_ || _); [reflexivity|].
  rewrite !bind_text_eq, bind_text_opt_eq.
  destruct (text_of pg_other (field body "projectId")) as [pid|]; [|reflexivity].
  cbn [db sent mbind option_bind].
  destruct (projects (db w) !! pid) as [p|]; [|reflexivity].
  rewrite bool_decide_eq_false_2 by discriminate.
  destruct (call_toString (field body "expectedHours")) as [expected|]; [|reflexivity].
  destruct (call_toString (field body "actualHours")) as [actual|]; [|reflexivity].
  cbn [returned mbind option_bind].
  destruct (text_of pg_other (field body "taskName")) as [name|]; [|reflexivity].
  destruct (text_opt_of pg_other (field body "description")) as [desc|]; [|reflexivity].
  cbn [db sent mbind option_bind]. unfold logged. rewrite <- !app_assoc.
  destruct (tasks (db w) !! new_id) as [old|].
  - rewrite bool_decide_eq_false_2 by discriminate. reflexivity.
  - rewrite bool_decide_eq_true_2 by reflexivity.
    destruct (row_ok _); reflexivity.
Qed.

(** What [.values(...)] holds when the conversions go through. *)
Lemma POST_values_fields user body v :
  POST_values pg_other user body = Some v ->
  text_of pg_other (field body "projectId") = Some (Db.val_projectId v)
  /\ call_toString (field body "expectedHours") = Normal (Db.val_expectedHours v)
  /\ call_toString (field body "actualHours") = Normal (Db.val_actualHours v)
  /\ text_of pg_other (field body "taskName") = Some (Db.val_taskName v)
  /\ text_opt_of pg_other (field body "description") = Some (Db.val_description v)
  /\ Db.val_employeeId v = user_id user
  /\ Db.val_status v = Tasks.pending.
Proof.
  unfold POST_values. intros Hv.
  destruct (text_of pg_other (field body "projectId")); [|discriminate].
  destruct (call_toString (field body "expectedHours")); [|discriminate].
  destruct (call_toString (field body "actualHours")); [|discriminate].
  cbn [returned mbind option_bind] in Hv.
  destruct (text_of pg_other (field body "taskName")); [|discriminate].
  destruct (text_opt_of pg_other _); [|discriminate].
  injection Hv as <-. repeat split; reflexivity.
Qed.




(** C7. A POST answered 201 has added exactly one row, under the new key,
    which is the task returned; its status is pending and its employee is
    the session user.  And a POST answers 201 whenever the four required
    properties are there, the two hours convert to text without throwing,
    the values bind, the project exists and the database takes the row.
    The conversions and the binding go through whenever the project and the
    name are strings, the description is a string or is not there, and each
    of the hours is a string or a number. *)
Theorem POST_creates_pending_task_of_caller (session : option SessionUser)
  (req : completion jsval) (new_id : string) (now : Z) (w : world) :
  (status (POST row_ok pg_other session req new_id now w).1 = 201 ->
   exists user t,
     session = Some user
     /\ (POST row_ok pg_other session req new_id now w).1
        = NextResponse_json (TaskBody (Some t)) 201
     /\ tasks (db w) !! new_id = None
     /\ tasks (db (POST row_ok pg_other session req new_id now w).2)
        = <[new_id := t]> (tasks (db w))
     /\ Tasks.status t = Tasks.pending
     /\ Tasks.employeeId t = user_id user)
  /\ (forall user body v,
        session = Some user ->
        req = Normal body ->
        nullish body = false ->
        POST_incomplete body = false ->
        POST_values pg_other user body = Some v ->
        is_Some (projects (db w) !! Db.val_projectId v) ->
        tasks (db w) !! new_id = None ->
        row_ok (Db.new_row new_id now v) = true ->
        (POST row_ok pg_other session req new_id now w).1
          = NextResponse_json (TaskBody (Some (Db.new_row new_id now v))) 201
        /\ tasks (db (POST row_ok pg_other session req new_id now w).2) !! new_id
           = Some (Db.new_row new_id now v))
  /\ (forall user body pid name expected actual,
        field body "projectId" = JStr pid ->
        field body "taskName" = JStr name ->
        (nullish (field body "description") = true
         \/ exists d, field body "description" = JStr d) ->
        (field body "expectedHours" = JStr expected
         \/ exists f, field body "expectedHours" = JNum f /\ expected = number_toString f) ->
        (field body "actualHours" = JStr actual
         \/ exists f, field body "actualHours" = JNum f /\ actual = number_toString f) ->
        exists v,
          POST_values pg_other user body = Some v
          /\ Db.val_projectId v = pid
          /\ Db.val_taskName v = name
          /\ Db.val_expectedHours v = expected
          /\ Db.val_actualHours v = actual).
Proof.
  split; [|split].
  3:{ intros user body pid name expected actual Hpid Hname Hdesc Hexpected Hactual.
      unfold POST_values. rewrite Hpid, Hname. cbn [text_of mbind option_bind].
      assert (Hdesc' : exists desc, text_opt_of pg_other (field body "description") = Some desc).
      { destruct Hdesc as [Hnull | [d ->]]; [|eexists; reflexivity].
        destruct (field body "description"); try discriminate; eexists; reflexivity. }
      destruct Hdesc' as [desc ->].
      assert (He : call_toString (field body "expectedHours") = Normal expected).
      { destruct Hexpected as [-> | (f & -> & ->)]; reflexivity. }
      assert (Ha : call_toString (field body "actualHours") = Normal actual).
      { destruct Hactual as [-> | (f & -> & ->)]; reflexivity. }
      rewrite He, Ha. cbn [returned mbind option_bind fmap option_fmap option_map].
      eexists. split; [reflexivity|]. repeat split. }
  - destruct session as [user|]; [|rewrite POST_unauthenticated; discriminate].
    destruct req as [body|]; [|rewrite POST_no_body; discriminate].
    rewrite POST_eq. destruct (nullish body); [discriminate|].
    destruct (POST_incomplete body); [discriminate|].
    destruct (text_of pg_other _) as [pid|]; [|discriminate].
    destruct (projects (db w) !! pid); [|discriminate].
    destruct (POST_values pg_other user body) as [v|] eqn:Hv; [|discriminate].
    destruct (bool_decide _ && row_ok _) eqn:Hok; [|discriminate].
    intros _. apply andb_prop in Hok as [Hfresh _].
    apply bool_decide_eq_true in Hfresh.
    exists user, (Db.new_row new_id now v).
    destruct (POST_values_fields _ _ _ Hv) as (_ & _ & _ & _ & _ & Hemp & Hst).
    repeat split; try reflexivity; assumption.
  - intros user body v -> -> Hbody Hcomplete Hv [p Hp] Hfresh Hrow.
    rewrite POST_eq, Hbody, Hcomplete, Hv.
    assert (Hpid : text_of pg_other (field body "projectId") = Some (Db.val_projectId v)).
    { apply (POST_values_fields _ _ _ Hv). }
    rewrite Hpid, Hp, Hfresh, Hrow, bool_decide_eq_true_2 by reflexivity.
    split; [reflexivity|]. cbn. apply lookup_insert_eq.
Qed.

End Create.

Section CreateExamples.

Import api_tasks Sample.



(** Bob creates a task; it is his and it is pending, and the hours are
    stored as text. *)
Lemma POST_creates_pending_task_of_caller_witness :
  (exists t,
     tasks (db (POST accept_all strings_only (Some bob)
                  (Normal (create_body "p1" "Design" (JNum 2) (JStr "1.5")))
                  "t9" 999 w0).2) !! "t9" = Some t
     /\ Tasks.status t = Tasks.pending
     /\ Tasks.employeeId t = "u-bob")
  /\ (POST accept_all strings_only (Some bob)
        (Normal (create_body "p1" "Design" (JNum 2) (JStr "1.5"))) "t9" 999 w0).1
     = NextResponse_json
         (TaskBody (Some (Tasks.mk "t9" "p1" "u-bob" "Design" None "2" "1.5" Tasks.pending
                            None None None 999 999))) 201.
Proof.
  destruct (POST_creates_pending_task_of_caller accept_all strings_only (Some bob)
              (Normal (create_body "p1" "Design" (JNum 2) (JStr "1.5")))
              "t9" 999 w0) as (Hcreated & Hgoes & _).
  split.
  - destruct Hcreated as (user & t & Huser & _ & _ & Htasks & Hst & Hemp).
    + vm_compute. reflexivity.
    + exists t. rewrite Htasks, lookup_insert_eq, Hst, Hemp.
      injection Huser as <-. repeat split.
  - refine (proj1 (Hgoes bob (create_body "p1" "Design" (JNum 2) (JStr "1.5"))
                     {| Db.val_projectId := "p1"; Db.val_employeeId := "u-bob";
                        Db.val_taskName := "Design"; Db.val_description := None;
                        Db.val_expectedHours := "2"; Db.val_actualHours := "1.5";
                        Db.val_status := Tasks.pending |}
                     eq_refl eq_refl eq_refl _ _ _ _ eq_refl)).
    + vm_compute. reflexivity.
    + vm_compute. reflexivity.
    + vm_compute. eexists. reflexivity.
    + vm_compute. reflexivity.
Defined.

End CreateExamples.

(** ** List *)

Section List.

Import api_tasks.

#[local] Instance created_desc_total : Total Db.created_desc.
Proof. intros a b. unfold Db.created_desc. lia. Qed.

#[local] Instance created_desc_trans : Transitive Db.created_desc.
Proof. intros a b c. unfold Db.created_desc. lia. Qed.

Lemma conditions_matches_filters p s e t :
  forallb (fun c => c t) (conditions p s e) = matches_filters p s e t.
Proof.
  unfold conditions, matches_filters, filter_holds.
  destruct (supplied p), (supplied s), (supplied e); cbn;
    rewrite ?andb_true_r, ?andb_assoc; reflexivity.
Qed.

Lemma filter_all {A} (f : A -> bool) (l : list A) :
  (forall x, f x = true) -> List.filter f l = l.
Proof.
  intros Hall. induction l as [|x l IH]; cbn; [reflexivity|].
  rewrite Hall, IH. reflexivity.
Qed.

Lemma no_conditions p s e :
  conditions p s e = [] ->
  supplied p = None /\ supplied s = None /\ supplied e = None.
Proof.
  unfold conditions.
  destruct (supplied p), (supplied s), (supplied e); cbn; try discriminate; auto.
Qed.

(** The rows the query keeps are the rows that match the filters. *)
Lemma kept_rows p s e (rows : list Tasks.row) :
  (if (0 <? length (conditions p s e))%nat
   then List.filter (fun t => forallb (fun c => c t) (conditions p s e)) rows
   else rows)
  = List.filter (matches_filters p s e) rows.
Proof.
  destruct (conditions p s e) as [|c cs] eqn:Hconds.
  - cbn. symmetry. apply filter_all. intros t.
    destruct (no_conditions _ _ _ Hconds) as (Hp & Hs & He).
    unfold matches_filters, filter_holds. rewrite Hp, Hs, He. reflexivity.
  - cbn [length Nat.ltb Nat.leb]. rewrite <- Hconds.
    apply List.filter_ext. intros t. apply conditions_matches_filters.
Qed.

Lemma GET_unauthenticated p s e w :
  GET None p s e w = (error "Unauthorized" 401, w).
Proof. reflexivity. Qed.

Lemma GET_eq user p s e w :
  GET (Some user) p s e w =
  (NextResponse_json
     (TasksBody (Db.joined (db w) <$>
                 merge_sort Db.created_desc
                   (List.filter (matches_filters p s e) (map_to_list (tasks (db w))).*2)))
     200,
   logged w [SelectTasks]).
Proof. unfold GET. run_handler. rewrite kept_rows. reflexivity. Qed.

(** C8. For a signed-in caller GET answers 200 with the task rows that
    satisfy every supplied filter, each once and joined with its project and
    its employee, the newest first; without a filter these are all the rows
    of the table.  Each row returned carries the ten columns of a task that
    is stored and matches, the id and the name of the project the task
    names, and the id, the name and the email of the user it names as its
    employee, or nulls where there is no such project or user.  Nothing is
    written. *)
Theorem GET_lists_matching_tasks_newest_first (user : SessionUser)
  (projectId status employeeId : option string) (w : world) :
  exists views,
    GET (Some user) projectId status employeeId w
      = (NextResponse_json (TasksBody views) 200, logged w [SelectTasks])
    /\ views ≡ₚ Db.joined (db w) <$>
                List.filter (matches_filters projectId status employeeId)
                  (map_to_list (tasks (db w))).*2
    /\ StronglySorted newest_first views
    /\ (supplied projectId = None -> supplied status = None -> supplied employeeId = None ->
        views ≡ₚ Db.joined (db w) <$> (map_to_list (tasks (db w))).*2)
    /\ (forall v, v ∈ views ->
          exists id t,
            tasks (db w) !! id = Some t
            /\ matches_filters projectId status employeeId t = true
            /\ v_taskId v = Tasks.id t
            /\ v_taskName v = Tasks.taskName t
            /\ v_description v = Tasks.description t
            /\ v_expectedHours v = Tasks.expectedHours t
            /\ v_actualHours v = Tasks.actualHours t
            /\ v_status v = Tasks.status t
            /\ v_approvedAt v = Tasks.approvedAt t
            /\ v_rejectionReason v = Tasks.rejectionReason t
            /\ v_createdAt v = Tasks.createdAt t
            /\ v_updatedAt v = Tasks.updatedAt t
            /\ v_projectId v = Projects.id <$> projects (db w) !! Tasks.projectId t
            /\ v_projectName v = Projects.projectName <$> projects (db w) !! Tasks.projectId t
            /\ v_employeeId v = UserTable.id <$> users (db w) !! Tasks.employeeId t
            /\ v_employeeName v = UserTable.name <$> users (db w) !! Tasks.employeeId t
            /\ v_employeeEmail v = UserTable.email <$> users (db w) !! Tasks.employeeId t).
Proof.
  rewrite GET_eq. eexists. split; [reflexivity|]. split; [|split; [|split]].
  - by rewrite merge_sort_Permutation.
  - apply StronglySorted_fmap with (R1 := Db.created_desc).
    + intros a b Hab. exact Hab.
    + apply StronglySorted_merge_sort; apply _.
  - intros Hp Hs He. rewrite merge_sort_Permutation, filter_all; [reflexivity|].
    intros t. unfold matches_filters, filter_holds. rewrite Hp, Hs, He. reflexivity.
  - intros v. rewrite merge_sort_Permutation, list_elem_of_fmap.
    intros (t & -> & Hin). apply list_elem_of_In, List.filter_In in Hin as [Hin Hm].
    apply list_elem_of_In, list_elem_of_fmap in Hin as ([id t'] & -> & Hin).
    apply elem_of_map_to_list in Hin. exists id, t'.
    repeat split; try reflexivity; assumption.
Qed.

(** A task is listed exactly when it is in the table and matches. *)
Lemma GET_lists_a_task_iff user projectId status employeeId w views :
  (GET (Some user) projectId status employeeId w).1 = NextResponse_json (TasksBody views) 200 ->
  forall v, v ∈ views <->
    exists id t, tasks (db w) !! id = Some t
                 /\ matches_filters projectId status employeeId t = true
                 /\ v = Db.joined (db w) t.
Proof.
  rewrite GET_eq. cbn. intros [= <-] v.
  rewrite merge_sort_Permutation, list_elem_of_fmap. split.
  - intros (t & -> & Hin). apply list_elem_of_In, List.filter_In in Hin as [Hin Hm].
    apply list_elem_of_In, list_elem_of_fmap in Hin as ([id t'] & -> & Hin).
    apply elem_of_map_to_list in Hin. exists id, t'. auto.
  - intros (id & t & Hlook & Hm & ->). exists t. split; [reflexivity|].
    apply list_elem_of_In, List.filter_In. split; [|exact Hm].
    apply list_elem_of_In, list_elem_of_fmap. exists (id, t). split; [reflexivity|].
    by apply elem_of_map_to_list.
Qed.

End List.

Section ListExamples.

Import api_tasks Sample.

(** Alice's tasks, newest first, with her name and the project's. *)
Lemma GET_lists_matching_tasks_newest_first_witness :
  exists views,
    body (GET (Some bob) None (Some "") (Some "u-alice") w0).1 = TasksBody views
    /\ v_taskId <$> views = ["t2"; "t1"]
    /\ v_employeeName <$> views = [Some "Alice"; Some "Alice"]
    /\ v_projectName <$> views = [Some "Website Redesign"; Some "Website Redesign"]
    /\ StronglySorted newest_first views.
Proof.
  destruct (GET_lists_matching_tasks_newest_first bob None (Some "") (Some "u-alice") w0)
    as (views & Heq & _ & Hsorted & _).
  exists views. rewrite Heq. split; [reflexivity|].
  split; [|split; [|split; [|exact Hsorted]]].
  - vm_compute in Heq. injection Heq as <-. reflexivity.
  - vm_compute in Heq. injection Heq as <-. reflexivity.
  - vm_compute in Heq. injection Heq as <-. reflexivity.
Defined.

End ListExamples.

(** ** Totals *)

Section Totals.

Import ProjectDetailTable.

Lemma scaled_S p n : scaled p (S n) = xO (scaled p n).
Proof. reflexivity. Qed.

Lemma scaled_Z p n : Zpos (scaled p n) = Zpos p * 2 ^ Z.of_nat n.
Proof.
  induction n as [|n IH].
  - cbn. lia.
  - rewrite scaled_S, Pos2Z.inj_xO, IH, Nat2Z.inj_succ, Z.pow_succ_r by lia. lia.
Qed.

Lemma scaled_add p n m : scaled (scaled p n) m = scaled p (n + m).
Proof.
  unfold scaled. rewrite Nat.add_comm. symmetry. apply Nat.iter_add.
Qed.

Lemma scaled_plus p q n : (scaled p n + scaled q n)%positive = scaled (p + q) n.
Proof.
  apply Pos2Z.inj. rewrite Pos2Z.inj_add, !scaled_Z, Pos2Z.inj_add. lia.
Qed.

Lemma digits2_pos_size p : digits2_pos p = Pos.size p.
Proof. induction p as [p IH|p IH|]; cbn; rewrite ?IH; reflexivity. Qed.

Lemma digits2_log2 p : Zpos (digits2_pos p) = Z.log2 (Zpos p) + 1.
Proof.
  rewrite digits2_pos_size. destruct p as [p|p|]; cbn; try reflexivity;
    rewrite Pos2Z.inj_succ; lia.
Qed.

Lemma digits2_scaled p n :
  Zpos (digits2_pos (scaled p n)) = Zpos (digits2_pos p) + Z.of_nat n.
Proof.
  induction n as [|n IH]; [cbn; lia|].
  rewrite scaled_S. cbn [digits2_pos]. rewrite Pos2Z.inj_succ, IH. lia.
Qed.

Lemma digits2_bound p : Zpos p < 2 ^ 53 -> Zpos (digits2_pos p) <= 53.
Proof.
  intros Hp. rewrite digits2_log2.
  assert (Z.log2 (Zpos p) < 53) by (apply Z.log2_lt_pow2; lia). lia.
Qed.

Lemma iter_pos_nat {A} (f : A -> A) n x :
  SpecFloat.iter_pos f n x = Nat.iter (Pos.to_nat n) f x.
Proof.
  revert x. induction n as [n IH|n IH|]; intros x; cbn [SpecFloat.iter_pos].
  - rewrite !IH, Pos2Nat.inj_xI.
    change (S (2 * Pos.to_nat n)) with (S (Pos.to_nat n + (Pos.to_nat n + 0)))%nat.
    rewrite Nat.add_0_r, <- Nat.add_succ_r, Nat.iter_add, Nat.iter_succ_r. reflexivity.
  - rewrite !IH, Pos2Nat.inj_xO.
    change (2 * Pos.to_nat n)%nat with (Pos.to_nat n + (Pos.to_nat n + 0))%nat.
    rewrite Nat.add_0_r, Nat.iter_add. reflexivity.
  - reflexivity.
Qed.

Lemma iter_shr_1_scaled q n :
  Nat.iter n shr_1 (Build_shr_record (Zpos (scaled q n)) false false)
  = Build_shr_record (Zpos q) false false.
Proof.
  induction n as [|n IH]; [reflexivity|].
  rewrite Nat.iter_succ_r, scaled_S. exact IH.
Qed.

Lemma fexp_normal x : -1074 <= x - 53 -> fexp prec emax x = x - 53.
Proof. intros Hx. unfold fexp, SpecFloat.emin, prec, emax. lia. Qed.

(** A mantissa of 53 bits, shifted up, rounds to itself. *)
Lemma binary_round_aux_scaled M n t :
  Zpos (digits2_pos M) = 53 -> -1074 <= t <= 971 ->
  binary_round_aux prec emax false (Zpos (scaled M n)) (t - Z.of_nat n) loc_Exact
  = S754_finite false M t.
Proof.
  intros HM Ht. unfold binary_round_aux.
  assert (Hfirst : shr_fexp prec emax (Zpos (scaled M n)) (t - Z.of_nat n) loc_Exact
                   = (Build_shr_record (Zpos M) false false, t)).
  { unfold shr_fexp. cbn [Zdigits2 shr_record_of_loc].
    rewrite digits2_scaled, HM. rewrite fexp_normal by lia.
    replace (53 + Z.of_nat n + (t - Z.of_nat n) - 53 - (t - Z.of_nat n)) with (Z.of_nat n) by lia.
    destruct n as [|n].
    - unfold shr. cbn [Z.of_nat]. rewrite Z.sub_0_r. reflexivity.
    - unfold shr. change (Z.of_nat (S n)) with (Zpos (Pos.of_succ_nat n)). cbv iota.
      rewrite iter_pos_nat, SuccNat2Pos.id_succ, iter_shr_1_scaled. f_equal. lia. }
  rewrite Hfirst. cbn [shr_m loc_of_shr_record round_nearest_even].
  assert (Hsecond : shr_fexp prec emax (Zpos M) t loc_Exact
                    = (Build_shr_record (Zpos M) false false, t)).
  { unfold shr_fexp. cbn [Zdigits2 shr_record_of_loc].
    rewrite HM. rewrite fexp_normal by lia.
    replace (53 + t - 53 - t) with 0 by lia. reflexivity. }
  rewrite Hsecond. cbn [shr_m].
  replace (t <=? emax - prec) with true; [reflexivity|].
  symmetry. apply Z.leb_le. unfold emax, prec. lia.
Qed.

Lemma digits2_canon p :
  Zpos (digits2_pos p) <= 53 ->
  Zpos (digits2_pos (scaled p (Z.to_nat (53 - Zpos (digits2_pos p))))) = 53.
Proof. intros Hd. rewrite digits2_scaled, Z2Nat.id by lia. lia. Qed.

(** The double nearest to [p * 2^k * 2^(e-k)] is [p * 2^e] itself. *)
Lemma binary_round_scaled p k e :
  Zpos (digits2_pos p) <= 53 ->
  -1074 <= e + Zpos (digits2_pos p) - 53 <= 971 ->
  binary_round prec emax false (scaled p k) (e - Z.of_nat k) = canon e p.
Proof.
  intros Hd Hrange. unfold binary_round, canon.
  set (d := Zpos (digits2_pos p)) in *.
  rewrite digits2_scaled. fold d.
  rewrite fexp_normal by lia.
  unfold shl_align.
  replace (d + Z.of_nat k + (e - Z.of_nat k) - 53 - (e - Z.of_nat k))
    with (d + Z.of_nat k - 53) by lia.
  destruct (d + Z.of_nat k - 53) as [|u|u] eqn:Hshift.
  - replace (e - Z.of_nat k) with (e + d - 53 - Z.of_nat 0) by lia.
    replace k with (Z.to_nat (53 - d)) by lia.
    apply (binary_round_aux_scaled _ 0); [apply digits2_canon; exact Hd | lia].
  - replace (e - Z.of_nat k) with (e + d - 53 - Z.of_nat (Pos.to_nat u)) by lia.
    replace (scaled p k) with (scaled (scaled p (Z.to_nat (53 - d))) (Pos.to_nat u)).
    + apply binary_round_aux_scaled; [apply digits2_canon; exact Hd | lia].
    + rewrite scaled_add. f_equal. lia.
  - rewrite Pos2Nat.inj_iter.
    change (nat_rect _ (scaled p k) _ (Pos.to_nat u)) with (scaled (scaled p k) (Pos.to_nat u)).
    rewrite scaled_add.
    replace (k + Pos.to_nat u)%nat with (Z.to_nat (53 - d)) by lia.
    replace (d + Z.of_nat k + (e - Z.of_nat k) - 53) with (e + d - 53 - Z.of_nat 0) by lia.
    apply (binary_round_aux_scaled _ 0); [apply digits2_canon; exact Hd | lia].
Qed.

Lemma canon_valid e p :
  Zpos (digits2_pos p) <= 53 ->
  -1074 <= e + Zpos (digits2_pos p) - 53 <= 971 ->
  valid_binary (canon e p) = true.
Proof.
  intros Hd Hrange. unfold canon. cbn [SpecFloat.valid_binary].
  unfold bounded, canonical_mantissa.
  rewrite digits2_canon by lia. rewrite fexp_normal by lia.
  apply andb_true_intro. split; [apply Z.eqb_eq; lia|].
  apply Z.leb_le. unfold emax, prec. lia.
Qed.

Lemma shl_align_fst mx ex ez :
  ez <= ex -> fst (shl_align mx ex ez) = scaled mx (Z.to_nat (ex - ez)).
Proof.
  intros Hle. unfold shl_align.
  destruct (ez - ex) as [|u|u] eqn:Hd; try lia.
  - replace (ex - ez) with 0 by lia. reflexivity.
  - cbn [fst]. rewrite Pos2Nat.inj_iter.
    replace (Z.to_nat (ex - ez)) with (Pos.to_nat u) by lia. reflexivity.
Qed.

Lemma SFadd_finite mx ex my ey :
  SF64add (S754_finite false mx ex) (S754_finite false my ey)
  = binary_normalize prec emax
      (Zpos (fst (shl_align mx ex (Z.min ex ey))) + Zpos (fst (shl_align my ey (Z.min ex ey))))
      (Z.min ex ey) false.
Proof. reflexivity. Qed.

(** Quarters add without rounding. *)
Lemma SFadd_quarters a b :
  0 <= a -> 0 <= b -> a + b < 2 ^ 53 ->
  SF64add (quarters a) (quarters b) = quarters (a + b).
Proof.
  intros Ha Hb Hsum.
  destruct a as [|p|p]; [|destruct b as [|q|q]|]; try lia.
  - destruct b as [|q|q]; try lia; reflexivity.
  - reflexivity.
  - assert (Hp : Zpos (digits2_pos p) <= 53) by (apply digits2_bound; lia).
    assert (Hq : Zpos (digits2_pos q) <= 53) by (apply digits2_bound; lia).
    assert (Hpq : Zpos (digits2_pos (p + q)) <= 53) by (apply digits2_bound; lia).
    pose proof (Pos2Z.is_pos (digits2_pos p)) as Hp0.
    pose proof (Pos2Z.is_pos (digits2_pos q)) as Hq0.
    pose proof (Pos2Z.is_pos (digits2_pos (p + q))) as Hpq0.
    change (Z.pos p + Z.pos q) with (Z.pos (p + q)).
    cbn [quarters].
    set (dp := Zpos (digits2_pos p)) in *. set (dq := Zpos (digits2_pos q)) in *.
    change (canon (-2) p) with (S754_finite false (scaled p (Z.to_nat (53 - dp))) (-2 + dp - 53)).
    change (canon (-2) q) with (S754_finite false (scaled q (Z.to_nat (53 - dq))) (-2 + dq - 53)).
    rewrite SFadd_finite.
    rewrite !shl_align_fst by lia. rewrite !scaled_add.
    set (K := Z.to_nat (53 - Z.min dp dq)).
    replace (Z.to_nat (53 - dp) + Z.to_nat (-2 + dp - 53 - Z.min (-2 + dp - 53) (-2 + dq - 53)))%nat
      with K by lia.
    replace (Z.to_nat (53 - dq) + Z.to_nat (-2 + dq - 53 - Z.min (-2 + dp - 53) (-2 + dq - 53)))%nat
      with K by lia.
    rewrite <- Pos2Z.inj_add, scaled_plus. cbn [binary_normalize].
    replace (Z.min (-2 + dp - 53) (-2 + dq - 53)) with (-2 - Z.of_nat K) by lia.
    apply binary_round_scaled; lia.
Qed.

Lemma Prim2SF_zero : Prim2SF zero = S754_zero false.
Proof. vm_compute. reflexivity. Qed.

Lemma div_eucl_exact a q d :
  d <> 0 -> a = q * d -> Z.div_eucl a d = (q, 0).
Proof.
  intros Hd ->.
  assert (Hq : (q * d) / d = q) by (apply Z.div_mul; exact Hd).
  assert (Hr : (q * d) mod d = 0) by (apply Z.mod_mul; exact Hd).
  unfold Z.div, Z.modulo in Hq, Hr.
  destruct (Z.div_eucl (q * d) d) as [q' r']. congruence.
Qed.

(** A decimal that is a whole number of quarters is read without rounding. *)
Lemma float_of_decimal_quarters m e n :
  0 <= m -> -20 <= e ->
  4 * (m * 10 ^ Z.max e 0) = n * 10 ^ Z.max (- e) 0 ->
  n < 2 ^ 53 ->
  Prim2SF (float_of_decimal false m e) = quarters n.
Proof.
  intros Hm He Hval Hn. unfold float_of_decimal.
  set (num := m * 10 ^ Z.max e 0) in *. set (den := 10 ^ Z.max (- e) 0) in *.
  assert (Hden : 0 < den) by (apply Z.pow_pos_nonneg; lia).
  assert (Hpow : 0 < 10 ^ Z.max e 0) by (apply Z.pow_pos_nonneg; lia).
  destruct (Z.leb_spec m 0) as [Hzero|Hpos].
  - assert (m = 0) by lia. subst m. assert (n = 0) by nia. subst n.
    cbn [neg_if quarters]. apply Prim2SF_zero.
  - assert (Hnum : 0 < num) by (unfold num; nia).
    assert (Hn0 : 0 < n) by nia.
    assert (Hden20 : den <= 10 ^ 20) by (apply Z.pow_le_mono_r; lia).
    assert (He15 : e <= 15).
    { destruct (Z.le_gt_cases e 15) as [|Hbig]; [assumption|exfalso].
      assert (10 ^ 16 <= 10 ^ Z.max e 0) by (apply Z.pow_le_mono_r; lia).
      assert (den = 1) by (unfold den; replace (Z.max (- e) 0) with 0 by lia; reflexivity).
      assert (10 ^ 16 <= num) by (unfold num; nia).
      assert (2 ^ 53 < 10 ^ 16) by reflexivity. nia. }
    assert (Hmnum : m <= num) by (unfold num; nia).
    assert (Hm120 : m < 2 ^ 120).
    { assert (2 ^ 53 * 10 ^ 20 < 2 ^ 120) by reflexivity. nia. }
    assert (Hlog : Z.log2 m < 120) by (apply Z.log2_lt_pow2; lia).
    pose proof (Z.log2_nonneg m) as Hlog0.
    assert (Hmag : 0 <= Z.log2 m * 30103 / 100000 <= 36).
    { split; [apply Z.div_pos; lia|]. apply Z.div_le_upper_bound; lia. }
    replace (310 <? Z.log2 m * 30103 / 100000 + e) with false by (symmetry; apply Z.ltb_ge; lia).
    replace (Z.log2 m * 30103 / 100000 + e <? -330) with false by (symmetry; apply Z.ltb_ge; lia).
    set (k := Z.max 0 (66 + Z.log2 den - Z.log2 num)).
    assert (Hk : 2 <= k).
    { assert (Z.log2 num <= Z.log2 (n * den)) by (apply Z.log2_le_mono; lia).
      assert (Z.log2 (n * den) <= Z.log2 n + Z.log2 den + 1) by (apply Z.log2_mul_above; lia).
      assert (Z.log2 n < 53) by (apply Z.log2_lt_pow2; lia).
      unfold k. lia. }
    rewrite Z.shiftl_mul_pow2 by lia.
    assert (Hpow2 : 2 ^ k = 4 * 2 ^ (k - 2)).
    { replace k with (2 + (k - 2)) at 1 by lia. rewrite Z.pow_add_r by lia. reflexivity. }
    rewrite (div_eucl_exact _ (n * 2 ^ (k - 2)) den) by (try lia; rewrite Hpow2; nia).
    change (0 =? 0) with true. cbv iota.
    destruct n as [|p|p]; try lia.
    replace (2 * (Z.pos p * 2 ^ (k - 2)) + 0) with (Zpos (scaled p (Z.to_nat (k - 1)))).
    2:{ rewrite scaled_Z, Z2Nat.id by lia.
        replace (k - 1) with (1 + (k - 2)) by lia. rewrite Z.pow_add_r by lia. lia. }
    cbn [binary_normalize neg_if quarters].
    replace (- k - 1) with (-2 - Z.of_nat (Z.to_nat (k - 1))) by lia.
    pose proof (digits2_bound p Hn) as Hd. pose proof (Pos2Z.is_pos (digits2_pos p)) as Hd0.
    rewrite binary_round_scaled by lia.
    apply Prim2SF_SF2Prim, canon_valid; lia.
Qed.

Lemma digit_of_nonneg c d : digit_of c = Some d -> 0 <= d.
Proof.
  unfold digit_of. destruct (_ && _) eqn:H; [|discriminate].
  intros [= <-]. apply andb_prop in H as [H _]. apply Z.leb_le in H. lia.
Qed.

Lemma read_digits_nonneg s : forall acc cnt,
  0 <= acc -> 0 <= (read_digits s acc cnt).1.1.
Proof.
  induction s as [|c s IH]; intros acc cnt Hacc; cbn; [exact Hacc|].
  destruct (digit_of c) as [d|] eqn:Hd; [|exact Hacc].
  apply IH. apply digit_of_nonneg in Hd. lia.
Qed.

Lemma read_fraction_nonneg s ip :
  0 <= ip ->
  0 <= (match s with
        | String "." s' => read_digits s' ip 0
        | _ => (ip, 0, s)
        end).1.1.
Proof.
  intros Hip. destruct s as [|c s]; [exact Hip|].
  destruct c as [[] [] [] [] [] [] [] []]; try exact Hip.
  apply read_digits_nonneg. exact Hip.
Qed.

Lemma read_literal_nonneg s neg m e : read_literal s = Decimal neg m e -> 0 <= m.
Proof.
  unfold read_literal. destruct (read_sign (trimStart s)) as [sg s1].
  destruct (String.prefix "Infinity" s1); [discriminate|].
  pose proof (read_digits_nonneg s1 0 0 (Z.le_refl 0)) as Hip.
  destruct (read_digits s1 0 0) as [[ip ni] s2]. cbn in Hip.
  pose proof (read_fraction_nonneg s2 ip Hip) as Hm.
  destruct (match s2 with
            | String "." s2' => read_digits s2' ip 0
            | _ => (ip, 0, s2)
            end) as [[m' nf] s3].
  cbn in Hm. destruct (ni + nf =? 0); [discriminate|].
  intros [= _ <- _]. exact Hm.
Qed.

Lemma quarter_hours_spec s n :
  quarter_hours s = Some n ->
  0 <= n /\ (n < 2 ^ 53 -> Prim2SF (parseFloat_string s) = quarters n).
Proof.
  unfold quarter_hours, parseFloat_string.
  destruct (read_literal s) as [|neg|neg m e] eqn:Hread; try discriminate.
  destruct neg; [discriminate|].
  apply read_literal_nonneg in Hread.
  cbv zeta.
  destruct (-20 <=? e) eqn:He; [|discriminate]. apply Z.leb_le in He.
  destruct (_ =? 0) eqn:Hmod; [|discriminate]. apply Z.eqb_eq in Hmod.
  cbn [andb]. intros [= <-].
  assert (Hden : 0 < 10 ^ Z.max (- e) 0) by (apply Z.pow_pos_nonneg; lia).
  assert (Hpow : 0 < 10 ^ Z.max e 0) by (apply Z.pow_pos_nonneg; lia).
  split.
  - apply Z.div_pos; [nia | lia].
  - intros Hn. apply float_of_decimal_quarters; try assumption.
    apply Z.div_exact in Hmod; [|lia]. rewrite Hmod at 1. lia.
Qed.

Lemma total_quarters_nonneg hs s : total_quarters hs = Some s -> 0 <= s.
Proof.
  revert s. induction hs as [|h hs IH]; cbn; intros s.
  - intros [= <-]. lia.
  - destruct (quarter_hours h) as [n|] eqn:Hn; [|discriminate]. cbn.
    destruct (total_quarters hs) as [s'|]; [|discriminate]. cbn.
    intros [= <-]. apply quarter_hours_spec in Hn as [Hn _].
    specialize (IH _ eq_refl). lia.
Qed.

(** Texts that are whole numbers of quarters add up without rounding. *)
Lemma sum_quarters hs : forall acc a s,
  Prim2SF acc = quarters a -> 0 <= a ->
  total_quarters hs = Some s -> a + s < 2 ^ 53 ->
  Prim2SF (fold_left (fun sum h => (sum + parseFloat_string h)%float) hs acc)
  = quarters (a + s).
Proof.
  induction hs as [|h hs IH]; cbn [fold_left total_quarters]; intros acc a s Hacc Ha.
  - intros [= <-] _. rewrite Z.add_0_r. exact Hacc.
  - destruct (quarter_hours h) as [n|] eqn:Hn; [|discriminate]. cbn.
    destruct (total_quarters hs) as [s'|] eqn:Hs; [|discriminate]. cbn.
    intros [= <-] Hsum.
    pose proof (total_quarters_nonneg _ _ Hs) as Hs0.
    apply quarter_hours_spec in Hn as [Hn0 Hparse].
    rewrite Z.add_assoc. apply IH; [|lia|reflexivity|lia].
    rewrite add_spec, Hacc, Hparse by lia.
    apply SFadd_quarters; lia.
Qed.

Lemma total_quarters_Permutation hs hs' :
  hs ≡ₚ hs' -> total_quarters hs = total_quarters hs'.
Proof.
  induction 1 as [|x xs ys _ IH|x y xs|xs ys zs _ IH1 _ IH2]; cbn.
  - reflexivity.
  - rewrite IH. reflexivity.
  - destruct (quarter_hours x), (quarter_hours y), (total_quarters xs); cbn; try reflexivity.
    f_equal. lia.
  - congruence.
Qed.

Lemma units_quarters f n :
  Prim2SF f = quarters n -> 0 <= n < 2 ^ 53 -> units f = Some (n * 2 ^ 1072).
Proof.
  intros Hf Hn. unfold units. rewrite Hf.
  destruct n as [|p|p]; try lia; [reflexivity|].
  cbn [quarters canon cond_Zopp]. f_equal.
  pose proof (digits2_bound p (proj2 Hn)) as Hd.
  pose proof (Pos2Z.is_pos (digits2_pos p)) as Hd0.
  rewrite scaled_Z, Z2Nat.id by lia.
  rewrite <- Z.mul_assoc, <- Z.pow_add_r by lia. f_equal. f_equal. lia.
Qed.

Lemma is_nan_Prim2SF f x : Prim2SF f = x -> x <> S754_nan -> is_nan f = false.
Proof.
  unfold Prim2SF. destruct (is_nan f); [|reflexivity].
  intros <- Hx. destruct Hx. reflexivity.
Qed.

(** The display of a whole number of quarters is its nearest tenth. *)
Lemma toFixed1_quarters f n :
  Prim2SF f = quarters n -> 0 <= n < 2 ^ 53 -> toFixed1 f = tenth_of_quarters n.
Proof.
  intros Hf Hn. unfold toFixed1.
  rewrite (is_nan_Prim2SF f _ Hf) by (destruct n; discriminate).
  rewrite Hf. destruct n as [|p|p]; try lia; [reflexivity|].
  cbn [quarters canon]. unfold float_ratio.
  pose proof (digits2_bound p (proj2 Hn)) as Hd.
  pose proof (Pos2Z.is_pos (digits2_pos p)) as Hd0.
  set (d := Zpos (digits2_pos p)) in *.
  replace (Z.max (-2 + d - 53) 0) with 0 by lia.
  replace (Z.max (- (-2 + d - 53)) 0) with (55 - d) by lia.
  rewrite scaled_Z, Z2Nat.id by lia.
  set (b := 2 ^ (55 - d)).
  assert (Hb : 0 < b) by (apply Z.pow_pos_nonneg; lia).
  assert (Ha : 4 * (Z.pos p * 2 ^ (53 - d) * 2 ^ 0) = Z.pos p * b).
  { unfold b. replace (55 - d) with (2 + (53 - d)) by lia.
    rewrite Z.pow_add_r by lia. change (2 ^ 0) with 1. change (2 ^ 2) with 4. lia. }
  set (a := Z.pos p * 2 ^ (53 - d) * 2 ^ 0) in *.
  replace (10 ^ 21 * b <=? a) with false.
  2:{ symmetry. apply Z.leb_gt. assert (2 ^ 53 < 10 ^ 21) by reflexivity. nia. }
  unfold tenth_of_quarters. cbv zeta.
  replace ((20 * a + b) / (2 * b)) with ((5 * Z.pos p + 1) / 2).
  2:{ replace (20 * a + b) with ((5 * Z.pos p + 1) * b) by lia.
      rewrite Z.div_mul_cancel_r by lia. reflexivity. }
  reflexivity.
Qed.

Lemma fold_left_fmap {A B C} (f : A -> C -> A) (g : B -> C) (l : list B) (x : A) :
  fold_left (fun a b => f a (g b)) l x = fold_left f (g <$> l) x.
Proof. revert x. induction l as [|b l IH]; intros x; cbn; [reflexivity|apply IH]. Qed.

Lemma totalExpectedHours_quarters tasks n :
  total_quarters (expectedHours <$> tasks) = Some n -> n < 2 ^ 53 ->
  0 <= n /\ Prim2SF (totalExpectedHours tasks) = quarters n.
Proof.
  intros Hsum Hn. split; [by eapply total_quarters_nonneg|].
  unfold totalExpectedHours.
  rewrite (fold_left_fmap (fun sum h => (sum + parseFloat_string h)%float) expectedHours).
  apply (sum_quarters _ _ 0 n Prim2SF_zero); [lia | exact Hsum | lia].
Qed.

Lemma totalActualHours_quarters tasks n :
  total_quarters (actualHours <$> tasks) = Some n -> n < 2 ^ 53 ->
  0 <= n /\ Prim2SF (totalActualHours tasks) = quarters n.
Proof.
  intros Hsum Hn. split; [by eapply total_quarters_nonneg|].
  unfold totalActualHours.
  rewrite (fold_left_fmap (fun sum h => (sum + parseFloat_string h)%float) actualHours).
  apply (sum_quarters _ _ 0 n Prim2SF_zero); [lia | exact Hsum | lia].
Qed.

(** C10, as the code has it.  When the hours of every task are written as
    decimals without a minus sign, with at most 20 digits after the point,
    that are whole numbers of quarters of an hour, and they add up to
    [expected] and [actual] quarters, both below [2^53], then each total is
    that sum exactly (a double is a whole number of units of [2^-1074], and
    a quarter is [2^1072] of them), the header shows the sum rounded to the
    nearest tenth, and every reordering of the list gives the same two
    doubles. *)
Theorem totals_exact_for_quarter_hours (tasks : list Task) (expected actual : Z) :
  total_quarters (expectedHours <$> tasks) = Some expected -> expected < 2 ^ 53 ->
  total_quarters (actualHours <$> tasks) = Some actual -> actual < 2 ^ 53 ->
  units (totalExpectedHours tasks) = Some (expected * 2 ^ 1072)
  /\ units (totalActualHours tasks) = Some (actual * 2 ^ 1072)
  /\ shownExpected tasks = tenth_of_quarters expected
  /\ shownActual tasks = tenth_of_quarters actual
  /\ forall tasks', tasks ≡ₚ tasks' ->
       totalExpectedHours tasks' = totalExpectedHours tasks
       /\ totalActualHours tasks' = totalActualHours tasks.
Proof.
  intros Hexp Hexp53 Hact Hact53.
  destruct (totalExpectedHours_quarters _ _ Hexp Hexp53) as [Hexp0 Hexpected].
  destruct (totalActualHours_quarters _ _ Hact Hact53) as [Hact0 Hactual].
  split; [apply units_quarters; [exact Hexpected | lia]|].
  split; [apply units_quarters; [exact Hactual | lia]|].
  split; [apply toFixed1_quarters; [exact Hexpected | lia]|].
  split; [apply toFixed1_quarters; [exact Hactual | lia]|].
  intros tasks' Hperm. split; apply Prim2SF_inj.
  - rewrite Hexpected. apply totalExpectedHours_quarters; [|exact Hexp53].
    rewrite <- Hexp. apply total_quarters_Permutation. by rewrite Hperm.
  - rewrite Hactual. apply totalActualHours_quarters; [|exact Hact53].
    rewrite <- Hact. apply total_quarters_Permutation. by rewrite Hperm.
Qed.

End Totals.

Section TotalsExamples.

Import ProjectDetailTable Sample.

(** C10 as stated fails: the tasks with 0.10, 0.20 and 0.05 hours total
    0.35000000000000003 in this order and 0.35 in the reverse order, and the
    header shows 0.4 for the one and 0.3 for the other. *)
Lemma totals_depend_on_the_order :
  [ha; hb; hc] ≡ₚ [hc; hb; ha]
  /\ totalExpectedHours [ha; hb; hc] <> totalExpectedHours [hc; hb; ha]
  /\ totalActualHours [ha; hb; hc] <> totalActualHours [hc; hb; ha]
  /\ number_toString (totalExpectedHours [ha; hb; hc]) = "0.35000000000000003"
  /\ number_toString (totalExpectedHours [hc; hb; ha]) = "0.35"
  /\ shownExpected [ha; hb; hc] = "0.4"
  /\ shownExpected [hc; hb; ha] = "0.3"
  /\ shownActual [ha; hb; hc] = "0.4"
  /\ shownActual [hc; hb; ha] = "0.3".
Proof.
  split.
  { change [hc; hb; ha] with (reverse [ha; hb; hc]). by rewrite reverse_Permutation. }
  split.
  { intros Heq. apply (f_equal number_toString) in Heq.
    vm_compute in Heq. discriminate. }
  split.
  { intros Heq. apply (f_equal number_toString) in Heq.
    vm_compute in Heq. discriminate. }
  vm_compute. repeat split; reflexivity.
Qed.

(** The scenario of the specification, and quarter hours: 10 + 5 and
    12 + 3 are 15 and 15; 1.25 + 0.5 and 0.75 + 2.25 are 1.75 and 3, shown
    as 1.8 and 3.0; in either order. *)
Lemma totals_exact_for_quarter_hours_witness :
  shownExpected redesign = "15.0"
  /\ shownActual redesign = "15.0"
  /\ totalExpectedHours (reverse redesign) = totalExpectedHours redesign
  /\ shownExpected [logged_hours "q1" "1.25" "0.75"; logged_hours "q2" "0.5" "2.25"] = "1.8"
  /\ shownActual [logged_hours "q1" "1.25" "0.75"; logged_hours "q2" "0.5" "2.25"] = "3.0".
Proof.
  destruct (totals_exact_for_quarter_hours redesign 60 60)
    as (_ & _ & Hexpected & Hactual & Hperm); try (vm_compute; reflexivity).
  destruct (totals_exact_for_quarter_hours
              [logged_hours "q1" "1.25" "0.75"; logged_hours "q2" "0.5" "2.25"] 7 12)
    as (_ & _ & Hexpected' & Hactual' & _); try (vm_compute; reflexivity).
  split; [rewrite Hexpected; vm_compute; reflexivity|].
  split; [rewrite Hactual; vm_compute; reflexivity|].
  split; [apply Hperm; by rewrite reverse_Permutation|].
  split; [rewrite Hexpected'; vm_compute; reflexivity|].
  rewrite Hactual'. vm_compute. reflexivity.
Defined.

End TotalsExamples.

(** * Further properties *)

(** ** The outcomes of each route *)

Section Outcomes.

Variable row_ok : Tasks.row -> bool.
Variable pg_other : jsval -> option string.

Lemma GET_one_unauthenticated id w :
  api_tasks_id.GET None id w = (api_tasks_id.TaskError (error "Unauthorized" 401), w).
Proof. reflexivity. Qed.

Lemma GET_one_eq user id w :
  api_tasks_id.GET (Some user) id w =
  (match tasks (db w) !! id with
   | Some t => api_tasks_id.TaskFound (Db.joined (db w) t) 200
   | None => api_tasks_id.TaskError (error "Task not found" 404)
   end, logged w [SelectTask id]).
Proof.
  unfold api_tasks_id.GET, Db.select_task_view. run_handler.
  destruct (tasks (db w) !! id); reflexivity.
Qed.

(** POST either answers 201 and has inserted the row it returns, or leaves
    the database as it was. *)
Lemma POST_cases session req new_id now w :
  (exists user body v,
     session = Some user /\ req = Normal body
     /\ POST_values pg_other user body = Some v
     /\ is_Some (projects (db w) !! Db.val_projectId v)
     /\ tasks (db w) !! new_id = None
     /\ (api_tasks.POST row_ok pg_other session req new_id now w).1
        = NextResponse_json (TaskBody (Some (Db.new_row new_id now v))) 201
     /\ db (api_tasks.POST row_ok pg_other session req new_id now w).2
        = Db.set_tasks (db w) (<[new_id := Db.new_row new_id now v]> (tasks (db w))))
  \/ (db (api_tasks.POST row_ok pg_other session req new_id now w).2 = db w
      /\ (session = None /\ status (api_tasks.POST row_ok pg_other session req new_id now w).1 = 401
          \/ session <> None
             /\ (status (api_tasks.POST row_ok pg_other session req new_id now w).1 = 400
                 \/ status (api_tasks.POST row_ok pg_other session req new_id now w).1 = 404
                 \/ status (api_tasks.POST row_ok pg_other session req new_id now w).1 = 500))).
Proof.
  destruct session as [user|]; [|right; rewrite POST_unauthenticated; cbn; auto].
  destruct req as [body|];
    [|right; rewrite POST_no_body; cbn; split; [reflexivity|right; split; [discriminate|auto]]].
  rewrite POST_eq.
  destruct (nullish body); [right; cbn; split; [reflexivity|right; split; [discriminate|auto]]|].
  destruct (POST_incomplete body); [right; cbn; split; [reflexivity|right; split; [discriminate|auto]]|].
  destruct (text_of pg_other (field body "projectId")) as [pid|] eqn:Hpid;
    [|right; cbn; split; [reflexivity|right; split; [discriminate|auto]]].
  destruct (projects (db w) !! pid) as [p|] eqn:Hp;
    [|right; cbn; split; [reflexivity|right; split; [discriminate|auto]]].
  destruct (POST_values pg_other user body) as [v|] eqn:Hv;
    [|right; cbn; split; [reflexivity|right; split; [discriminate|auto]]].
  destruct (bool_decide _ && row_ok _) eqn:Hok;
    [|right; cbn; split; [reflexivity|right; split; [discriminate|auto]]].
  left. apply andb_prop in Hok as [Hfresh _]. apply bool_decide_eq_true in Hfresh.
  exists user, body, v. repeat split; try reflexivity; try assumption.
  destruct (POST_values_fields pg_other _ _ _ Hv) as (Hpid' & _).
  rewrite Hpid in Hpid'. injection Hpid' as <-. eauto.
Qed.

(** PUT either answers 200 and has replaced the row, for a caller who is
    an administrator or owns the pending task, or leaves the database as it
    was. *)
Lemma PUT_cases session id req now w :
  (exists user body t s,
     session = Some user /\ req = Normal body
     /\ PUT_validation body = Value tt
     /\ tasks (db w) !! id = Some t
     /\ api_tasks_id.not_owner_nor_admin t user = false
     /\ api_tasks_id.decided_and_not_admin t user = false
     /\ PUT_set body now = Normal s
     /\ row_ok (Db.apply_set s t) = true
     /\ (api_tasks_id.PUT row_ok session id req now w).1
        = NextResponse_json (TaskBody (Some (Db.apply_set s t))) 200
     /\ db (api_tasks_id.PUT row_ok session id req now w).2
        = Db.set_tasks (db w) (<[id := Db.apply_set s t]> (tasks (db w))))
  \/ (db (api_tasks_id.PUT row_ok session id req now w).2 = db w
      /\ (session = None /\ status (api_tasks_id.PUT row_ok session id req now w).1 = 401
          \/ session <> None
             /\ (status (api_tasks_id.PUT row_ok session id req now w).1 = 400
                 \/ status (api_tasks_id.PUT row_ok session id req now w).1 = 403
                 \/ status (api_tasks_id.PUT row_ok session id req now w).1 = 404
                 \/ status (api_tasks_id.PUT row_ok session id req now w).1 = 500))).
Proof.
  destruct session as [user|]; [|right; rewrite PUT_unauthenticated; cbn; auto].
  destruct req as [body|];
    [|right; rewrite PUT_no_body; cbn; split; [reflexivity|right; split; [discriminate|auto]]].
  rewrite PUT_eq.
  destruct (nullish body);
    [right; cbn; split; [reflexivity|right; split; [discriminate|auto 6]]|].
  destruct (PUT_validation body) as [[]|r|] eqn:Hvalid.
  - destruct (tasks (db w) !! id) as [t|] eqn:Hfound;
      [|right; cbn; split; [reflexivity|right; split; [discriminate|auto 6]]].
    destruct (api_tasks_id.not_owner_nor_admin t user) eqn:Hgate1;
      [right; cbn; split; [reflexivity|right; split; [discriminate|auto 6]]|].
    destruct (api_tasks_id.decided_and_not_admin t user) eqn:Hgate2;
      [right; cbn; split; [reflexivity|right; split; [discriminate|auto 6]]|].
    destruct (PUT_set body now) as [s|] eqn:Hset;
      [|right; cbn; split; [reflexivity|right; split; [discriminate|auto 6]]].
    destruct (row_ok _) eqn:Hrow;
      [|right; cbn; split; [reflexivity|right; split; [discriminate|auto 6]]].
    left. exists user, body, t, s. repeat split; try reflexivity; assumption.
  - right. split; [reflexivity|]. right. split; [discriminate|].
    unfold PUT_validation in Hvalid.
    destruct (opt_trim _); [|discriminate].
    destruct (negb _); [injection Hvalid as <-; cbn; auto|].
    destruct (api_tasks_id.actualHours_invalid _) as [[|]|];
      [injection Hvalid as <-; cbn; auto|discriminate|discriminate].
  - right; cbn; split; [reflexivity|right; split; [discriminate|auto 6]].
Qed.

(** DELETE either answers 200 and has removed the row, for its owner or an
    administrator, or leaves the database as it was. *)
Lemma DELETE_cases session id w :
  (exists user t,
     session = Some user
     /\ tasks (db w) !! id = Some t
     /\ api_tasks_id.not_owner_nor_admin t user = false
     /\ status (api_tasks_id.DELETE session id w).1 = 200
     /\ db (api_tasks_id.DELETE session id w).2
        = Db.set_tasks (db w) (delete id (tasks (db w))))
  \/ (db (api_tasks_id.DELETE session id w).2 = db w
      /\ (session = None /\ status (api_tasks_id.DELETE session id w).1 = 401
          \/ session <> None
             /\ (status (api_tasks_id.DELETE session id w).1 = 403
                 \/ status (api_tasks_id.DELETE session id w).1 = 404))).
Proof.
  destruct session as [user|]; [|right; rewrite DELETE_unauthenticated; cbn; auto].
  rewrite DELETE_eq.
  destruct (tasks (db w) !! id) as [t|] eqn:Hfound;
    [|right; cbn; split; [reflexivity|right; split; [discriminate|auto]]].
  destruct (api_tasks_id.not_owner_nor_admin t user) eqn:Hgate;
    [right; cbn; split; [reflexivity|right; split; [discriminate|auto]]|].
  left. exists user, t. repeat split; try reflexivity; assumption.
Qed.

End Outcomes.

(** ** The routes together *)

Section Routes.

Variable row_ok : Tasks.row -> bool.
Variable pg_other : jsval -> option string.

#[local] Abbreviation POST := (api_tasks.POST row_ok pg_other).
#[local] Abbreviation PUT := (api_tasks_id.PUT row_ok).
#[local] Abbreviation DELETE := api_tasks_id.DELETE.
#[local] Abbreviation GET_one := api_tasks_id.GET.
#[local] Abbreviation GET_list := api_tasks.GET.

Lemma gate_owner_or_admin t user :
  api_tasks_id.not_owner_nor_admin t user = false <->
  Tasks.employeeId t = user_id user \/ is_admin user = true.
Proof.
  unfold api_tasks_id.not_owner_nor_admin.
  destruct (String.eqb_spec (Tasks.employeeId t) (user_id user)), (is_admin user);
    cbn; split; auto; intros [|]; congruence.
Qed.

Lemma gate_pending_or_admin t user :
  api_tasks_id.decided_and_not_admin t user = false <->
  Tasks.status t = Tasks.pending \/ is_admin user = true.
Proof.
  unfold api_tasks_id.decided_and_not_admin.
  destruct (Tasks.status t), (is_admin user); cbn; split; auto; intros [|]; congruence.
Qed.

Lemma listed_when_matching reader p s e w t id :
  tasks (db w) !! id = Some t ->
  matches_filters p s e t = true ->
  exists views,
    (GET_list (Some reader) p s e w).1 = NextResponse_json (TasksBody views) 200
    /\ Db.joined (db w) t ∈ views.
Proof.
  intros Hfound Hmatch. rewrite GET_eq. eexists. split; [reflexivity|].
  rewrite merge_sort_Permutation. apply list_elem_of_fmap. exists t. split; [reflexivity|].
  apply list_elem_of_In, List.filter_In. split; [|exact Hmatch].
  apply list_elem_of_In, list_elem_of_fmap. exists (id, t). split; [reflexivity|].
  by apply elem_of_map_to_list.
Qed.

(** X1. What POST has created with 201 is read back by any signed-in
    caller: GET on the new key answers 200 with the returned row joined, and
    the list shows it under every filter the row satisfies. *)
Theorem created_task_can_be_read_back (session : option SessionUser)
  (req : completion jsval) (new_id : string) (now : Z) (w : world) (reader : SessionUser) :
  status (POST session req new_id now w).1 = 201 ->
  exists t,
    body (POST session req new_id now w).1 = TaskBody (Some t)
    /\ Tasks.id t = new_id
    /\ (GET_one (Some reader) new_id (POST session req new_id now w).2).1
       = api_tasks_id.TaskFound (Db.joined (db (POST session req new_id now w).2) t) 200
    /\ forall p s e,
         matches_filters p s e t = true ->
         exists views,
           (GET_list (Some reader) p s e (POST session req new_id now w).2).1
             = NextResponse_json (TasksBody views) 200
           /\ Db.joined (db (POST session req new_id now w).2) t ∈ views.
Proof.
  intros H201.
  destruct (POST_cases row_ok pg_other session req new_id now w)
    as [(user & body & v & _ & _ & _ & _ & _ & Hresp & Hdb) | [_ Hst]].
  - exists (Db.new_row new_id now v). rewrite Hresp.
    assert (Hnew : tasks (db (POST session req new_id now w).2) !! new_id
                   = Some (Db.new_row new_id now v)).
    { rewrite Hdb. cbn. apply lookup_insert_eq. }
    split; [reflexivity|]. split; [reflexivity|]. split.
    + rewrite GET_one_eq, Hnew. reflexivity.
    + intros p s e Hmatch. by eapply listed_when_matching.
  - destruct Hst as [[_ Hst] | [_ [Hst | [Hst | Hst]]]]; rewrite Hst in H201; discriminate.
Qed.

(** X2. After a DELETE answered 200 the task is gone: GET on its key and a
    second DELETE answer 404, every other row is as before, and in a
    database that stores each row under its own id no list shows the task. *)
Theorem deleted_task_is_gone (session : option SessionUser) (id : string) (w : world)
  (reader : SessionUser) :
  status (DELETE session id w).1 = 200 ->
  (GET_one (Some reader) id (DELETE session id w).2).1
    = api_tasks_id.TaskError (error "Task not found" 404)
  /\ (DELETE (Some reader) id (DELETE session id w).2).1 = error "Task not found" 404
  /\ (forall id', id' <> id ->
        tasks (db (DELETE session id w).2) !! id' = tasks (db w) !! id')
  /\ (consistent (db w) ->
      forall p s e views,
        (GET_list (Some reader) p s e (DELETE session id w).2).1
          = NextResponse_json (TasksBody views) 200 ->
        forall v, v ∈ views -> v_taskId v <> id).
Proof.
  intros H200.
  destruct (DELETE_cases session id w) as [(user & t & _ & _ & _ & _ & Hdb) | [_ Hst]].
  - assert (Hgone : tasks (db (DELETE session id w).2) !! id = None).
    { rewrite Hdb. cbn. apply lookup_delete_eq. }
    split; [rewrite GET_one_eq, Hgone; reflexivity|].
    split; [rewrite DELETE_eq, Hgone; reflexivity|].
    split; [intros id' Hne; rewrite Hdb; cbn; by apply lookup_delete_ne|].
    intros Hcons p s e views Hviews v Hv.
    apply (GET_lists_a_task_iff reader p s e _ views Hviews) in Hv
      as (id' & t' & Hlook & _ & ->).
    cbn. intros Heq. rewrite Hdb in Hlook. cbn in Hlook.
    destruct (decide (id' = id)) as [->|Hne].
    + rewrite lookup_delete_eq in Hlook. discriminate.
    + rewrite lookup_delete_ne in Hlook by done.
      apply Hcons in Hlook as [Hid _]. congruence.
  - destruct Hst as [[_ Hst] | [_ [Hst | Hst]]]; rewrite Hst in H200; discriminate.
Qed.

Lemma PUT_set_name body now s :
  PUT_validation body = Value tt ->
  PUT_set body now = Normal s ->
  exists name, field body "taskName" = JStr name
               /\ Db.set_taskName s = trim name /\ trim name <> "".
Proof.
  intros Hvalid Hset. apply PUT_validation_passes in Hvalid as [(name & Hname & Hne) _].
  exists name. split; [exact Hname|]. split; [|exact Hne].
  unfold PUT_set in Hset. rewrite Hname in Hset. cbn in Hset.
  destruct (api_tasks_id.trimmed_or_null _); [|discriminate].
  destruct (opt_toString (field body "expectedHours")); [|discriminate].
  destruct (opt_toString (field body "actualHours")); [|discriminate].
  injection Hset as <-. reflexivity.
Qed.

(** X3. After a PUT answered 200, GET on the key answers 200 with the
    returned row joined; the name stored is the name sent with its outer
    white space removed, it is not empty, and [updatedAt] is the time of the
    request. *)
Theorem updated_task_can_be_read_back (session : option SessionUser) (id : string)
  (req : completion jsval) (now : Z) (w : world) (reader : SessionUser) :
  status (PUT session id req now w).1 = 200 ->
  exists t' body name,
    req = Normal body
    /\ field body "taskName" = JStr name
    /\ (PUT session id req now w).1 = NextResponse_json (TaskBody (Some t')) 200
    /\ (GET_one (Some reader) id (PUT session id req now w).2).1
       = api_tasks_id.TaskFound (Db.joined (db (PUT session id req now w).2) t') 200
    /\ Tasks.taskName t' = trim name
    /\ Tasks.taskName t' <> ""
    /\ Tasks.updatedAt t' = now.
Proof.
  intros H200.
  destruct (PUT_cases row_ok session id req now w)
    as [(user & body & t & s & _ & Hreq & Hvalid & _ & _ & _ & Hset & _ & Hresp & Hdb)
       | [_ Hst]].
  - destruct (PUT_set_name _ _ _ Hvalid Hset) as (name & Hname & Htrim & Hne).
    exists (Db.apply_set s t), body, name.
    split; [exact Hreq|]. split; [exact Hname|]. split; [exact Hresp|]. split.
    + rewrite GET_one_eq, Hdb. cbn. rewrite lookup_insert_eq. reflexivity.
    + cbn. rewrite Htrim. repeat split; [exact Hne|].
      unfold PUT_set in Hset.
      destruct (api_tasks_id.call_trim _); [|discriminate].
      destruct (api_tasks_id.trimmed_or_null _); [|discriminate].
      destruct (opt_toString (field body "expectedHours")); [|discriminate].
      destruct (opt_toString (field body "actualHours")); [|discriminate].
      injection Hset as <-. reflexivity.
  - destruct Hst as [[_ Hst] | [_ [Hst | [Hst | [Hst | Hst]]]]];
      rewrite Hst in H200; discriminate.
Qed.

(** The object given to [.set(...)] by the same body at another time. *)
Lemma PUT_set_at body now now' s :
  PUT_set body now = Normal s ->
  exists s', PUT_set body now' = Normal s'
             /\ Db.set_updatedAt s' = now'
             /\ forall t, Db.apply_set s' (Db.apply_set s t) = Db.apply_set s' t.
Proof.
  unfold PUT_set.
  destruct (api_tasks_id.call_trim _) as [name|]; [|discriminate].
  destruct (api_tasks_id.trimmed_or_null _) as [desc|]; [|discriminate].
  destruct (opt_toString (field body "expectedHours")) as [expected|]; [|discriminate].
  destruct (opt_toString (field body "actualHours")) as [actual|]; [|discriminate].
  intros [= <-]. eexists. split; [reflexivity|]. split; [reflexivity|].
  intros t. unfold Db.apply_set. cbn. destruct expected, actual; reflexivity.
Qed.

Lemma PUT_depends_on_db session id req now w1 w2 :
  db w1 = db w2 ->
  (PUT session id req now w1).1 = (PUT session id req now w2).1
  /\ db (PUT session id req now w1).2 = db (PUT session id req now w2).2.
Proof.
  intros Hdb. destruct session as [user|]; [|rewrite !PUT_unauthenticated; auto].
  destruct req as [body|]; [|rewrite !PUT_no_body; auto].
  rewrite !PUT_eq, Hdb.
  destruct (nullish body); [auto|].
  destruct (PUT_validation body); auto.
  destruct (tasks (db w2) !! id) as [t|]; [|auto].
  destruct (api_tasks_id.not_owner_nor_admin t user); [auto|].
  destruct (api_tasks_id.decided_and_not_admin t user); [auto|].
  destruct (PUT_set body now); [|auto].
  destruct (row_ok _); cbn; rewrite ?Hdb; auto.
Qed.

(** X4. A PUT made again.  The same request repeated at a later time is
    answered as it would be answered alone at that time; when that answer is
    200 the database is the one the request alone would leave, so that the
    repetition moves [updatedAt] and nothing else, and otherwise the
    database stays as the first PUT left it.  With the clock stopped the
    second PUT changes nothing. *)
Theorem PUT_again_is_PUT_at_the_later_time (session : option SessionUser) (id : string)
  (req : completion jsval) (now now' : Z) (w : world) :
  (PUT session id req now' (PUT session id req now w).2).1 = (PUT session id req now' w).1
  /\ (status (PUT session id req now' w).1 = 200 ->
      db (PUT session id req now' (PUT session id req now w).2).2
      = db (PUT session id req now' w).2)
  /\ (status (PUT session id req now' w).1 <> 200 ->
      db (PUT session id req now' (PUT session id req now w).2).2
      = db (PUT session id req now w).2)
  /\ db (PUT session id req now (PUT session id req now w).2).2
     = db (PUT session id req now w).2.
Proof.
  assert (Hagain : forall now',
    (PUT session id req now' (PUT session id req now w).2).1 = (PUT session id req now' w).1
    /\ (status (PUT session id req now' w).1 = 200 ->
        db (PUT session id req now' (PUT session id req now w).2).2
        = db (PUT session id req now' w).2)
    /\ (status (PUT session id req now' w).1 <> 200 ->
        db (PUT session id req now' (PUT session id req now w).2).2
        = db (PUT session id req now w).2)).
  { clear now'. intros now'.
    destruct (PUT_cases row_ok session id req now w)
      as [(user & body & t & s & -> & -> & Hvalid & Hfound & Hg1 & Hg2 & Hset & Hrow & Hresp & Hdb)
         | [Hsame _]].
    - destruct (PUT_set_at _ _ now' _ Hset) as (s' & Hset' & _ & Happly).
      rewrite (PUT_eq row_ok user id body now' (PUT _ _ _ _ w).2).
      rewrite (PUT_eq row_ok user id body now' w).
      rewrite (PUT_validation_not_nullish _ Hvalid), Hvalid, Hdb, Hfound.
      cbn [tasks Db.set_tasks]. rewrite lookup_insert_eq.
      assert (api_tasks_id.not_owner_nor_admin (Db.apply_set s t) user = false) as -> by exact Hg1.
      assert (api_tasks_id.decided_and_not_admin (Db.apply_set s t) user = false) as -> by exact Hg2.
      rewrite Hg1, Hg2, Hset', Happly.
      destruct (row_ok (Db.apply_set s' t)); cbn.
      + rewrite insert_insert_eq. repeat split; try reflexivity. intros H; by destruct H.
      + split; [reflexivity|]. split; [discriminate|]. intros _. exact Hdb.
    - destruct (PUT_depends_on_db session id req now' _ _ Hsame) as [H1 H2].
      rewrite H1, H2. split; [reflexivity|]. split; [reflexivity|].
      intros Hnot. rewrite Hsame.
      destruct (PUT_cases row_ok session id req now' w)
        as [(user & body & t & s & _ & _ & _ & _ & _ & _ & _ & _ & Hresp & _) | [Hsame' _]];
        [|exact Hsame'].
      rewrite Hresp in Hnot. by destruct Hnot. }
  destruct (Hagain now') as (H1 & H2 & H3). split; [exact H1|]. split; [exact H2|].
  split; [exact H3|].
  destruct (Hagain now) as (_ & H2' & H3').
  destruct (Z.eq_dec (status (PUT session id req now w).1) 200) as [H200|Hnot];
    [exact (H2' H200) | exact (H3' Hnot)].
Qed.

(** X5. Whoever changes the table through PUT or DELETE is allowed to: a
    PUT that changes the database was sent by an administrator or by the
    owner of a task that was pending, a DELETE that changes it by an
    administrator or by the owner. *)
Theorem writes_need_permission (session : option SessionUser) (id : string)
  (req : completion jsval) (now : Z) (w : world) :
  (db (PUT session id req now w).2 <> db w ->
   exists user t,
     session = Some user /\ tasks (db w) !! id = Some t
     /\ (is_admin user = true
         \/ Tasks.employeeId t = user_id user /\ Tasks.status t = Tasks.pending))
  /\ (db (DELETE session id w).2 <> db w ->
      exists user t,
        session = Some user /\ tasks (db w) !! id = Some t
        /\ (is_admin user = true \/ Tasks.employeeId t = user_id user)).
Proof.
  split; intros Hchanged.
  - destruct (PUT_cases row_ok session id req now w)
      as [(user & body & t & s & Hs & _ & _ & Hfound & Hg1 & Hg2 & _) | [Hsame _]];
      [|contradiction].
    exists user, t. split; [exact Hs|]. split; [exact Hfound|].
    apply gate_owner_or_admin in Hg1. apply gate_pending_or_admin in Hg2.
    destruct Hg1 as [Hown|Hadm]; [|auto]. destruct Hg2 as [Hpend|Hadm]; auto.
  - destruct (DELETE_cases session id w)
      as [(user & t & Hs & Hfound & Hg & _) | [Hsame _]]; [|contradiction].
    exists user, t. split; [exact Hs|]. split; [exact Hfound|].
    apply gate_owner_or_admin in Hg. tauto.
Qed.

Lemma consistent_delete d id :
  consistent d -> consistent (Db.set_tasks d (delete id (tasks d))).
Proof.
  intros Hcons k r. cbn. intros Hk.
  destruct (decide (id = k)) as [<-|Hne].
  - rewrite lookup_delete_eq in Hk. discriminate.
  - rewrite lookup_delete_ne in Hk by done. by apply Hcons.
Qed.

Lemma consistent_insert d id t :
  consistent d -> Tasks.id t = id -> is_Some (projects d !! Tasks.projectId t) ->
  consistent (Db.set_tasks d (<[id := t]> (tasks d))).
Proof.
  intros Hcons Hid Hproj k r. cbn. intros Hk.
  destruct (decide (id = k)) as [<-|Hne].
  - rewrite lookup_insert_eq in Hk. injection Hk as <-. auto.
  - rewrite lookup_insert_ne in Hk by done. by apply Hcons.
Qed.

(** X6. The routes keep the table in order: when every task row is stored
    under its own id and names a project that exists, this still holds
    after POST, PUT and DELETE, whatever they answer; and no route changes
    the projects or the users. *)
Theorem routes_keep_database_consistent (session : option SessionUser) (id : string)
  (req : completion jsval) (new_id : string) (now : Z) (w : world) :
  consistent (db w) ->
  (consistent (db (POST session req new_id now w).2)
   /\ consistent (db (PUT session id req now w).2)
   /\ consistent (db (DELETE session id w).2))
  /\ (projects (db (POST session req new_id now w).2) = projects (db w)
      /\ projects (db (PUT session id req now w).2) = projects (db w)
      /\ projects (db (DELETE session id w).2) = projects (db w))
  /\ (users (db (POST session req new_id now w).2) = users (db w)
      /\ users (db (PUT session id req now w).2) = users (db w)
      /\ users (db (DELETE session id w).2) = users (db w)).
Proof.
  intros Hcons.
  assert (Hpost : consistent (db (POST session req new_id now w).2)
                  /\ projects (db (POST session req new_id now w).2) = projects (db w)
                  /\ users (db (POST session req new_id now w).2) = users (db w)).
  { destruct (POST_cases row_ok pg_other session req new_id now w)
      as [(u & b & v & _ & _ & _ & Hproj & _ & _ & ->) | [-> _]]; [|auto].
    split; [|split; reflexivity]. by apply consistent_insert. }
  assert (Hput : consistent (db (PUT session id req now w).2)
                 /\ projects (db (PUT session id req now w).2) = projects (db w)
                 /\ users (db (PUT session id req now w).2) = users (db w)).
  { destruct (PUT_cases row_ok session id req now w)
      as [(u & b & t & s & _ & _ & _ & Hfound & _ & _ & _ & _ & _ & ->) | [-> _]]; [|auto].
    split; [|split; reflexivity].
    destruct (Hcons _ _ Hfound) as [Hid Hproj]. by apply consistent_insert. }
  assert (Hdel : consistent (db (DELETE session id w).2)
                 /\ projects (db (DELETE session id w).2) = projects (db w)
                 /\ users (db (DELETE session id w).2) = users (db w)).
  { destruct (DELETE_cases session id w)
      as [(u & t & _ & _ & _ & _ & ->) | [-> _]]; [|auto].
    split; [|split; reflexivity]. by apply consistent_delete. }
  tauto.
Qed.

(** X7. Nothing here decides a task: after any POST, PUT or DELETE every
    task in the table has the status, the owner, the project, the creation
    time and the approval columns it had before, except a task that is new,
    which is pending and belongs to the caller. *)
Theorem routes_never_change_status_or_owner (session : option SessionUser) (id : string)
  (req : completion jsval) (new_id : string) (now : Z) (w : world) :
  keeps_decisions session (db w) (db (POST session req new_id now w).2)
  /\ keeps_decisions session (db w) (db (PUT session id req now w).2)
  /\ keeps_decisions session (db w) (db (DELETE session id w).2).
Proof.
  assert (Hsame : keeps_decisions session (db w) (db w)).
  { intros k r Hk. left. exists r. repeat split; assumption. }
  split; [|split].
  - destruct (POST_cases row_ok pg_other session req new_id now w)
      as [(u & b & v & -> & _ & Hv & _ & Hfresh & _ & ->) | [-> _]]; [|exact Hsame].
    intros k r. cbn. intros Hk.
    destruct (decide (new_id = k)) as [<-|Hne].
    + rewrite lookup_insert_eq in Hk. injection Hk as <-. right.
      split; [exact Hfresh|].
      destruct (POST_values_fields pg_other _ _ _ Hv) as (_ & _ & _ & _ & _ & Hemp & Hst).
      cbn. rewrite Hemp, Hst. split; reflexivity.
    + rewrite lookup_insert_ne in Hk by done. by apply Hsame.
  - destruct (PUT_cases row_ok session id req now w)
      as [(u & b & t & s & _ & _ & _ & Hfound & _ & _ & _ & _ & _ & ->) | [-> _]];
      [|exact Hsame].
    intros k r. cbn. intros Hk.
    destruct (decide (id = k)) as [<-|Hne].
    + rewrite lookup_insert_eq in Hk. injection Hk as <-. left.
      exists t. repeat split; assumption.
    + rewrite lookup_insert_ne in Hk by done. by apply Hsame.
  - destruct (DELETE_cases session id w)
      as [(u & t & _ & _ & _ & _ & ->) | [-> _]]; [|exact Hsame].
    intros k r. cbn. intros Hk.
    destruct (decide (id = k)) as [<-|Hne].
    + rewrite lookup_delete_eq in Hk. discriminate.
    + rewrite lookup_delete_ne in Hk by done. by apply Hsame.
Qed.

(** X8. Each of the five routes answers 401 exactly when there is no
    session user, and then it sends nothing to the database. *)
Theorem unauthenticated_exactly_401 (session : option SessionUser) (id : string)
  (req : completion jsval) (new_id : string) (now : Z) (p s e : option string) (w : world) :
  ((status (GET_list session p s e w).1 = 401 <-> session = None)
   /\ (api_tasks_id.task_status (GET_one session id w).1 = 401 <-> session = None)
   /\ (status (POST session req new_id now w).1 = 401 <-> session = None)
   /\ (status (PUT session id req now w).1 = 401 <-> session = None)
   /\ (status (DELETE session id w).1 = 401 <-> session = None))
  /\ (session = None ->
      (GET_list session p s e w).2 = w /\ (GET_one session id w).2 = w
      /\ (POST session req new_id now w).2 = w /\ (PUT session id req now w).2 = w
      /\ (DELETE session id w).2 = w).
Proof.
  split; [|intros ->; repeat split; reflexivity].
  destruct session as [user|]; [|repeat split; reflexivity].
  assert (Hno : forall n : Z, n <> 401 -> n = 401 <-> Some user = None).
  { intros n Hn. split; [contradiction|discriminate]. }
  split; [rewrite GET_eq; by apply Hno|].
  split; [rewrite GET_one_eq; destruct (tasks (db w) !! id); by apply Hno|].
  split; [|split].
  - destruct (POST_cases row_ok pg_other (Some user) req new_id now w)
      as [(u & b & v & _ & _ & _ & _ & _ & -> & _) | [_ [[Hs _]|[_ Hst]]]];
      [by apply Hno|discriminate|].
    apply Hno. destruct Hst as [-> | [-> | ->]]; discriminate.
  - destruct (PUT_cases row_ok (Some user) id req now w)
      as [(u & b & t & st & _ & _ & _ & _ & _ & _ & _ & _ & -> & _) | [_ [[Hs _]|[_ Hst]]]];
      [by apply Hno|discriminate|].
    apply Hno. destruct Hst as [-> | [-> | [-> | ->]]]; discriminate.
  - destruct (DELETE_cases (Some user) id w)
      as [(u & t & _ & _ & _ & -> & _) | [_ [[Hs _]|[_ Hst]]]];
      [by apply Hno|discriminate|].
    apply Hno. destruct Hst as [-> | ->]; discriminate.
Qed.

(** X9. POST never changes or removes a task that is there, whatever it
    answers; when the generated key is taken, nothing is written. *)
Theorem POST_keeps_existing_rows (session : option SessionUser)
  (req : completion jsval) (new_id : string) (now : Z) (w : world) :
  (forall id t, tasks (db w) !! id = Some t ->
     tasks (db (POST session req new_id now w).2) !! id = Some t)
  /\ (is_Some (tasks (db w) !! new_id) ->
      db (POST session req new_id now w).2 = db w
      /\ status (POST session req new_id now w).1 <> 201).
Proof.
  destruct (POST_cases row_ok pg_other session req new_id now w)
    as [(u & b & v & _ & _ & _ & _ & Hfresh & _ & ->) | [-> Hst]].
  - split.
    + intros id t Hid. cbn. rewrite lookup_insert_ne; [exact Hid|]. congruence.
    + intros [t Ht]. congruence.
  - split; [auto|]. intros _. split; [reflexivity|].
    destruct Hst as [[_ ->] | [_ [-> | [-> | ->]]]]; discriminate.
Qed.

Lemma trimStart_empty s : trimStart s = "" <-> all_space s = true.
Proof.
  induction s as [|c s IH]; cbn; [tauto|].
  destruct (is_space c); cbn; [exact IH|]. split; discriminate.
Qed.

Lemma trimEnd_empty s : trimEnd s = "" <-> all_space s = true.
Proof.
  induction s as [|c s IH]; cbn; [tauto|].
  destruct (trimEnd s) as [|c' r].
  - destruct (is_space c); cbn; [|split; discriminate].
    split; intros _; [by apply IH | reflexivity].
  - split; [discriminate|]. intros Hall. apply andb_prop in Hall as [_ Hall].
    apply IH in Hall. discriminate.
Qed.

Lemma all_space_trimStart s : all_space (trimStart s) = all_space s.
Proof.
  induction s as [|c s IH]; cbn; [reflexivity|].
  destruct (is_space c) eqn:Hc; cbn; [exact IH|]. rewrite Hc. reflexivity.
Qed.

Lemma trim_empty s : trim s = "" <-> all_space s = true.
Proof. unfold trim. rewrite trimEnd_empty, all_space_trimStart. reflexivity. Qed.

Lemma PUT_name_required (user : SessionUser) (id : string) (body : jsval)
  (now : Z) (w : world) :
  nullish body = false ->
  ((PUT (Some user) id (Normal body) now w).1 = error "Task name is required" 400
   <-> field body "taskName" = JUndefined \/ field body "taskName" = JNull
       \/ exists s, field body "taskName" = JStr s /\ all_space s = true)
  /\ ((PUT (Some user) id (Normal body) now w).1 = error "Task name is required" 400 ->
      (PUT (Some user) id (Normal body) now w).2 = w).
Proof.
  intros Hbody. rewrite PUT_eq, Hbody. unfold PUT_validation.
  destruct (field body "taskName") as [| |b|f|name|l|kv] eqn:Hname; cbn.
  1,2: split; [split; auto|reflexivity].
  1,2,4,5: split; [split; [discriminate|]|discriminate];
    intros [|[|(s & ? & _)]]; discriminate.
  destruct (String.eqb_spec (trim name) "") as [Hempty|Hfull]; cbn.
  - split; [|reflexivity]. split; [|reflexivity].
    intros _. right; right. exists name. split; [reflexivity|]. by apply trim_empty.
  - assert (Hother : ~ (field body "taskName" = JUndefined \/ field body "taskName" = JNull
                        \/ exists s, JStr name = JStr s /\ all_space s = true)).
    { rewrite Hname. intros [|[|(s & [= <-] & Hall)]]; try discriminate.
      apply trim_empty in Hall. contradiction. }
    rewrite Hname in Hother.
    destruct (api_tasks_id.actualHours_invalid _) as [[|]|];
      [split; [split; [discriminate|intros H; destruct (Hother H)]|discriminate]|
      |split; [split; [discriminate|intros H; destruct (Hother H)]|discriminate]].
    destruct (tasks (db w) !! id) as [t|];
      [|split; [split; [discriminate|intros H; destruct (Hother H)]|discriminate]].
    destruct (api_tasks_id.not_owner_nor_admin t user);
      [split; [split; [discriminate|intros H; destruct (Hother H)]|discriminate]|].
    destruct (api_tasks_id.decided_and_not_admin t user);
      [split; [split; [discriminate|intros H; destruct (Hother H)]|discriminate]|].
    destruct (PUT_set body now);
      [|split; [split; [discriminate|intros H; destruct (Hother H)]|discriminate]].
    destruct (row_ok _);
      split; (split; [discriminate|intros H; destruct (Hother H)]) || discriminate.
Qed.

(** X10. For a signed-in caller and a body that is not null, PUT answers
    400 "Task name is required" exactly when [taskName] is missing, null or
    a string of white space only, and it then sends nothing to the
    database.  A [taskName] that is there and is not a string is answered
    500: [taskName?.trim] is not a function. *)
Theorem PUT_name_required_iff (user : SessionUser) (id : string) (body : jsval)
  (now : Z) (w : world) :
  nullish body = false ->
  ((PUT (Some user) id (Normal body) now w).1 = error "Task name is required" 400
   <-> field body "taskName" = JUndefined \/ field body "taskName" = JNull
       \/ exists s, field body "taskName" = JStr s /\ all_space s = true)
  /\ ((PUT (Some user) id (Normal body) now w).1 = error "Task name is required" 400 ->
      (PUT (Some user) id (Normal body) now w).2 = w)
  /\ (nullish (field body "taskName") = false ->
      (forall s, field body "taskName" <> JStr s) ->
      PUT (Some user) id (Normal body) now w = (error "Failed to update task" 500, w)).
Proof.
  intros Hbody. destruct (PUT_name_required user id body now w Hbody) as [Hiff Hsent].
  split; [exact Hiff|]. split; [exact Hsent|].
  intros Hthere Hother. rewrite PUT_eq, Hbody. unfold PUT_validation.
  destruct (field body "taskName") as [| |b|f|name|l|kv]; try discriminate; try reflexivity.
  destruct (Hother name eq_refl).
Qed.

End Routes.

Section RoutesExamples.

Import Sample.

Lemma db0_consistent : consistent db0.
Proof.
  assert (H : map_Forall (fun id t => Tasks.id t = id
                                      /\ is_Some (projects db0 !! Tasks.projectId t))
                (tasks db0)).
  { apply (bool_decide_unpack _). vm_compute. exact I. }
  intros id t Hid. exact (H id t Hid).
Defined.

(** Bob's new task is read back by Alice. *)
Lemma created_task_can_be_read_back_witness :
  exists t,
    (api_tasks_id.GET (Some alice) "t9"
       (api_tasks.POST accept_all strings_only (Some bob)
          (Normal (create_body "p1" "Design" (JNum 2) (JStr "1.5"))) "t9" 999 w0).2).1
    = api_tasks_id.TaskFound t 200
    /\ v_taskId t = "t9".
Proof.
  destruct (created_task_can_be_read_back accept_all strings_only (Some bob)
              (Normal (create_body "p1" "Design" (JNum 2) (JStr "1.5"))) "t9" 999 w0 alice)
    as (t & _ & Hid & Hget & _).
  - vm_compute. reflexivity.
  - eexists. split; [exact Hget|]. exact Hid.
Defined.

(** Alice deletes her approved task; Bob no longer finds it. *)
Lemma deleted_task_is_gone_witness :
  (api_tasks_id.GET (Some bob) "t2" (api_tasks_id.DELETE (Some alice) "t2" w0).2).1
  = api_tasks_id.TaskError (error "Task not found" 404)
  /\ forall views,
       (api_tasks.GET (Some bob) None None None (api_tasks_id.DELETE (Some alice) "t2" w0).2).1
         = NextResponse_json (TasksBody views) 200 ->
       forall v, v ∈ views -> v_taskId v <> "t2".
Proof.
  destruct (deleted_task_is_gone (Some alice) "t2" w0 bob) as (Hget & _ & _ & Hlist).
  - vm_compute. reflexivity.
  - split; [exact Hget|]. intros views. apply (Hlist db0_consistent).
Defined.

(** The administrator's save is read back with the name trimmed. *)
Lemma updated_task_can_be_read_back_witness :
  exists t',
    (api_tasks_id.PUT accept_all (Some carol) "t2" (Normal dashboard_body) 999 w0).1
      = NextResponse_json (TaskBody (Some t')) 200
    /\ Tasks.taskName t' = trim " Design v2 ".
Proof.
  destruct (updated_task_can_be_read_back accept_all (Some carol) "t2"
              (Normal dashboard_body) 999 w0 alice)
    as (t' & body & name & Hreq & Hname & Hresp & _ & Htrim & _).
  - vm_compute. reflexivity.
  - exists t'. split; [exact Hresp|]. rewrite Htrim.
    injection Hreq as <-. vm_compute in Hname. injection Hname as <-. reflexivity.
Defined.

(** The sample database is in order, and stays so. *)
Lemma routes_keep_database_consistent_witness :
  consistent (db (api_tasks.POST accept_all strings_only (Some bob)
                    (Normal (create_body "p1" "Design" (JNum 2) (JStr "1.5"))) "t9" 999 w0).2)
  /\ consistent (db (api_tasks_id.DELETE (Some alice) "t2" w0).2).
Proof.
  destruct (routes_keep_database_consistent accept_all strings_only (Some bob) "t2"
              (Normal (create_body "p1" "Design" (JNum 2) (JStr "1.5"))) "t9" 999 w0
              db0_consistent) as [(Hpost & _ & _) _].
  destruct (routes_keep_database_consistent accept_all strings_only (Some alice) "t2"
              (Normal dashboard_body) "t9" 999 w0 db0_consistent) as [(_ & _ & Hdel) _].
  split; assumption.
Defined.

(** A name of blanks is refused and nothing is sent. *)
Lemma PUT_name_required_iff_witness :
  (api_tasks_id.PUT accept_all (Some alice) "t1"
     (Normal (JObj [("taskName", JStr "   ")])) 999 w0)
  = (error "Task name is required" 400, w0).
Proof.
  destruct (PUT_name_required_iff accept_all alice "t1"
              (JObj [("taskName", JStr "   ")]) 999 w0 eq_refl) as (Hiff & Hsent & _).
  assert (H : (api_tasks_id.PUT accept_all (Some alice) "t1"
                 (Normal (JObj [("taskName", JStr "   ")])) 999 w0).1
              = error "Task name is required" 400).
  { apply Hiff. right; right. exists "   ". split; reflexivity. }
  apply injective_projections; [exact H | exact (Hsent H)].
Defined.

(** The administrator's save made again a moment later: the row is the one
    the second save alone would store, stamped with the later time. *)
Lemma PUT_again_is_PUT_at_the_later_time_witness :
  db (api_tasks_id.PUT accept_all (Some carol) "t2" (Normal dashboard_body) 1000
        (api_tasks_id.PUT accept_all (Some carol) "t2" (Normal dashboard_body) 999 w0).2).2
  = db (api_tasks_id.PUT accept_all (Some carol) "t2" (Normal dashboard_body) 1000 w0).2
  /\ Tasks.updatedAt <$>
       tasks (db (api_tasks_id.PUT accept_all (Some carol) "t2" (Normal dashboard_body) 1000
                    w0).2) !! "t2"
     = Some 1000.
Proof.
  destruct (PUT_again_is_PUT_at_the_later_time accept_all (Some carol) "t2"
              (Normal dashboard_body) 999 1000 w0) as (_ & Hdb & _).
  split.
  - apply Hdb. vm_compute. reflexivity.
  - vm_compute. reflexivity.
Defined.

(** Alice's delete of her task changes the table, and she owns the task. *)
Lemma writes_need_permission_witness :
  exists user t,
    Some alice = Some user /\ tasks (db w0) !! "t2" = Some t
    /\ (is_admin user = true \/ Tasks.employeeId t = user_id user).
Proof.
  destruct (writes_need_permission accept_all (Some alice) "t2"
              (Normal dashboard_body) 999 w0) as [_ Hdelete].
  apply Hdelete. intros Hsame.
  apply (f_equal (fun d => tasks d !! "t2")) in Hsame.
  vm_compute in Hsame. discriminate Hsame.
Defined.

(** A key that is taken: nothing is written and the answer is not 201. *)
Lemma POST_keeps_existing_rows_witness :
  db (api_tasks.POST accept_all strings_only (Some bob)
        (Normal (create_body "p1" "Design" (JNum 2) (JStr "1.5"))) "t1" 999 w0).2 = db w0.
Proof.
  destruct (POST_keeps_existing_rows accept_all strings_only (Some bob)
              (Normal (create_body "p1" "Design" (JNum 2) (JStr "1.5"))) "t1" 999 w0)
    as [_ Htaken].
  apply Htaken. vm_compute. eexists. reflexivity.
Defined.

End RoutesExamples.

(** ** The form for a new project *)

Section ProjectForm.

Import AddProjectModal.

(** X11. [validateForm] lets a form through exactly when the project name,
    with its outer white space removed, has 3 to 255 characters and the
    description has at most 1000; both bounds are allowed. *)
Theorem validateForm_accepts_iff (formData : FormData) :
  (validateForm formData).2 = true <->
  (3 <= String.length (trim (projectName formData)) <= 255)%nat
  /\ (String.length (description formData) <= 1000)%nat.
Proof.
  unfold validateForm, keys, truthy.
  cbn [snd err_projectName err_description err_submit].
  destruct (String.eqb_spec (trim (projectName formData)) "") as [Hname|Hname].
  { rewrite Hname. cbn. split; [discriminate|]. intros [[H _] _]. lia. }
  cbn [negb].
  destruct (Nat.ltb_spec (String.length (trim (projectName formData))) 3).
  { cbn [key Nat.add Nat.eqb]. split; [discriminate|]. intros [[H' _] _]. lia. }
  destruct (Nat.ltb_spec 255 (String.length (trim (projectName formData)))).
  { cbn [key Nat.add Nat.eqb]. split; [discriminate|]. intros [[_ H'] _]. lia. }
  destruct (String.eqb_spec (description formData) "") as [Hdesc|Hdesc].
  { rewrite Hdesc. cbn. split; [intros _; lia | reflexivity]. }
  cbn [negb andb].
  destruct (Nat.ltb_spec 1000 (String.length (description formData)));
    cbn [key Nat.add Nat.eqb].
  - split; [discriminate|]. intros [_ H']. lia.
  - split; [intros _; lia | reflexivity].
Qed.

End ProjectForm.

(** ** The administrator's view *)

Set Warnings "-clear-no-such-hyp".

Section Selection.

Import ProjectDetailView.

(** X12. Ticking a task twice leaves the selection as it was; one tick
    changes the selection of that task and of no other; and after "select
    all" exactly the tasks shown are selected. *)
Theorem selection_toggles_one_task (id : string) (selected : gset string)
  (filtered : list Task) :
  handleToggleSelect id (handleToggleSelect id selected) = selected
  /\ (isTaskSelected id (handleToggleSelect id selected) = negb (isTaskSelected id selected))
  /\ (forall id', id' <> id ->
        isTaskSelected id' (handleToggleSelect id selected) = isTaskSelected id' selected)
  /\ (forall id',
        isTaskSelected id' (handleSelectAll filtered) = true
        <-> exists t, t ∈ filtered /\ taskId t = id').
Proof.
  unfold handleToggleSelect, isTaskSelected, handleSelectAll.
  split; [|split; [|split]].
  - destruct (decide (id ∈ selected)) as [Hin|Hout].
    + rewrite (bool_decide_eq_true_2 _ Hin).
      rewrite bool_decide_eq_false_2 by set_solver.
      apply set_eq. intros x. destruct (decide (x = id)); set_solver.
    + rewrite (bool_decide_eq_false_2 _ Hout).
      rewrite bool_decide_eq_true_2 by set_solver.
      apply set_eq. intros x. set_solver.
  - destruct (decide (id ∈ selected)) as [Hin|Hout].
    + rewrite !(bool_decide_eq_true_2 _ Hin). cbn.
      apply bool_decide_eq_false_2. set_solver.
    + rewrite !(bool_decide_eq_false_2 _ Hout). cbn.
      apply bool_decide_eq_true_2. set_solver.
  - intros id' Hne. apply bool_decide_ext.
    destruct (bool_decide (id ∈ selected)); set_solver.
  - intros id'. rewrite bool_decide_eq_true, elem_of_list_to_set, list_elem_of_fmap.
    split; intros (t & H1 & H2); exists t; auto.
Qed.

End Selection.

Section Search.

Import ProjectDetailView.

Lemma prefix_refl s : String.prefix s s = true.
Proof.
  induction s as [|c s IH]; [reflexivity|]. cbn.
  destruct (ascii_dec c c); [exact IH | contradiction].
Qed.

Lemma includes_refl s : includes s s = true.
Proof. destruct s; cbn; [reflexivity|]. rewrite prefix_refl. destruct (ascii_dec a a); reflexivity || contradiction. Qed.

Lemma status_text_lower st :
  toLowerCase (Tasks.status_text st) = Tasks.status_text st.
Proof. destruct st; reflexivity. Qed.

Lemma filter_sublist {A} (f : A -> bool) (l : list A) : sublist (List.filter f l) l.
Proof.
  induction l as [|x l IH]; cbn; [constructor|].
  destruct (f x); by constructor.
Qed.

Lemma filter_filter_same {A} (f : A -> bool) (l : list A) :
  List.filter f (List.filter f l) = List.filter f l.
Proof.
  induction l as [|x l IH]; cbn; [reflexivity|].
  destruct (f x) eqn:Hx; cbn; rewrite ?Hx, IH; reflexivity.
Qed.

(** X13. The task search keeps tasks of the list in their order; searching
    the result again changes nothing; with an empty term every task stays;
    and the name of a status, in any letter case, keeps every task of that
    status. *)
Theorem search_keeps_tasks_in_order (term : string) (tasks : list Task) :
  sublist (search_tasks term tasks) tasks
  /\ search_tasks term (search_tasks term tasks) = search_tasks term tasks
  /\ search_tasks "" tasks = tasks
  /\ (forall t, t ∈ search_tasks term tasks
                <-> t ∈ tasks /\ (term = "" \/ matches_search term t = true))
  /\ (forall st t,
        toLowerCase term = Tasks.status_text st ->
        t ∈ tasks -> status t = st -> t ∈ search_tasks term tasks).
Proof.
  assert (Hmem : forall t, t ∈ search_tasks term tasks
                           <-> t ∈ tasks /\ (term = "" \/ matches_search term t = true)).
  { intros t. unfold search_tasks, truthy.
    destruct (String.eqb_spec term "") as [->|Hterm]; cbn.
    - tauto.
    - rewrite !list_elem_of_In, List.filter_In. intuition congruence. }
  split; [|split; [|split; [|split]]].
  - unfold search_tasks. destruct (truthy _); [apply filter_sublist | reflexivity].
  - unfold search_tasks. destruct (truthy _); [apply filter_filter_same | reflexivity].
  - reflexivity.
  - exact Hmem.
  - intros st t Hterm Hin Hst. apply Hmem. split; [exact Hin|]. right.
    unfold matches_search. rewrite Hst, status_text_lower, Hterm, includes_refl.
    apply orb_true_r.
Qed.

End Search.

Section SaveFromView.

#[local] Abbreviation answer := status.

Import ProjectDetailView.

Variable row_ok : Tasks.row -> bool.
Variable session : option SessionUser.
Variable now : Z.
Variable now_iso : string.
Variable iso_day : string -> completion string.
Variable in_future : string -> bool.

#[local] Abbreviation save := (handleSaveEdit row_ok session now now_iso in_future).
#[local] Abbreviation PUT_saved id st w :=
  (api_tasks_id.PUT row_ok session id (Normal (save_body st)) now w).

Lemma trimEnd_cons c s :
  trimEnd (String c s)
  = match trimEnd s with
    | EmptyString => if is_space c then EmptyString else String c EmptyString
    | r => String c r
    end.
Proof. reflexivity. Qed.

Lemma trimEnd_twice s : trimEnd (trimEnd s) = trimEnd s.
Proof.
  induction s as [|c s IH]; [reflexivity|]. rewrite trimEnd_cons.
  destruct (trimEnd s) as [|c' r] eqn:Hs.
  - destruct (is_space c) eqn:Hc; [reflexivity|]. cbn. rewrite Hc. reflexivity.
  - rewrite trimEnd_cons, IH. reflexivity.
Qed.

Lemma trimStart_head s c r : trimStart s = String c r -> is_space c = false.
Proof.
  induction s as [|c0 s IH]; cbn; [discriminate|].
  destruct (is_space c0) eqn:Hc; [exact IH|]. intros [= <- _]. exact Hc.
Qed.

Lemma trimStart_trimEnd_clean c r :
  is_space c = false -> trimStart (trimEnd (String c r)) = trimEnd (String c r).
Proof.
  intros Hc. rewrite trimEnd_cons. destruct (trimEnd r); rewrite ?Hc; cbn; rewrite Hc; reflexivity.
Qed.

Lemma trim_twice s : trim (trim s) = trim s.
Proof.
  unfold trim. destruct (trimStart s) as [|c r] eqn:Hs; [reflexivity|].
  rewrite (trimStart_trimEnd_clean c r (trimStart_head s c r Hs)).
  apply trimEnd_twice.
Qed.

Lemma snoc_ne {A} (l : list A) (x : A) : (l ++ [x])%list <> l.
Proof. intros H. apply (f_equal length) in H. rewrite length_app in H. cbn in H. lia. Qed.

Lemma save_body_valid st :
  trim (editedTaskName st) <> "" -> PUT_validation (save_body st) = Value tt.
Proof.
  intros Hname. apply PUT_validation_passes. split; [|reflexivity].
  exists (trim (editedTaskName st)). split; [reflexivity|]. by rewrite trim_twice.
Qed.

(** A save is refused by the form, or sent and answered. *)
Lemma save_cases id st w :
  (exists msg,
     In msg ["Task name cannot be empty";
             "Expected hours must be a valid positive number";
             "Please select a date"; "Cannot select a future date"]
     /\ save id st w = (alert msg st, w))
  \/ (trim (editedTaskName st) <> ""
      /\ (ok (PUT_saved id st w).1 = true
          /\ save id st w = (saved now_iso id st, (PUT_saved id st w).2)
          \/ ok (PUT_saved id st w).1 = false
             /\ save id st w
                = (set_isSaving false
                     (alert (error_or (PUT_saved id st w).1 "Failed to update task") st),
                   (PUT_saved id st w).2))).
Proof.
  unfold handleSaveEdit, truthy.
  destruct (String.eqb_spec (trim (editedTaskName st)) "") as [Hname|Hname]; cbn [negb].
  { left. eexists. split; [|reflexivity]. cbn. auto. }
  destruct (isNaN _ || lt0 _).
  { left. eexists. split; [|reflexivity]. cbn. auto. }
  destruct (String.eqb (editedDate st) ""); cbn [negb].
  { left. eexists. split; [|reflexivity]. cbn. auto. }
  destruct (in_future _).
  { left. eexists. split; [|reflexivity]. cbn. auto. }
  right. split; [exact Hname|].
  destruct (api_tasks_id.PUT _ _ _ _ _ _) as [response w']. cbn [fst snd].
  destruct (ok response); [left | right]; split; reflexivity.
Qed.

Lemma ok_PUT_is_200 id req w :
  ok (api_tasks_id.PUT row_ok session id req now w).1 = true ->
  answer (api_tasks_id.PUT row_ok session id req now w).1 = 200.
Proof.
  destruct (PUT_cases row_ok session id req now w)
    as [(u & b & t & s & _ & _ & _ & _ & _ & _ & _ & _ & -> & _) | [_ Hst]];
    [reflexivity|].
  unfold ok. destruct Hst as [[_ ->] | [_ [-> | [-> | [-> | ->]]]]]; discriminate.
Qed.

(** X14. A saved edit shows what the route did not store.  When the save
    ends without a message, every task of the view with that id shows the
    status, the date, the name and the hours of the form, while the row in
    the table has kept its status and its creation time and holds the
    trimmed name. *)
Theorem saved_edit_shows_what_is_not_stored (id : string) (st : State) (w : world) :
  alerts (save id st w).1 = alerts st ->
  (forall c, c ∈ allTasks (save id st w).1 -> taskId c = id ->
     status c = editedStatus st /\ createdAt c = editedDate st
     /\ taskName c = editedTaskName st /\ expectedHours c = editedExpectedHours st)
  /\ exists t t',
       tasks (db w) !! id = Some t
       /\ tasks (db (save id st w).2) !! id = Some t'
       /\ Tasks.status t' = Tasks.status t
       /\ Tasks.createdAt t' = Tasks.createdAt t
       /\ Tasks.taskName t' = trim (editedTaskName st).
Proof.
  intros Hquiet.
  destruct (save_cases id st w) as [(msg & _ & Heq) | [Hname [[Hok Heq] | [_ Heq]]]].
  - rewrite Heq in Hquiet. cbn in Hquiet. destruct (snoc_ne _ _ Hquiet).
  - rewrite Heq. cbn [fst snd]. split.
    + intros c Hc Hid. cbn in Hc. apply list_elem_of_fmap in Hc as (c0 & -> & _).
      destruct (String.eqb_spec (taskId c0) id) as [_|Hne]; [repeat split|].
      contradiction.
    + apply ok_PUT_is_200 in Hok.
      destruct (PUT_cases row_ok session id (Normal (save_body st)) now w)
        as [(u & b & t & s & _ & [= <-] & Hvalid & Hfound & _ & _ & Hset & _ & _ & Hdb)
           | [_ Hst]].
      * exists t, (Db.apply_set s t). split; [exact Hfound|].
        split; [rewrite Hdb; cbn; apply lookup_insert_eq|].
        split; [reflexivity|]. split; [reflexivity|].
        destruct (PUT_set_name _ _ _ Hvalid Hset) as (name & Hfield & Htrim & _).
        cbn in Hfield. injection Hfield as <-. cbn. rewrite Htrim. apply trim_twice.
      * destruct Hst as [[_ Hst] | [_ [Hst | [Hst | [Hst | Hst]]]]];
          rewrite Hst in Hok; discriminate.
  - rewrite Heq in Hquiet. cbn in Hquiet. destruct (snoc_ne _ _ Hquiet).
Qed.

(** X15. The edit form approves on screen only.  When the edit of a
    pending task is opened and saved as it is, without a message, the view
    shows the task as approved and the table still holds it as pending. *)
Theorem edit_of_pending_task_shows_approved (c : Task) (st st1 : State) (w : world)
  (t : Tasks.row) :
  c ∈ allTasks st ->
  status c = Tasks.pending ->
  tasks (db w) !! taskId c = Some t ->
  Tasks.status t = Tasks.pending ->
  handleEditClick iso_day c st = Normal st1 ->
  alerts (save (taskId c) st1 w).1 = alerts st1 ->
  (exists c', c' ∈ allTasks (save (taskId c) st1 w).1
              /\ taskId c' = taskId c /\ status c' = Tasks.approved)
  /\ (exists t', tasks (db (save (taskId c) st1 w).2) !! taskId c = Some t'
                 /\ Tasks.status t' = Tasks.pending).
Proof.
  intros Hin Hpending Hfound Hstored Hedit Hquiet.
  unfold handleEditClick in Hedit.
  destruct (iso_day (createdAt c)) as [day|]; [|discriminate].
  injection Hedit as <-.
  destruct (save_cases (taskId c) {| allTasks := allTasks st; filteredTasks := filteredTasks st;
     taskSearchTerm := taskSearchTerm st; editingTaskId := Some (taskId c);
     editedTaskName := taskName c; editedExpectedHours := expectedHours c;
     editedStatus := if String.eqb (Tasks.status_text (status c)) "pending"
                     then Tasks.approved else status c;
     editedDate := day; isSaving := isSaving st; deletingTaskId := deletingTaskId st;
     selectedTasks := selectedTasks st; alerts := alerts st |} w)
    as [(msg & _ & Heq) | [Hname [[Hok Heq] | [_ Heq]]]].
  - rewrite Heq in Hquiet. cbn in Hquiet. destruct (snoc_ne _ _ Hquiet).
  - rewrite Heq. cbn [fst snd]. split.
    + eexists. split.
      * cbn. apply list_elem_of_fmap. exists c. split; [reflexivity | exact Hin].
      * rewrite String.eqb_refl. cbn. rewrite Hpending. split; reflexivity.
    + apply ok_PUT_is_200 in Hok.
      match type of Hok with answer (api_tasks_id.PUT _ _ _ ?req _ _).1 = _ =>
        destruct (PUT_cases row_ok session (taskId c) req now w)
          as [(u & b & t0 & s & _ & _ & _ & Hfound0 & _ & _ & _ & _ & _ & Hdb) | [_ Hst]]
      end.
      * exists (Db.apply_set s t0). rewrite Hdb. cbn. rewrite lookup_insert_eq.
        split; [reflexivity|]. rewrite Hfound in Hfound0. injection Hfound0 as <-.
        exact Hstored.
      * destruct Hst as [[_ Hst] | [_ [Hst | [Hst | [Hst | Hst]]]]];
          rewrite Hst in Hok; discriminate.
  - rewrite Heq in Hquiet. cbn in Hquiet. destruct (snoc_ne _ _ Hquiet).
Qed.

(** X16. The form and the route agree on the name: either the form refuses
    the edit with one of its four messages and nothing is sent, or the
    request goes out and the route does not answer 400. *)
Theorem saved_edit_is_never_answered_400 (id : string) (st : State) (w : world) :
  (exists msg,
     In msg ["Task name cannot be empty";
             "Expected hours must be a valid positive number";
             "Please select a date"; "Cannot select a future date"]
     /\ save id st w = (alert msg st, w))
  \/ ((save id st w).2 = (PUT_saved id st w).2
      /\ answer (PUT_saved id st w).1 <> 400).
Proof.
  destruct (save_cases id st w) as [Hform | [Hname Hsent]]; [left; exact Hform|].
  right. split.
  - destruct Hsent as [[_ ->] | [_ ->]]; reflexivity.
  - destruct session as [user|]; [|rewrite PUT_unauthenticated; discriminate].
    rewrite PUT_eq, (save_body_valid _ Hname). cbn [nullish save_body].
    destruct (tasks (db w) !! id) as [t|]; [|discriminate].
    destruct (api_tasks_id.not_owner_nor_admin t user); [discriminate|].
    destruct (api_tasks_id.decided_and_not_admin t user); [discriminate|].
    destruct (PUT_set _ _); [|discriminate].
    destruct (row_ok _); discriminate.
Qed.

End SaveFromView.

Section DeleteFromView.

#[local] Abbreviation answer := status.

Import ProjectDetailView.

Variable session : option SessionUser.

#[local] Abbreviation delete_task := (handleDeleteTask session).

(** X17. After a delete the view and the table agree.  Without the
    confirmation nothing is sent and nothing changes; when the route answers
    200 the task is gone from the table, from both lists of the view and
    from the selection, and the other tasks of the view stay; on any other
    answer the table and the tasks of the view are as before. *)
Theorem delete_keeps_view_and_table_together (id : string) (st : State) (w : world) :
  delete_task false id st w = (st, w)
  /\ (answer (api_tasks_id.DELETE session id w).1 = 200 ->
      tasks (db (delete_task true id st w).2) !! id = None
      /\ (forall c, c ∈ allTasks (delete_task true id st w).1
                    <-> c ∈ allTasks st /\ taskId c <> id)
      /\ (forall c, c ∈ filteredTasks (delete_task true id st w).1
                    <-> c ∈ filteredTasks st /\ taskId c <> id)
      /\ isTaskSelected id (selectedTasks (delete_task true id st w).1) = false)
  /\ (answer (api_tasks_id.DELETE session id w).1 <> 200 ->
      db (delete_task true id st w).2 = db w
      /\ allTasks (delete_task true id st w).1 = allTasks st
      /\ filteredTasks (delete_task true id st w).1 = filteredTasks st
      /\ selectedTasks (delete_task true id st w).1 = selectedTasks st).
Proof.
  assert (Hfilter : forall (l : list Task) c,
            c ∈ List.filter (fun t => negb (String.eqb (taskId t) id)) l
            <-> c ∈ l /\ taskId c <> id).
  { intros l c. rewrite !list_elem_of_In, List.filter_In, negb_true_iff, String.eqb_neq.
    reflexivity. }
  split; [reflexivity|]. unfold handleDeleteTask. cbn [negb].
  destruct (DELETE_cases session id w) as [(u & t & _ & _ & _ & H200 & Hdb) | [Hdb Hst]].
  - destruct (api_tasks_id.DELETE session id w) as [response w'] eqn:Hd.
    cbn [fst snd] in *. unfold ok. rewrite H200.
    change ((200 <=? 200) && (200 <=? 299)) with true. cbn [fst snd].
    split; [|intros Hne; contradiction].
    intros _. split; [rewrite Hdb; cbn; apply lookup_delete_eq|].
    split; [apply Hfilter|]. split; [apply Hfilter|].
    cbn. apply bool_decide_eq_false_2. set_solver.
  - destruct (api_tasks_id.DELETE session id w) as [response w'] eqn:Hd.
    cbn [fst snd] in *.
    assert (Hok : ok response = false).
    { unfold ok. destruct Hst as [[_ ->] | [_ [-> | ->]]]; reflexivity. }
    rewrite Hok. cbn [fst snd]. split.
    + intros H200. destruct Hst as [[_ Hst] | [_ [Hst | Hst]]];
        rewrite Hst in H200; discriminate.
    + intros _. repeat split; try reflexivity. exact Hdb.
Qed.

End DeleteFromView.

Section DashboardExamples.

Import ProjectDetailView Sample.

(** The administrator opens the edit of the pending task [t1] and saves
    it: the view shows it approved, the table has it pending. *)
Lemma edit_of_pending_task_shows_approved_witness :
  exists st1,
    handleEditClick first_ten c1 view0 = Normal st1
    /\ (exists c', c' ∈ allTasks (handleSaveEdit accept_all (Some carol) 999
                                    "2024-03-01T10:00:00.000Z" never_future "t1" st1 w0).1
                   /\ taskId c' = "t1" /\ status c' = Tasks.approved)
    /\ (exists t', tasks (db (handleSaveEdit accept_all (Some carol) 999
                                "2024-03-01T10:00:00.000Z" never_future "t1" st1 w0).2) !! "t1"
                   = Some t'
                   /\ Tasks.status t' = Tasks.pending).
Proof.
  eexists. split; [reflexivity|].
  apply (edit_of_pending_task_shows_approved accept_all (Some carol) 999
           "2024-03-01T10:00:00.000Z" first_ten never_future c1 view0 _ w0 t1).
  - vm_compute. left.
  - reflexivity.
  - vm_compute. reflexivity.
  - reflexivity.
  - reflexivity.
  - vm_compute. reflexivity.
Defined.

Lemma saved_edit_shows_what_is_not_stored_witness :
  exists st1,
    handleEditClick first_ten c1 view0 = Normal st1
    /\ exists t',
         tasks (db (handleSaveEdit accept_all (Some carol) 999
                      "2024-03-01T10:00:00.000Z" never_future "t1" st1 w0).2) !! "t1" = Some t'
         /\ Tasks.createdAt t' = 200.
Proof.
  eexists. split; [reflexivity|].
  destruct (saved_edit_shows_what_is_not_stored accept_all (Some carol) 999
              "2024-03-01T10:00:00.000Z" never_future "t1"
              {| allTasks := [c1; c2]; filteredTasks := [c1; c2]; taskSearchTerm := "";
                 editingTaskId := Some "t1"; editedTaskName := "Design";
                 editedExpectedHours := "10"; editedStatus := Tasks.approved;
                 editedDate := "2024-01-01"; isSaving := false; deletingTaskId := None;
                 selectedTasks := {["t2"]}; alerts := [] |} w0)
    as (_ & t & t' & Hold & Hnew & _ & Hcreated & _).
  - vm_compute. reflexivity.
  - exists t'. split; [exact Hnew|]. rewrite Hcreated.
    assert (Hl : tasks (db w0) !! "t1" = Some t1) by (vm_compute; reflexivity).
    rewrite Hl in Hold. injection Hold as <-. reflexivity.
Defined.

(** The administrator deletes the selected task [t2]. *)
Lemma delete_keeps_view_and_table_together_witness :
  tasks (db (handleDeleteTask (Some carol) true "t2" view0 w0).2) !! "t2" = None
  /\ isTaskSelected "t2" (selectedTasks (handleDeleteTask (Some carol) true "t2" view0 w0).1)
     = false.
Proof.
  destruct (delete_keeps_view_and_table_together (Some carol) "t2" view0 w0)
    as (_ & Hdone & _).
  destruct Hdone as (Hgone & _ & _ & Hsel).
  - vm_compute. reflexivity.
  - split; assumption.
Defined.

End DashboardExamples.
